(** * HRIS backend: the dynamic authorization engine and the approval workflow

    A shallow embedding of

    - [src/middleware/authorizeFeature.js]: the permission cache, its
      refresh, the [authorizeFeature] middleware and [canPerform];
    - [src/middleware/checkApprovalAuthority.js]: [canApprove] and
      [checkAuthority];
    - the two leave routers of the repository: the one over the tables
      [LeaveRequests] and [LeaveBalances] ([routes/leave.js]), and the one
      over [hris_leave] and [hris_users], which records an approval chain;
    - the generic request router ([PUT /requests/:id]).

    JavaScript objects that the code uses as dictionaries are finite maps
    ([gmap string _]) of their own properties.  The property access [o[k]]
    reads the own property, else the property that a plain object inherits
    from [Object.prototype], else [undefined] ([Js.get], [Js.inherited]).
    Numbers are integers. *)

From Stdlib Require Import ZArith Lia.
From stdpp Require Import gmap strings list.

Local Open Scope Z_scope.

(** ** JavaScript values *)

Module Js.

(** The values that occur in tokens, request bodies and table items. *)
#[warnings="-register-all"]
Inductive value : Type :=
| Undefined
| Null
| Bool (b : bool)
| Num (n : Z)
| NaN
| Str (s : string)
| Arr (l : list value)
| Obj.

(** [Obj] stands for any object that is not an array, functions
    included: it is truthy, strictly equal to nothing read from elsewhere,
    and not a number. *)

(** [ToBoolean]: what [if (v)], [!v], [a || b] and [a && b] test. *)
Definition truthy (v : value) : bool :=
  match v with
  | Undefined | Null | NaN => false
  | Bool b => b
  | Num n => negb (n =? 0)
  | Str s => negb (bool_decide (s = EmptyString))
  | Arr _ | Obj => true
  end.

(** The property names of [Object.prototype], which every plain object
    (an object literal, a parsed JSON object, a table item) inherits:
    eleven functions and the accessor [__proto__], whose value on a plain
    object is [Object.prototype] itself. *)
Definition objectPrototype : list string :=
  ["constructor"; "__defineGetter__"; "__defineSetter__"; "hasOwnProperty";
   "__lookupGetter__"; "__lookupSetter__"; "isPrototypeOf";
   "propertyIsEnumerable"; "toString"; "valueOf"; "__proto__";
   "toLocaleString"]%string.

Definition inherited (k : string) : bool :=
  bool_decide (k ∈ objectPrototype).

(** [o[k]] on a plain object whose own properties are [o]: the own
    property; else the inherited one, which is a function or
    [Object.prototype]; else [undefined]. *)
Definition get (o : gmap string value) (k : string) : value :=
  match o !! k with
  | Some v => v
  | None => if inherited k then Obj else Undefined
  end.

(** [a || b] *)
Definition or (a b : value) : value := if truthy a then a else b.

(** [a === b] (and [a !== b], its negation).  [NaN] is not equal to
    itself; arrays and objects are compared by reference, and two values
    read from different places are never the same reference. *)
Definition strict_eq (a b : value) : bool :=
  match a, b with
  | Undefined, Undefined | Null, Null => true
  | Bool x, Bool y => bool_decide (x = y)
  | Num x, Num y => x =? y
  | Str x, Str y => bool_decide (x = y)
  | _, _ => false
  end.

(** A field of a JSON body or of a token that is a string when present. *)
Definition ofString (s : option string) : value :=
  match s with
  | Some s => Str s
  | None => Undefined
  end.

(** [a < b]: on two numbers the order of the integers; an operand that
    is [undefined], [NaN] or an object that is not an array makes the
    comparison false.  The conversions of the other operands to numbers
    (a string is parsed, [null] is 0) are not modelled: the properties
    below speak of numbers and of missing values. *)
Definition lt (a b : value) : bool :=
  match a, b with
  | Num x, Num y => x <? y
  | _, _ => false
  end.

End Js.

(** ** [authorizeFeature.js] *)

Module User.
(** [user.roles]: missing, an array of role ids, or some other truthy
    value (which [Array.isArray] rejects). *)
Inductive rolesField : Type :=
| RolesAbsent
| RolesNotArray
| RolesArray (ids : list string).

(** The authenticated actor [req.user], as the token carries it. *)
Record t : Type := mk {
  id : Js.value;
  accessLevel : option Z;
  department : option string;
  permissions : option (gmap string Js.value);
  roles : rolesField
}.
End User.

Module Permission.
(** An item of the permissions table, and the [permissionInfo] object. *)
Record t : Type := mk {
  permissionName : string;
  requiredLevel : Z;
  description : string
}.
End Permission.

Module Role.
(** An item of the roles table; [permissions] may be missing. *)
Record t : Type := mk {
  roleId : string;
  roleName : string;
  permissions : option (list string)
}.
End Role.

Module Cache.
(** [permissionsCache]; [timestamp] is [null] until the first refresh.
    The two dictionaries are plain objects filled by assignments
    [cache[key] = item]: a map holds the item under every assigned key.
    For the key [__proto__] the assignment installs the item as the
    prototype of the dictionary, from which the lookup of [__proto__]
    reads it back; what the lookups of other names then inherit from that
    item is not modelled. *)
Record t : Type := mk {
  timestamp : option Z;
  permissions : gmap string Permission.t;
  roles : gmap string Role.t
}.

(** [ttl: 5 * 60 * 1000] *)
Definition ttl : Z := 5 * 60 * 1000.

(** The module-level initial value. *)
Definition initial : t :=
  {| timestamp := None; permissions := ∅; roles := ∅ |}.
End Cache.

Module Default.
(** An entry of [defaultFeaturePermissions]. *)
Record t : Type := mk {
  defaultLevel : Z;
  description : string
}.
End Default.

(** The outcome of [dynamodb.scan(...).promise()]: the items, or a
    rejected promise. *)
Inductive ScanResult (A : Type) : Type :=
| ScanItems (Items : list A)
| ScanRejected.
Arguments ScanItems {A} Items.
Arguments ScanRejected {A}.

(** What the module observes of the outside during one call: the two table
    scans, and the two readings of [Date.now()] (the staleness test and
    the refresh). *)
Record World : Type := mkWorld {
  scanPermissions : ScanResult Permission.t;
  scanRoles : ScanResult Role.t;
  nowAtCheck : Z;
  nowAtRefresh : Z
}.

(** What a middleware does with the response: call [next()], or end the
    request with [res.status(s).json({message: m})]. *)
Inductive Response : Type :=
| Next
| Json (status : Z) (message : string).

Module AuthorizeFeature.

Definition defaultFeaturePermissions : gmap string Default.t :=
  list_to_map [
    ("employee.view"%string, Default.mk 1 "View own employee profile");
    ("employee.view.all"%string, Default.mk 3 "View all employee profiles");
    ("employee.edit"%string, Default.mk 3 "Edit own team employees");
    ("employee.edit.all"%string, Default.mk 4 "Edit any employee profile");
    ("employee.create"%string, Default.mk 4 "Create new employees");
    ("employee.delete"%string, Default.mk 5 "Delete employee profiles");
    ("requests.create"%string, Default.mk 1 "Create requests");
    ("requests.approve"%string, Default.mk 3 "Approve team requests");
    ("requests.view.all"%string, Default.mk 3 "View all requests");
    ("requests.manage"%string, Default.mk 4 "Manage all requests");
    ("documents.upload"%string, Default.mk 1 "Upload own documents");
    ("documents.view"%string, Default.mk 1 "View own documents");
    ("documents.view.all"%string, Default.mk 4 "View all documents");
    ("documents.manage"%string, Default.mk 4 "Manage document system");
    ("documents.delete"%string, Default.mk 4 "Delete documents");
    ("policies.view"%string, Default.mk 1 "View company policies");
    ("policies.create"%string, Default.mk 4 "Create policies");
    ("policies.update"%string, Default.mk 4 "Update policies");
    ("policies.delete"%string, Default.mk 5 "Delete policies");
    ("policies.manage"%string, Default.mk 4 "Manage policies");
    ("training.enroll"%string, Default.mk 1 "Enroll in trainings");
    ("training.view"%string, Default.mk 1 "View available trainings");
    ("training.create"%string, Default.mk 3 "Create trainings");
    ("training.manage"%string, Default.mk 3 "Manage trainings");
    ("training.delete"%string, Default.mk 4 "Delete trainings");
    ("training.report"%string, Default.mk 4 "Access training reports");
    ("jobs.view"%string, Default.mk 1 "View job postings");
    ("jobs.apply"%string, Default.mk 1 "Apply to job postings");
    ("jobs.post"%string, Default.mk 4 "Post new job openings");
    ("jobs.manage"%string, Default.mk 4 "Manage recruitment");
    ("assets.assign"%string, Default.mk 3 "Assign assets to employees");
    ("assets.create"%string, Default.mk 3 "Create new assets");
    ("assets.manage"%string, Default.mk 3 "Manage company assets");
    ("assets.delete"%string, Default.mk 4 "Delete assets from system");
    ("analytics.basic"%string, Default.mk 3 "Access basic analytics");
    ("analytics.advanced"%string, Default.mk 4 "Access advanced analytics");
    ("analytics.export"%string, Default.mk 4 "Export analytics data");
    ("system.settings"%string, Default.mk 5 "Manage system settings");
    ("system.users"%string, Default.mk 5 "Manage system users");
    ("system.logs"%string, Default.mk 5 "View system logs");
    ("system.permissions"%string, Default.mk 5 "Manage system permissions")
  ].

(** [permissionsResult.Items.forEach(item => cache[item.key] = item)]
    on a fresh [{}]: a later item replaces an earlier one of the same
    key. *)
Definition indexBy {A : Type} (key : A → string) (Items : list A)
  : gmap string A :=
  foldl (λ m item, <[key item := item]> m) ∅ Items.

(** [refreshPermissionsCache] (lines 21-53): both scans are awaited
    before the cache is touched; a rejected scan lands in the [catch],
    which returns [false]. *)
Definition refreshPermissionsCache (w : World) (c : Cache.t)
  : bool * Cache.t :=
  match scanPermissions w with
  | ScanRejected => (false, c)
  | ScanItems permissionItems =>
    match scanRoles w with
    | ScanRejected => (false, c)
    | ScanItems roleItems =>
      (true,
       {| Cache.timestamp := Some (nowAtRefresh w);
          Cache.permissions := indexBy Permission.permissionName permissionItems;
          Cache.roles := indexBy Role.roleId roleItems |})
    end
  end.

(** [!permissionsCache.timestamp ||
     (Date.now() - permissionsCache.timestamp) > permissionsCache.ttl] *)
Definition needsRefresh (now : Z) (c : Cache.t) : bool :=
  match Cache.timestamp c with
  | None => true
  | Some t => (t =? 0) || (Cache.ttl <? now - t)
  end.

(** [if (needsRefresh) await refreshPermissionsCache();] the returned
    flag is dropped by both callers. *)
Definition refreshIfNeeded (w : World) (c : Cache.t) : Cache.t :=
  if needsRefresh (nowAtCheck w) c
  then snd (refreshPermissionsCache w c)
  else c.

(** [user.permissions && user.permissions[featureName]] as a condition. *)
Definition hasOverride (featureName : string) (user : User.t) : bool :=
  match User.permissions user with
  | None => false
  | Some overrides => Js.truthy (Js.get overrides featureName)
  end.

(** The value of the variable [permissionInfo]: an item of the cache or
    the fallback object, or the property that the cache dictionary
    inherits from [Object.prototype], which is truthy and has no
    [requiredLevel]. *)
Inductive Info : Type :=
| InfoItem (item : Permission.t)
| InfoInherited.

Coercion InfoItem : Permission.t >-> Info.

(** [permissionsCache.permissions[featureName] || { permissionName,
     requiredLevel: defaults[featureName]?.defaultLevel || 5,
     description: defaults[featureName]?.description
                  || 'Undocumented feature' }] *)
Definition permissionInfo (c : Cache.t) (featureName : string) : Info :=
  match Cache.permissions c !! featureName with
  | Some cached => InfoItem cached
  | None =>
    if Js.inherited featureName then InfoInherited
    else
      let fallback := defaultFeaturePermissions !! featureName in
      InfoItem
        {| Permission.permissionName := featureName;
           Permission.requiredLevel :=
             match fallback with
             | Some d => if Default.defaultLevel d =? 0 then 5
                         else Default.defaultLevel d
             | None => 5
             end;
           Permission.description :=
             match fallback with
             | Some d => if bool_decide (Default.description d = EmptyString)
                         then "Undocumented feature"%string
                         else Default.description d
             | None => "Undocumented feature"%string
             end |}
  end.

(** [role && role.permissions && (role.permissions.includes(featureName)
     || role.permissions.includes('*'))] for [role = cache.roles[roleId]];
    a property that the dictionary inherits from [Object.prototype] has
    no [permissions], as a missing one. *)
Definition roleGrants (c : Cache.t) (featureName roleId : string) : bool :=
  match Cache.roles c !! roleId with
  | None => false
  | Some role =>
    match Role.permissions role with
    | None => false
    | Some granted =>
      bool_decide (featureName ∈ granted)
      || bool_decide ("*"%string ∈ granted)
    end
  end.

(** [for (const roleId of roles) { if (grants) return true; }]: [true]
    when the loop returned, [false] when it ran to its end. *)
Fixpoint rolesLoop (c : Cache.t) (featureName : string)
    (roleIds : list string) : bool :=
  match roleIds with
  | [] => false
  | roleId :: rest =>
    if roleGrants c featureName roleId then true
    else rolesLoop c featureName rest
  end.

(** [if (user.roles && Array.isArray(user.roles) && user.roles.length > 0)
     { for ... }] *)
Definition anyRoleGrants (c : Cache.t) (featureName : string)
    (user : User.t) : bool :=
  match User.roles user with
  | User.RolesArray ids => rolesLoop c featureName ids
  | User.RolesAbsent | User.RolesNotArray => false
  end.

(** [user.accessLevel >= permissionInfo.requiredLevel]; a missing
    [accessLevel] compares false, as does a missing [requiredLevel]. *)
Definition levelSuffices (user : User.t) (info : Info) : bool :=
  match info with
  | InfoItem item =>
    match User.accessLevel user with
    | Some level => Permission.requiredLevel item <=? level
    | None => false
    end
  | InfoInherited => false
  end.

(** [!user.accessLevel && !user.permissions && !user.roles] *)
Definition missingCriticalData (user : User.t) : bool :=
  match User.accessLevel user with
  | Some level => level =? 0
  | None => true
  end
  && match User.permissions user with None => true | Some _ => false end
  && match User.roles user with User.RolesAbsent => true | _ => false end.

(** [authorizeFeature.canPerform(featureName, user)] (lines 183-227),
    with the cache before the call as an argument and the cache after it
    as a result. *)
Definition canPerform (w : World) (c : Cache.t) (featureName : string)
    (user : option User.t) : bool * Cache.t :=
  match user with
  | None => (false, c)
  | Some user =>
    if missingCriticalData user then (false, c)
    else
      let c := refreshIfNeeded w c in
      if hasOverride featureName user then (true, c)
      else
        let info := permissionInfo c featureName in
        if anyRoleGrants c featureName user then (true, c)
        else (levelSuffices user info, c)
  end.

(** The middleware [authorizeFeature(featureName)] (lines 117-179)
    applied to a request whose [req.user] is [user]. *)
Definition authorizeFeature (featureName : string) (w : World)
    (c : Cache.t) (user : option User.t) : Response * Cache.t :=
  match user with
  | None => (Json 401 "Authentication required", c)
  | Some user =>
    if negb (Js.truthy (User.id user))
    then (Json 401 "Authentication required", c)
    else
      let c := refreshIfNeeded w c in
      if hasOverride featureName user then (Next, c)
      else
        let info := permissionInfo c featureName in
        if anyRoleGrants c featureName user then (Next, c)
        else if levelSuffices user info then (Next, c)
        else (Json 403 "You do not have permission to access this feature", c)
  end.

End AuthorizeFeature.


(** ** [checkApprovalAuthority.js] *)

Module CheckApprovalAuthority.

(** [canApprove(requestType, accessLevel, isSameDept)] (lines 13-55) *)
Definition canApprove (requestType : string) (accessLevel : Z)
    (isSameDept : bool) : bool :=
  if 5 <=? accessLevel then true
  else if accessLevel =? 4 then
    if bool_decide (requestType = "expense-high"%string) then false
    else true
  else if (accessLevel =? 3) && isSameDept then
    if bool_decide (requestType ∈ ["leave"; "training"; "equipment";
                                   "expense"; "document"; "travel"]%string)
    then true
    else if bool_decide (requestType ∈ ["expense-high"; "policy-exception";
                                        "security-access"; "salary-change"]%string)
    then false
    else false
  else false.

(** [checkAuthority(req, employeeDepartment)] (lines 65-96); [reqUser] is
    the value of [req.user].  A missing [accessLevel] fails every
    comparison. *)
Definition checkAuthority (reqUser : option User.t)
    (employeeDepartment : option string) : bool :=
  match reqUser with
  | None => false
  | Some user =>
    if negb (Js.truthy (User.id user)) then false
    else
      let userAccessLevel := User.accessLevel user in
      let userDepartment := User.department user in
      let isSameDept := bool_decide (userDepartment = employeeDepartment) in
      match userAccessLevel with
      | None => false
      | Some level =>
        if 5 <=? level then true
        else if level =? 4 then true
        else if level =? 3 then isSameDept
        else false
      end
  end.

End CheckApprovalAuthority.

(** ** The document store and the route handlers' effects *)

Module Dynamo.

(** An item is a dictionary of attributes; a table maps the value of its
    key attribute to the item; the store maps a table name to its table.
    A call of the store ends with its result; the only rejections that are
    modelled are those of an update whose expression cannot be
    evaluated. *)
Abbreviation Item := (gmap string Js.value).
Abbreviation Table := (gmap string (gmap string Js.value)).
Abbreviation DB := (gmap string (gmap string (gmap string Js.value))).

(** How an awaited call ends: with a value, or with a thrown error. *)
Inductive Outcome (A : Type) : Type :=
| Returned (a : A)
| Thrown (error : string).
Arguments Returned {A} a.
Arguments Thrown {A} error.

(** An [async] function over a store of type [S]. *)
Definition Handler (S A : Type) : Type := S → Outcome A * S.

Definition ret {S A : Type} (a : A) : Handler S A := λ db, (Returned a, db).

Definition throw {S A : Type} (error : string) : Handler S A :=
  λ db, (Thrown error, db).

Definition bind {S A B : Type} (m : Handler S A) (k : A → Handler S B)
  : Handler S B :=
  λ db, match m db with
        | (Returned a, db') => k a db'
        | (Thrown error, db') => (Thrown error, db')
        end.

(** [try { body } catch (error) { handler }] *)
Definition tryCatch {S A : Type} (body : Handler S A)
    (handler : string → Handler S A) : Handler S A :=
  λ db, match body db with
        | (Returned a, db') => (Returned a, db')
        | (Thrown error, db') => handler error db'
        end.

Definition table (TableName : string) (db : DB) : Table :=
  default ∅ (db !! TableName).

(** [dynamo.get({TableName, Key}).promise()]: [result.Item] *)
Definition get (TableName key : string) : Handler DB (option Item) :=
  λ db, (Returned (table TableName db !! key), db).

(** [dynamo.put({TableName, Item}).promise()]; [key] is the value of the
    item's key attribute. *)
Definition put (TableName key : string) (item : Item) : Handler DB unit :=
  λ db, (Returned tt, <[TableName := <[key := item]> (table TableName db)]> db).

(** [dynamo.update] with [UpdateExpression: 'SET a1 = :v1, a2 = :v2, ...']:
    the attributes are written into the item of that key, which is created
    with its key attribute alone when it does not exist. *)
Definition updateSet (TableName keyName key : string)
    (assignments : list (string * Js.value)) : Handler DB unit :=
  λ db,
    let old := default {[ keyName := Js.Str key ]} (table TableName db !! key) in
    let new := foldl (λ item kv, <[kv.1 := kv.2]> item) old assignments in
    (Returned tt, <[TableName := <[key := new]> (table TableName db)]> db).

(** [dynamo.update] with [UpdateExpression: 'SET #a = #a - :d']: the
    store rejects the update unless the attribute exists and both operands
    are numbers. *)
Definition updateSubtract (TableName key attribute : string)
    (d : Js.value) : Handler DB unit :=
  λ db,
    match table TableName db !! key with
    | Some item =>
      match item !! attribute, d with
      | Some (Js.Num n), Js.Num d =>
        (Returned tt,
         <[TableName := <[key := <[attribute := Js.Num (n - d)]> item]>
                          (table TableName db)]> db)
      | _, _ => (Thrown "ValidationException", db)
      end
    | None => (Thrown "ValidationException", db)
    end.

(** An identifier in an expression: its value when some enclosing scope
    binds it, a [ReferenceError] otherwise. *)
Definition identifier {S : Type} (scope : gmap string Js.value)
    (name : string) : Handler S Js.value :=
  match scope !! name with
  | Some v => ret v
  | None => throw ("ReferenceError: " ++ name ++ " is not defined")
  end.

End Dynamo.

Notation "x ←' m ; k" := (Dynamo.bind m (λ x, k))
  (at level 20, m at level 100, k at level 200, only parsing, right associativity).
Notation "m ;;' k" := (Dynamo.bind m (λ _, k))
  (at level 100, k at level 200, only parsing, right associativity).

(** What a handler takes from the platform: [new Date(s).getTime()],
    [d.toISOString()], the clock (one reading per request), the rendering
    of [Date.now()] in a template string, and the successive results of
    [uuidv4()].  Every date string is taken to parse: an [Invalid Date],
    whose comparisons are false and whose [toISOString()] throws, is not
    modelled. *)
Record Platform : Type := mkPlatform {
  parseDate : string → Z;
  toISOString : Z → string;
  now : Z;
  nowString : string;
  uuidv4 : nat → string
}.

(** [1000 * 60 * 60 * 24] *)
Definition msPerDay : Z := 1000 * 60 * 60 * 24.

(** [d.setHours(0, 0, 0, 0)] where the local time zone is UTC. *)
Definition setHours0 (d : Z) : Z := d - d `mod` msPerDay.

(** A response of a route handler: [res.status(s).json({message: m})];
    [success] and [data] are left out. *)
Definition internalServerError : Response := Json 500 "Internal server error".

(** ** [routes/leave.js] *)

Module LeaveRoutes.
Import Dynamo.

(** The JSON body of [POST /leave/request]. *)
Record RequestBody : Type := mkRequestBody {
  startDate : option string;
  endDate : option string;
  leaveType : option string;
  reason : option string
}.

(** The JSON body of [PUT /leave/:id/approve]. *)
Record ApproveBody : Type := mkApproveBody {
  status : option string;
  comments : option string
}.

(** [getDateDiffInDays(startDate, endDate)] (lines 361-370).  Both [Date]
    objects are set to midnight in place; the caller's dates are midnight
    afterwards. *)
Definition getDateDiffInDays (startDate endDate : Z) : Z :=
  let start := setHours0 startDate in
  let end_ := setHours0 endDate in
  let diffInMs := end_ - start in
  diffInMs / msPerDay.

Definition defaultBalance (employeeId : string) : Item :=
  list_to_map [
    ("employeeId"%string, Js.Str employeeId);
    ("annual"%string, Js.Num 20);
    ("sick"%string, Js.Num 10);
    ("personal"%string, Js.Num 5);
    ("maternity"%string, Js.Num 90);
    ("paternity"%string, Js.Num 10)
  ].

(** [getLeaveBalance(employeeId, leaveType = null)] (lines 373-404): one
    balance, or the whole item when [leaveType] is falsy; the [catch]
    logs and throws the error again. *)
Definition getLeaveBalance (employeeId : string) (leaveType : option string)
  : Handler DB (Js.value + Item) :=
  let pick (item : Item) : Js.value + Item :=
    match leaveType with
    | Some type => if Js.truthy (Js.Str type) then inl (Js.get item type)
                   else inr item
    | None => inr item
    end in
  tryCatch
    (result ←' get "LeaveBalances" employeeId;
     match result with
     | None =>
       put "LeaveBalances" employeeId (defaultBalance employeeId) ;;'
       ret (pick (defaultBalance employeeId))
     | Some item => ret (pick item)
     end)
    (λ error, throw error).

(** [updateLeaveBalance(employeeId, leaveType, daysUsed)] (lines
    407-426) *)
Definition updateLeaveBalance (employeeId leaveType daysUsed : Js.value)
  : Handler DB unit :=
  tryCatch
    (match employeeId, leaveType with
     | Js.Str employeeId, Js.Str leaveType =>
       updateSubtract "LeaveBalances" employeeId leaveType daysUsed
     | _, _ => throw "ValidationException"
     end)
    (λ error, throw error).

(** [leaveBalance < leaveDays] *)
Definition balanceBelow (leaveBalance : Js.value + Item) (leaveDays : Z)
  : bool :=
  match leaveBalance with
  | inl v => Js.lt v (Js.Num leaveDays)
  | inr _ => false
  end.

(** [POST /leave/request] (lines 34-116); [employeeId] is [req.user.id]
    and [managerId] is [req.user.managerId].  The message of the
    insufficient-balance response is shortened. *)
Definition post_request (p : Platform) (body : RequestBody)
    (employeeId : string) (managerId : option string)
  : Handler DB Response :=
  tryCatch
    (if negb (Js.truthy (Js.ofString (startDate body)))
        || negb (Js.truthy (Js.ofString (endDate body)))
        || negb (Js.truthy (Js.ofString (leaveType body)))
        || negb (Js.truthy (Js.ofString (reason body)))
     then ret (Json 400 "Some required fields are missing: startDate, endDate, leaveType, reason. Please fill all the required fields.")
     else
       let start := parseDate p (default EmptyString (startDate body)) in
       let end_ := parseDate p (default EmptyString (endDate body)) in
       let today := now p in
       if start <=? today
       then ret (Json 400 "Start date cannot be today or in the past. Please select a valid date.")
       else if end_ <=? start
       then ret (Json 400 "End date must be after start date. Please select a valid date.")
       else
         let leaveDays := getDateDiffInDays start end_ in
         let start := setHours0 start in
         let end_ := setHours0 end_ in
         leaveBalance ←' getLeaveBalance employeeId (leaveType body);
         if balanceBelow leaveBalance leaveDays
         then ret (Json 400 "Insufficient leave balance.")
         else
           let id := ("leave_" ++ nowString p ++ "_" ++ employeeId)%string in
           let leaveRequest : Item :=
             list_to_map [
               ("id"%string, Js.Str id);
               ("employeeId"%string, Js.Str employeeId);
               ("startDate"%string, Js.Str (toISOString p start));
               ("endDate"%string, Js.Str (toISOString p end_));
               ("leaveType"%string, Js.ofString (leaveType body));
               ("reason"%string, Js.ofString (reason body));
               ("leaveDays"%string, Js.Num leaveDays);
               ("status"%string, Js.Str "pending");
               ("submittedAt"%string, Js.Str (toISOString p (now p)));
               ("managerId"%string, Js.or (Js.ofString managerId) Js.Null)
             ] in
           put "LeaveRequests" id leaveRequest ;;'
           ret (Json 201 "Leave request submitted successfully"))
    (λ error, ret internalServerError).

(** The bindings an expression in the handler of [PUT /leave/:id/approve]
    can see: the module's (lines 28-31 and the three helper functions), the
    handler's parameters and its [const]s (lines 123-125, 136, 149,
    168). *)
Definition approveScope (id : string) (body : ApproveBody)
    (managerId : string) : gmap string Js.value :=
  list_to_map [
    ("express"%string, Js.Obj); ("router"%string, Js.Obj);
    ("verifyToken"%string, Js.Obj); ("checkAccess"%string, Js.Obj);
    ("dynamo"%string, Js.Obj); ("getDateDiffInDays"%string, Js.Obj);
    ("getLeaveBalance"%string, Js.Obj); ("updateLeaveBalance"%string, Js.Obj);
    ("req"%string, Js.Obj); ("res"%string, Js.Obj);
    ("id"%string, Js.Str id);
    ("status"%string, Js.ofString (status body));
    ("comments"%string, Js.ofString (comments body));
    ("managerId"%string, Js.Str managerId);
    ("result"%string, Js.Obj); ("leaveRequest"%string, Js.Obj);
    ("updateParams"%string, Js.Obj)
  ].

Definition notPendingResponse : Response :=
  Json 403 "Leave request is not pending. Cannot approve or reject".

Definition notAuthorizedResponse : Response :=
  Json 403 "You are not authorized to approve this leave request.".

(** [PUT /leave/:id/approve] (lines 119-207); [id] is [req.params.id]
    and [managerId] is [req.user.id]. *)
Definition put_approve (p : Platform) (id : string) (body : ApproveBody)
    (managerId : string) : Handler DB Response :=
  tryCatch
    (if negb (Js.truthy (Js.ofString (status body)))
        || negb (bool_decide (status body ∈ [Some "approved"; Some "rejected"]%string))
     then ret (Json 400 "Invalid status. Must be 'approved' or 'rejected'.")
     else
       result ←' get "LeaveRequests" id;
       match result with
       | None => ret (Json 404 "Leave request not found")
       | Some leaveRequest =>
         if Js.truthy (Js.get leaveRequest "managerId")
            && negb (Js.strict_eq (Js.get leaveRequest "managerId")
                                  (Js.Str managerId))
         then ret notAuthorizedResponse
         else if negb (Js.strict_eq (Js.get leaveRequest "status")
                                    (Js.Str "pending"))
         then ret notPendingResponse
         else
           updateSet "LeaveRequests" "id" id [
             ("status"%string, Js.ofString (status body));
             ("approvedBy"%string, Js.Str managerId);
             ("approvedAt"%string, Js.Str (toISOString p (now p)));
             ("comments"%string, Js.or (Js.ofString (comments body)) (Js.Str EmptyString))
           ] ;;'
           (if Js.strict_eq (Js.ofString (status body)) (Js.Str "approved")
            then
              employeeId ←' identifier (approveScope id body managerId) "employeeId";
              updateLeaveBalance employeeId (Js.get leaveRequest "leaveType")
                                 (Js.get leaveRequest "leaveDays")
            else ret tt) ;;'
           ret (Json 200 ("Leave request approved successfully, status "
                          ++ default EmptyString (status body)))
       end)
    (λ error, ret internalServerError).

End LeaveRoutes.

(** ** The leave router over [hris_leave] and [hris_users]

    The [POST /leave/request] that reads the submitting user and their
    manager from the users table and records the approval chain. *)

Module LeaveRoutesChain.
Import Dynamo.

Definition LEAVE_TABLE : string := "hris_leave".
Definition USERS_TABLE : string := "hris_users".
Definition LOGS_TABLE : string := "hris_logs".

(** [getDateDiffInDays]: this router counts both end days. *)
Definition getDateDiffInDays (startDate endDate : Z) : Z :=
  let start := setHours0 startDate in
  let end_ := setHours0 endDate in
  let diffInMs := end_ - start in
  let diffInDays := diffInMs / msPerDay in
  diffInDays + 1.

Definition defaultBalance (p : Platform) (userId : string) : Item :=
  list_to_map [
    ("id"%string, Js.Str ("balance_" ++ userId));
    ("user_id"%string, Js.Str userId);
    ("annual"%string, Js.Num 20);
    ("sick"%string, Js.Num 10);
    ("personal"%string, Js.Num 5);
    ("maternity"%string, Js.Num 90);
    ("paternity"%string, Js.Num 10);
    ("created_at"%string, Js.Str (toISOString p (now p)));
    ("updated_at"%string, Js.Str (toISOString p (now p)))
  ].

(** [getLeaveBalance(userId, leaveType = null)] (lines 538-572); the
    [catch] logs and throws the error again. *)
Definition getLeaveBalance (p : Platform) (userId : string)
    (leaveType : option string) : Handler DB (Js.value + Item) :=
  let pick (item : Item) : Js.value + Item :=
    match leaveType with
    | Some type => if Js.truthy (Js.Str type) then inl (Js.get item type)
                   else inr item
    | None => inr item
    end in
  tryCatch
    (result ←' get LEAVE_TABLE ("balance_" ++ userId);
     match result with
     | None =>
       put LEAVE_TABLE ("balance_" ++ userId) (defaultBalance p userId) ;;'
       ret (pick (defaultBalance p userId))
     | Some item => ret (pick item)
     end)
    (λ error, throw error).

(** The block that fills [approverUserIds]:
    [if (user.manager_id) { push(user.manager_id); managerResult = get;
       if (managerResult.Item && managerResult.Item.manager_id) push(...) }].
    The users table is keyed by a string; a key of another type is
    rejected by the store. *)
Definition approvalChain (user : Item) : Handler DB (list Js.value) :=
  let approverUserIds : list Js.value := [] in
  if Js.truthy (Js.get user "manager_id") then
    let approverUserIds := approverUserIds ++ [Js.get user "manager_id"] in
    match Js.get user "manager_id" with
    | Js.Str managerKey =>
      managerResult ←' get USERS_TABLE managerKey;
      match managerResult with
      | Some manager =>
        if Js.truthy (Js.get manager "manager_id")
        then ret (approverUserIds ++ [Js.get manager "manager_id"])
        else ret approverUserIds
      | None => ret approverUserIds
      end
    | _ => throw "ValidationException"
    end
  else ret approverUserIds.

(** An attribute whose value is [undefined] is not written. *)
Definition attribute (k : string) (v : Js.value) (item : Item) : Item :=
  match v with
  | Js.Undefined => item
  | _ => <[k := v]> item
  end.

(** [POST /leave/request]; [userId] is [req.user.id]. *)
Definition post_request (p : Platform) (body : LeaveRoutes.RequestBody)
    (userId : string) : Handler DB Response :=
  tryCatch
    (if negb (Js.truthy (Js.ofString (LeaveRoutes.startDate body)))
        || negb (Js.truthy (Js.ofString (LeaveRoutes.endDate body)))
        || negb (Js.truthy (Js.ofString (LeaveRoutes.leaveType body)))
        || negb (Js.truthy (Js.ofString (LeaveRoutes.reason body)))
     then ret (Json 400 "Required fields missing: startDate, endDate, leaveType, reason")
     else
       let start := parseDate p (default EmptyString (LeaveRoutes.startDate body)) in
       let end_ := parseDate p (default EmptyString (LeaveRoutes.endDate body)) in
       let today := now p in
       if start <=? today
       then ret (Json 400 "Start date must be in the future")
       else if end_ <=? start
       then ret (Json 400 "End date must be after start date")
       else
         let leaveDays := getDateDiffInDays start end_ in
         let start := setHours0 start in
         let end_ := setHours0 end_ in
         leaveBalance ←' getLeaveBalance p userId (LeaveRoutes.leaveType body);
         if LeaveRoutes.balanceBelow leaveBalance leaveDays
         then ret (Json 400 "Insufficient leave balance.")
         else
           userResult ←' get USERS_TABLE userId;
           match userResult with
           | None => ret (Json 404 "User not found")
           | Some user =>
             approverUserIds ←' approvalChain user;
             let id := ("leave_" ++ uuidv4 p 0%nat)%string in
             let leaveRequest : Item :=
               attribute "department" (Js.get user "department")
                 (list_to_map [
                    ("id"%string, Js.Str id);
                    ("user_id"%string, Js.Str userId);
                    ("start_date"%string, Js.Str (toISOString p start));
                    ("end_date"%string, Js.Str (toISOString p end_));
                    ("leave_type"%string, Js.ofString (LeaveRoutes.leaveType body));
                    ("reason"%string, Js.ofString (LeaveRoutes.reason body));
                    ("days"%string, Js.Num leaveDays);
                    ("status"%string, Js.Str "pending");
                    ("submitted_at"%string, Js.Str (toISOString p (now p)));
                    ("approver_user_ids"%string, Js.Arr approverUserIds);
                    ("created_at"%string, Js.Str (toISOString p (now p)));
                    ("updated_at"%string, Js.Str (toISOString p (now p)))
                  ]) in
             put LEAVE_TABLE id leaveRequest ;;'
             let logId := ("log_" ++ uuidv4 p 1%nat)%string in
             let logEntry : Item :=
               list_to_map [
                 ("log_id"%string, Js.Str logId);
                 ("action_type"%string, Js.Str "leave_request_submitted");
                 ("performed_by_user_id"%string, Js.Str userId);
                 ("target_user_id"%string, Js.Str userId);
                 ("timestamp"%string, Js.Str (toISOString p (now p)));
                 ("status"%string, Js.Str "completed");
                 ("notes"%string,
                  Js.Str ("Leave request submitted for "
                          ++ default EmptyString (LeaveRoutes.leaveType body)
                          ++ " from " ++ default EmptyString (LeaveRoutes.startDate body)
                          ++ " to " ++ default EmptyString (LeaveRoutes.endDate body)))
               ] in
             put LOGS_TABLE logId logEntry ;;'
             ret (Json 201 "Leave request submitted successfully")
           end)
    (λ error, ret internalServerError).

End LeaveRoutesChain.

(** ** The generic request routes: [PUT /requests/:id] *)

Module RequestRoutes.
Import Dynamo.

(** The requests table has a composite key ([PK], [SK]); it is the list
    of its items. *)
Abbreviation Requests := (list (gmap string Js.value)).

(** What [require('../middleware/checkApprovalAuthority')] binds: that
    module assigns [module.exports = { canApprove, checkAuthority }], an
    object.  [ImportedFunction] is what a module exporting a function
    would bind; [f user department] is how the awaited call ends and
    whether its value is truthy. *)
Inductive Imported : Type :=
| ImportedObject
| ImportedFunction (f : User.t → Js.value → Outcome bool).

Definition checkApprovalAuthority : Imported := ImportedObject.

(** [await imported(req.user, request.employeeDepartment)]: calling a
    value that is not a function throws a [TypeError]. *)
Definition call (imported : Imported) (user : User.t) (department : Js.value)
  : Handler Requests bool :=
  match imported with
  | ImportedObject => throw "TypeError: checkApprovalAuthority is not a function"
  | ImportedFunction f => λ db, (f user department, db)
  end.

(** [dynamodb.query] with [KeyConditionExpression: 'PK = :pk'] *)
Definition query (pk : string) : Handler Requests (list Item) :=
  λ db, (Returned (List.filter
                     (λ item, Js.strict_eq (Js.get item "PK") (Js.Str pk)) db),
         db).

(** [dynamodb.update] with a [SET] expression on the item of key
    ([pk], [sk]), created when it does not exist. *)
Fixpoint updateSet (pk sk : Js.value) (assignments : list (string * Js.value))
    (db : Requests) : Requests :=
  let write (item : Item) : Item :=
    foldl (λ item kv, <[kv.1 := kv.2]> item) item assignments in
  match db with
  | [] => [write (list_to_map [("PK"%string, pk); ("SK"%string, sk)])]
  | item :: rest =>
    if Js.strict_eq (Js.get item "PK") pk && Js.strict_eq (Js.get item "SK") sk
    then write item :: rest
    else item :: updateSet pk sk assignments rest
  end.

(** The JSON body of [PUT /requests/:id]. *)
Record UpdateBody : Type := mkUpdateBody {
  status : option string;
  comments : option string
}.

Definition unauthorizedResponse : Response :=
  Json 403 "Unauthorized to update this request".

(** The handler of [PUT /requests/:id] (lines 148-217), for whatever the
    module imported as [checkApprovalAuthority] (line 5); [user] is
    [req.user] and [userName] its [name]. *)
Definition put_id_with (imported : Imported) (p : Platform)
    (requestId : string) (body : UpdateBody) (user : User.t)
    (userName : Js.value) : Handler Requests Response :=
  tryCatch
    (if negb (bool_decide (status body ∈ [Some "approved"; Some "rejected";
                                           Some "pending"]%string))
     then ret (Json 400 "Invalid status")
     else
       getResult ←' query ("REQUEST#" ++ requestId);
       match getResult with
       | [] => ret (Json 404 "Request not found")
       | request :: _ =>
         canApprove ←' call imported user (Js.get request "employeeDepartment");
         if negb canApprove then ret unauthorizedResponse
         else
           let timestamp := toISOString p (now p) in
           (λ db, (Returned tt,
                   updateSet (Js.Str ("REQUEST#" ++ requestId)) (Js.get request "SK") [
                     ("status"%string, Js.ofString (status body));
                     ("updatedAt"%string, Js.Str timestamp);
                     ("approverComments"%string, Js.or (Js.ofString (comments body)) Js.Null);
                     ("approverId"%string, User.id user);
                     ("approverName"%string, userName);
                     ("GSI2SK"%string,
                      Js.Str ("STATUS#" ++ default EmptyString (status body) ++ "#" ++ timestamp))
                   ] db)) ;;'
           ret (Json 200 "Request updated successfully")
       end)
    (λ error, ret internalServerError).

(** [PUT /requests/:id] as the module is written. *)
Definition put_id : Platform → string → UpdateBody → User.t → Js.value
                    → Handler Requests Response :=
  put_id_with checkApprovalAuthority.

End RequestRoutes.

(** ** Vocabulary of the specification *)

(** The decision of [canPerform] and of the middleware on a given
    snapshot: override, then role grant, then access level. *)
Definition decision (c : Cache.t) (featureName : string) (user : User.t)
  : bool :=
  AuthorizeFeature.hasOverride featureName user
  || AuthorizeFeature.anyRoleGrants c featureName user
  || AuthorizeFeature.levelSuffices user
       (AuthorizeFeature.permissionInfo c featureName).

(** The required level as the specification words it: the cached custom
    permission's level when a cache entry of that name exists, else the
    level of the built-in default table, else 5. *)
Definition requiredLevelSpec (c : Cache.t) (featureName : string) : Z :=
  match Cache.permissions c !! featureName with
  | Some cached => Permission.requiredLevel cached
  | None =>
    match AuthorizeFeature.defaultFeaturePermissions !! featureName with
    | Some d => Default.defaultLevel d
    | None => 5
    end
  end.

(** The feature names at which the lookup in the cache dictionary finds
    a property of [Object.prototype]: the inherited names for which the
    cache holds no entry. *)
Definition inheritedOnly (c : Cache.t) (featureName : string) : bool :=
  Js.inherited featureName
  && bool_decide (Cache.permissions c !! featureName = None).

(** The data model's range of a custom permission's level, which
    [POST /system/permissions] enforces before it writes. *)
Definition validLevels (c : Cache.t) : Prop :=
  map_Forall (λ _ cached, 1 ≤ Permission.requiredLevel cached ≤ 5)
             (Cache.permissions c).

(** The same actor with another [roles] array, with another override
    dictionary. *)
Definition withRoles (user : User.t) (ids : list string) : User.t :=
  User.mk (User.id user) (User.accessLevel user) (User.department user)
          (User.permissions user) (User.RolesArray ids).


(** The approval chain as the specification words it: the direct manager,
    followed by the manager's manager when there is one. *)
Definition chainSpec (users : gmap string (gmap string Js.value))
    (user : gmap string Js.value) : list Js.value :=
  match Js.get user "manager_id" with
  | Js.Str manager =>
    if Js.truthy (Js.Str manager) then
      match users !! manager with
      | Some managerItem =>
        if Js.truthy (Js.get managerItem "manager_id")
        then [Js.Str manager; Js.get managerItem "manager_id"]
        else [Js.Str manager]
      | None => [Js.Str manager]
      end
    else []
  | _ => []
  end.

(** The request types a department manager may approve, and the types
    reserved to higher levels. *)
Definition managerTypes : list string :=
  ["leave"; "training"; "equipment"; "expense"; "document"; "travel"]%string.

Definition reservedTypes : list string :=
  ["expense-high"; "policy-exception"; "security-access"; "salary-change"]%string.

(** A stored request record carries the approval chain [chain], under the
    attribute name of the specification or under the one of the code. *)
Definition carriesChain (item : gmap string Js.value) (chain : list Js.value)
  : Prop :=
  item !! "approverUserIds"%string = Some (Js.Arr chain)
  ∨ item !! "approver_user_ids"%string = Some (Js.Arr chain).

(** The writes of a successful [PUT /requests/:id]. *)
Definition statusUpdate (p : Platform) (requestId : string)
    (body : RequestRoutes.UpdateBody)
    (user : User.t) (userName : Js.value) (request : gmap string Js.value)
    (db : list (gmap string Js.value)) : list (gmap string Js.value) :=
  RequestRoutes.updateSet (Js.Str ("REQUEST#" ++ requestId)) (Js.get request "SK") [
    ("status"%string, Js.ofString (RequestRoutes.status body));
    ("updatedAt"%string, Js.Str (toISOString p (now p)));
    ("approverComments"%string, Js.or (Js.ofString (RequestRoutes.comments body)) Js.Null);
    ("approverId"%string, User.id user);
    ("approverName"%string, userName);
    ("GSI2SK"%string,
     Js.Str ("STATUS#" ++ default EmptyString (RequestRoutes.status body) ++ "#"
             ++ toISOString p (now p)))
  ] db.


(** ** [authorizeFeature.js]: the administrative helpers *)

Module Admin.
Import AuthorizeFeature.

(** An entry of the object that [getAllPermissions] returns; [isCustom]
    is [false] where the entry has no such field, which is how
    [GET /system/permissions] reads it ([value.isCustom || false]). *)
Record Listing : Type := mkListing {
  defaultLevel : Z;
  description : string;
  isCustom : bool
}.

Definition listDefault (d : Default.t) : Listing :=
  mkListing (Default.defaultLevel d) (Default.description d) false.

Definition listCustom (permission : Permission.t) : Listing :=
  mkListing (Permission.requiredLevel permission)
            (Permission.description permission) true.

(** [allPermissions[name] = listing]: the assignment to [__proto__]
    sets the prototype of the object and creates no property. *)
Definition assign (name : string) (listing : Listing)
    (allPermissions : gmap string Listing) : gmap string Listing :=
  if bool_decide (name = "__proto__"%string) then allPermissions
  else <[name := listing]> allPermissions.

(** [authorizeFeature.getAllPermissions()] (lines 230-256): a copy of the
    own properties of the default table, into which every cached
    permission is written under its own [permissionName].  The result is
    the dictionary of the own properties of the returned object, which is
    what [GET /system/permissions] enumerates; [Object.values] enumerates
    the own properties of the cache dictionary, of which an item installed
    under [__proto__] is none. *)
Definition getAllPermissions (w : World) (c : Cache.t)
  : gmap string Listing * Cache.t :=
  let c := refreshIfNeeded w c in
  let allPermissions : gmap string Listing :=
    listDefault <$> defaultFeaturePermissions in
  (map_fold (λ _ permission all,
               assign (Permission.permissionName permission)
                      (listCustom permission) all)
            allPermissions (delete "__proto__"%string (Cache.permissions c)),
   c).

(** The two policy tables.  [setPermission] writes the item of key
    [PERMISSION#name], [setRole] the item of key [ROLE#roleId]: a table is
    the dictionary of its items by name, by role id.  Of an item the
    attributes that the module reads are kept. *)
Record Tables : Type := mkTables {
  permissionsTable : gmap string Permission.t;
  rolesTable : gmap string Role.t
}.

(** What the store does during one call: whether the [put] and each of
    the two scans succeed, and the two readings of the clock. *)
Record Reach : Type := mkReach {
  putSucceeds : bool;
  scanPermissionsSucceeds : bool;
  scanRolesSucceeds : bool;
  checkedAt : Z;
  refreshedAt : Z
}.

(** [dynamodb.scan({TableName}).promise()]: all the items of the table. *)
Definition scan {A : Type} (succeeds : bool) (t : gmap string A)
  : ScanResult A :=
  if succeeds then ScanItems (map_to_list t).*2 else ScanRejected.

Definition world (r : Reach) (t : Tables) : World :=
  {| scanPermissions := scan (scanPermissionsSucceeds r) (permissionsTable t);
     scanRoles := scan (scanRolesSucceeds r) (rolesTable t);
     nowAtCheck := checkedAt r;
     nowAtRefresh := refreshedAt r |}.

(** [authorizeFeature.setPermission(permissionName, requiredLevel,
    description)] (lines 259-285): the [put], then a refresh whose result
    is dropped; a rejected [put] is caught and [false] returned. *)
Definition setPermission (r : Reach) (t : Tables) (c : Cache.t)
    (permissionName : string) (requiredLevel : Z) (description : string)
  : bool * Tables * Cache.t :=
  if putSucceeds r then
    let t :=
      mkTables (<[permissionName :=
                    Permission.mk permissionName requiredLevel description]>
                  (permissionsTable t))
               (rolesTable t) in
    let c := snd (refreshPermissionsCache (world r t) c) in
    (true, t, c)
  else (false, t, c).

(** [authorizeFeature.setRole(roleId, roleName, permissions, description)]
    (lines 288-315) *)
Definition setRole (r : Reach) (t : Tables) (c : Cache.t)
    (roleId roleName : string) (permissions : list string)
  : bool * Tables * Cache.t :=
  if putSucceeds r then
    let t :=
      mkTables (permissionsTable t)
               (<[roleId := Role.mk roleId roleName (Some permissions)]>
                  (rolesTable t)) in
    let c := snd (refreshPermissionsCache (world r t) c) in
    (true, t, c)
  else (false, t, c).

(** The JSON body of [POST /system/permissions]; [requiredLevel] is a
    number when present. *)
Record PermissionBody : Type := mkPermissionBody {
  bodyName : option string;
  bodyLevel : option Z;
  bodyDescription : option string
}.

(** [POST /system/permissions] of [routes/system.js] (lines 39-82), behind
    [authorizeFeature('system.permissions')]; [atGate] is what the store
    does during the middleware and [atWrite] what it does during the
    handler. *)
Definition post_permissions (atGate atWrite : Reach) (t : Tables)
    (c : Cache.t) (user : option User.t) (body : PermissionBody)
  : Response * Tables * Cache.t :=
  match authorizeFeature "system.permissions" (world atGate t) c user with
  | (Next, c) =>
    if negb (Js.truthy (Js.ofString (bodyName body)))
       || negb (Js.truthy (default Js.Undefined (Js.Num <$> bodyLevel body)))
    then (Json 400 "Permission name and required level are required", t, c)
    else
      let requiredLevel := default 0 (bodyLevel body) in
      let permissionName := default EmptyString (bodyName body) in
      if (requiredLevel <? 1) || (5 <? requiredLevel)
      then (Json 400 "Required level must be a number between 1 and 5", t, c)
      else
        let description :=
          if Js.truthy (Js.ofString (bodyDescription body))
          then default EmptyString (bodyDescription body)
          else ("Permission for " ++ permissionName)%string in
        match setPermission atWrite t c permissionName requiredLevel description with
        | (true, t, c) => (Json 200 "Permission created/updated successfully", t, c)
        | (false, t, c) => (Json 500 "Failed to create/update permission", t, c)
        end
  | (denied, c) => (denied, t, c)
  end.

End Admin.

(** ** [checkAccess.js] *)

Module CheckAccess.
Import Dynamo.

(** The middleware [checkAccess(requiredLevel)] (lines 8-53) on a request
    whose [req.user] is [reqUser]; [usersTable] is
    [process.env.HRIS_USERS_TABLE].  The users table is keyed by a string.
    Beside the response, the record that the middleware leaves in
    [req.userDetails]. *)
Definition checkAccess (usersTable : string) (requiredLevel : Z)
    (reqUser : option User.t)
  : Handler DB (Response * option (gmap string Js.value)) :=
  tryCatch
    (match reqUser with
     | None => ret (Json 401 "Authentication required", None)
     | Some reqUser =>
       if negb (Js.truthy (User.id reqUser))
       then ret (Json 401 "Authentication required", None)
       else
         match User.id reqUser with
         | Js.Str id =>
           userResult ←' get usersTable id;
           match userResult with
           | None => ret (Json 403 "User not found", None)
           | Some user =>
             if Js.lt (Js.get user "access_level") (Js.Num requiredLevel)
             then ret (Json 403 "Insufficient access level", None)
             else ret (Next, Some user)
           end
         | _ => throw "ValidationException"
         end
     end)
    (λ error, ret (internalServerError, None)).

End CheckAccess.

(** ** [routes/leave.js]: history and attendance *)

Module LeaveRecords.
Import Dynamo.

(** [dynamo.query] on an index of a table: the items whose attributes
    equal the given key values. *)
Definition queryIndex (TableName : string) (keys : list (string * Js.value))
  : Handler DB (list Item) :=
  λ db,
    (Returned
       (List.filter
          (λ item, forallb (λ kv, Js.strict_eq (Js.get item kv.1) kv.2) keys)
          (map_to_list (table TableName db)).*2),
     db).

(** [GET /leave/history/:empId] (lines 210-254); [requestingUserId] is
    [req.user.id] and [role] is [req.user.role].  Beside the response
    (whose success has no message), its [data]: the requests and the
    balance. *)
Definition get_history (empId requestingUserId : string) (role : Js.value)
  : Handler DB (Response * option (list Item * (Js.value + Item))) :=
  tryCatch
    (if negb (Js.strict_eq role (Js.Str "admin"))
        && negb (Js.strict_eq (Js.Str requestingUserId) (Js.Str empId))
     then ret (Json 403 "Access denied", None)
     else
       result ←' queryIndex "LeaveRequests" [("employeeId"%string, Js.Str empId)];
       leaveBalance ←' LeaveRoutes.getLeaveBalance empId None;
       ret (Json 200 EmptyString, Some (result, leaveBalance)))
    (λ error, ret (internalServerError, None)).

(** The JSON body of [POST /attendance/log]. *)
Record AttendanceBody : Type := mkAttendanceBody {
  type : option string;
  location : option string;
  notes : option string
}.

(** [s.split('T')[0]] *)
Fixpoint beforeT (s : string) : string :=
  match s with
  | EmptyString => EmptyString
  | String a rest =>
    if bool_decide (String a EmptyString = "T"%string) then EmptyString
    else String a (beforeT rest)
  end.

(** [todayLogs.some(log => log.type === t)] *)
Definition someOfType (todayLogs : list Item) (t : string) : bool :=
  existsb (λ log, Js.strict_eq (Js.get log "type") (Js.Str t)) todayLogs.

(** [POST /attendance/log] (lines 257-355); [employeeId] is
    [req.user.id]. *)
Definition post_attendance (p : Platform) (body : AttendanceBody)
    (employeeId : string) : Handler DB Response :=
  tryCatch
    (if negb (Js.truthy (Js.ofString (type body)))
        || negb (bool_decide (type body ∈ [Some "in"; Some "out"]%string))
     then ret (Json 400 "Invalid attendance type. Must be 'in' or 'out'.")
     else
       let today := beforeT (toISOString p (now p)) in
       todayLogs ←' queryIndex "AttendanceLogs"
                      [("employeeId"%string, Js.Str employeeId);
                       ("date"%string, Js.Str today)];
       let refusal : option Response :=
         if Js.strict_eq (Js.ofString (type body)) (Js.Str "in") then
           let alreadyIn := someOfType todayLogs "in" in
           if alreadyIn
           then Some (Json 400 "You have already punched in today.")
           else None
         else
           let punchedIN := someOfType todayLogs "in" in
           let alreadyPunchedOut := someOfType todayLogs "out" in
           if negb punchedIN
           then Some (Json 400 "You have not punched in today. Please punch in first before punching out.")
           else if alreadyPunchedOut
           then Some (Json 400 "You have already punched out today.")
           else None in
       match refusal with
       | Some response => ret response
       | None =>
         let id := ("attendance_" ++ nowString p ++ "_" ++ employeeId)%string in
         let attendanceLog : Item :=
           list_to_map [
             ("id"%string, Js.Str id);
             ("employeeId"%string, Js.Str employeeId);
             ("type"%string, Js.ofString (type body));
             ("date"%string, Js.Str today);
             ("timestamp"%string, Js.Str (toISOString p (now p)));
             ("location"%string, Js.or (Js.ofString (location body)) Js.Null);
             ("notes"%string, Js.or (Js.ofString (notes body)) Js.Null)
           ] in
         put "AttendanceLogs" id attendanceLog ;;'
         ret (Json 201 ("Attendance punched " ++ default EmptyString (type body)))
       end)
    (λ error, ret internalServerError).

End LeaveRecords.

(** ** The generic request routes: create, list, cancel *)

Module RequestRecords.
Import Dynamo RequestRoutes.

(** Whether an item has the key ([pk], [sk]). *)
Definition hasKey (pk sk : Js.value) (item : Item) : bool :=
  Js.strict_eq (Js.get item "PK") pk && Js.strict_eq (Js.get item "SK") sk.

(** [dynamodb.put]: the item replaces the one of its key, or is added. *)
Fixpoint putItem (new : Item) (db : list Item) : list Item :=
  match db with
  | [] => [new]
  | item :: rest =>
    if hasKey (Js.get new "PK") (Js.get new "SK") item then new :: rest
    else item :: putItem new rest
  end.

(** [dynamodb.get] with [Key: {PK, SK}]: [result.Item] *)
Definition getItem (pk sk : Js.value) (db : list Item) : option Item :=
  List.find (hasKey pk sk) db.

(** [dynamodb.delete] with [Key: {PK, SK}] *)
Definition deleteItem (pk sk : Js.value) (db : list Item) : list Item :=
  List.filter (λ item, negb (hasKey pk sk item)) db.

(** The JSON body of [POST /requests]. *)
Record CreateBody : Type := mkCreateBody {
  type : option string;
  startDate : option string;
  endDate : option string;
  reason : option string;
  details : Js.value
}.

Definition validTypes : list (option string) :=
  [Some "leave"; Some "training"; Some "reimbursement"; Some "equipment";
   Some "document"]%string.

(** The item that [POST /requests] builds (lines 29-48). *)
Definition newRequest (p : Platform) (body : CreateBody) (employeeId : string)
    (employeeName : Js.value) (employeeDepartment : option string) : Item :=
  let requestId := uuidv4 p 0%nat in
  let timestamp := toISOString p (now p) in
  let kind := default EmptyString (type body) in
  LeaveRoutesChain.attribute "employeeName" employeeName
    (LeaveRoutesChain.attribute "employeeDepartment" (Js.ofString employeeDepartment)
       (LeaveRoutesChain.attribute "startDate" (Js.ofString (startDate body))
          (LeaveRoutesChain.attribute "endDate" (Js.ofString (endDate body))
             (LeaveRoutesChain.attribute "reason" (Js.ofString (reason body))
                (LeaveRoutesChain.attribute "details" (details body)
                   (list_to_map [
                      ("PK"%string, Js.Str ("REQUEST#" ++ requestId));
                      ("SK"%string, Js.Str ("EMPLOYEE#" ++ employeeId));
                      ("requestId"%string, Js.Str requestId);
                      ("employeeId"%string, Js.Str employeeId);
                      ("type"%string, Js.Str kind);
                      ("status"%string, Js.Str "pending");
                      ("createdAt"%string, Js.Str timestamp);
                      ("updatedAt"%string, Js.Str timestamp);
                      ("GSI1PK"%string, Js.Str ("EMPLOYEE#" ++ employeeId));
                      ("GSI1SK"%string,
                       Js.Str ("REQUEST#" ++ kind ++ "#" ++ timestamp));
                      ("GSI2PK"%string, Js.Str ("REQUEST#" ++ kind));
                      ("GSI2SK"%string, Js.Str ("STATUS#pending#" ++ timestamp))
                    ])))))).

(** [POST /requests] (lines 13-63); [employeeId], [employeeName] and
    [employeeDepartment] are the [id], [name] and [department] of
    [req.user]. *)
Definition post (p : Platform) (body : CreateBody) (employeeId : string)
    (employeeName : Js.value) (employeeDepartment : option string)
  : Handler Requests Response :=
  tryCatch
    (if negb (bool_decide (type body ∈ validTypes))
     then ret (Json 400 "Invalid request type")
     else
       (λ db, (Returned tt,
               putItem (newRequest p body employeeId employeeName
                                   employeeDepartment) db)) ;;'
       ret (Json 201 "Request created successfully"))
    (λ error, ret internalServerError).

(** [GET /requests] (lines 66-89): the response and its [requests], the
    items of the index [GSI1] under the caller's key. *)
Definition get_all (employeeId : string)
  : Handler Requests (Response * list Item) :=
  tryCatch
    (λ db,
       (Returned
          (Json 200 "Requests retrieved successfully",
           List.filter
             (λ item, Js.strict_eq (Js.get item "GSI1PK")
                                   (Js.Str ("EMPLOYEE#" ++ employeeId)))
             db),
        db))
    (λ error, ret (internalServerError, [])).

(** [DELETE /requests/:id] (lines 263-298) *)
Definition delete_id (requestId employeeId : string)
  : Handler Requests Response :=
  tryCatch
    (λ db,
       let pk := Js.Str ("REQUEST#" ++ requestId) in
       let sk := Js.Str ("EMPLOYEE#" ++ employeeId) in
       match getItem pk sk db with
       | None => (Returned (Json 404 "Request not found or unauthorized"), db)
       | Some item =>
         if negb (Js.strict_eq (Js.get item "status") (Js.Str "pending"))
         then (Returned (Json 400 "Only pending requests can be cancelled"), db)
         else (Returned (Json 200 "Request cancelled successfully"),
               deleteItem pk sk db)
       end)
    (λ error, ret internalServerError).

End RequestRecords.

(** ** Further vocabulary *)

(** Every cached permission sits under its own name, which is how a
    refresh files it. *)
Definition keyedByName (c : Cache.t) : Prop :=
  map_Forall (λ name cached, Permission.permissionName cached = name)
             (Cache.permissions c).

(** The same for the permissions table, with the levels of the data
    model. *)
Definition validTable (t : Admin.Tables) : Prop :=
  map_Forall (λ name item,
                Permission.permissionName item = name
                ∧ 1 ≤ Permission.requiredLevel item ≤ 5)
             (Admin.permissionsTable t).

(** The same actor at another access level. *)
Definition withLevel (user : User.t) (level : Z) : User.t :=
  User.mk (User.id user) (Some level) (User.department user)
          (User.permissions user) (User.roles user).

(** An attendance log of employee [e] on the day [d], of type [t]. *)
Definition isLog (e d t : string) (log : gmap string Js.value) : Prop :=
  log !! "employeeId"%string = Some (Js.Str e)
  ∧ log !! "date"%string = Some (Js.Str d)
  ∧ log !! "type"%string = Some (Js.Str t).

(** The attendance logs are those of days that go in, then out, at most
    once: for every employee and day at most one log of a type, and a
    log of type ['out'] only beside one of type ['in']. *)
Definition orderlyDays (logs : gmap string (gmap string Js.value)) : Prop :=
  (∀ e d t id1 id2 log1 log2,
     logs !! id1 = Some log1 → logs !! id2 = Some log2 →
     isLog e d t log1 → isLog e d t log2 → id1 = id2)
  ∧ (∀ e d id log,
       logs !! id = Some log → isLog e d "out" log →
       ∃ id' log', logs !! id' = Some log' ∧ isLog e d "in" log').

(** ** Sample data *)

Module Sample.

(** A platform whose clock reads 2030-01-01T00:00:00Z. *)
Definition platform : Platform :=
  {| parseDate := λ s,
       if bool_decide (s = "2030-01-07T09:00:00Z"%string) then 21921 * msPerDay + 9 * 3600000
       else if bool_decide (s = "2030-01-10T09:00:00Z"%string) then 21924 * msPerDay + 9 * 3600000
       else 0;
     toISOString := λ t,
       if t =? 21915 * msPerDay then "2030-01-01T00:00:00.000Z"%string
       else if t =? 21921 * msPerDay then "2030-01-07T00:00:00.000Z"%string
       else if t =? 21924 * msPerDay then "2030-01-10T00:00:00.000Z"%string
       else "1970-01-01T00:00:00.000Z"%string;
     now := 21915 * msPerDay;
     nowString := "1893456000000";
     uuidv4 := λ n, match n with O => "uuid-0"%string | _ => "uuid-1"%string end |}.

(** A world in which the policy store cannot be read. *)
Definition outage : World :=
  {| scanPermissions := ScanRejected; scanRoles := ScanRejected;
     nowAtCheck := 1893456000000; nowAtRefresh := 1893456000000 |}.

Definition auditor : Role.t :=
  Role.mk "auditor" "Auditor" (Some ["system.logs"%string]).

Definition superuser : Role.t :=
  Role.mk "super" "Superuser" (Some ["*"%string]).

(** A world in which the policy store holds one custom permission and the
    two roles. *)
Definition healthy : World :=
  {| scanPermissions :=
       ScanItems [Permission.mk "reports.export" 2 "Export reports"];
     scanRoles := ScanItems [auditor; superuser];
     nowAtCheck := 1893456000000; nowAtRefresh := 1893456000000 |}.

(** A level-1 employee with an explicit grant of [system.settings]. *)
Definition clerk : User.t :=
  User.mk (Js.Str "e1") (Some 1) (Some "sales"%string)
          (Some {[ "system.settings"%string := Js.Bool true ]})
          (User.RolesArray []).

(** A level-1 employee holding the [auditor] role, with a revoked-looking
    entry for [system.users]. *)
Definition intern : User.t :=
  User.mk (Js.Str "e2") (Some 1) (Some "sales"%string)
          (Some {[ "system.users"%string := Js.Bool false ]})
          (User.RolesArray ["unknown"; "auditor"]%string).

(** The actor [{accessLevel: 1, permissions: {}, roles: []}]. *)
Definition employee : User.t :=
  User.mk (Js.Str "e3") (Some 1) (Some "sales"%string) (Some ∅)
          (User.RolesArray []).

Definition manager : User.t :=
  User.mk (Js.Str "m1") (Some 3) (Some "sales"%string) (Some ∅)
          (User.RolesArray []).

Definition hr : User.t :=
  User.mk (Js.Str "h1") (Some 4) (Some "people"%string) (Some ∅)
          (User.RolesArray []).

Definition admin : User.t :=
  User.mk (Js.Str "a1") (Some 5) (Some "it"%string) (Some ∅)
          (User.RolesArray []).

(** A pending leave request of employee [e1] for three days of annual
    leave, as [POST /leave/request] of [routes/leave.js] stores it. *)
Definition pendingLeave : gmap string Js.value :=
  list_to_map [
    ("id"%string, Js.Str "leave_1_e1");
    ("employeeId"%string, Js.Str "e1");
    ("startDate"%string, Js.Str "2030-01-07T00:00:00.000Z");
    ("endDate"%string, Js.Str "2030-01-10T00:00:00.000Z");
    ("leaveType"%string, Js.Str "annual");
    ("reason"%string, Js.Str "holiday");
    ("leaveDays"%string, Js.Num 3);
    ("status"%string, Js.Str "pending");
    ("submittedAt"%string, Js.Str "2030-01-01T00:00:00.000Z");
    ("managerId"%string, Js.Str "m1")
  ].

Definition users : gmap string (gmap string Js.value) :=
  list_to_map [
    ("e1"%string, list_to_map [("user_id"%string, Js.Str "e1");
                               ("manager_id"%string, Js.Str "m1");
                               ("department"%string, Js.Str "sales")]);
    ("m1"%string, list_to_map [("user_id"%string, Js.Str "m1");
                               ("manager_id"%string, Js.Str "m2");
                               ("department"%string, Js.Str "sales")]);
    ("m2"%string, list_to_map [("user_id"%string, Js.Str "m2");
                               ("department"%string, Js.Str "sales")])
  ].

(** The store before [PUT /leave/leave_1_e1/approve]. *)
Definition store : gmap string (gmap string (gmap string Js.value)) :=
  list_to_map [
    ("LeaveRequests"%string, {[ "leave_1_e1"%string := pendingLeave ]});
    ("LeaveBalances"%string,
     {[ "e1"%string := LeaveRoutes.defaultBalance "e1" ]});
    ("hris_users"%string, users)
  ].

Definition leaveBody : LeaveRoutes.RequestBody :=
  LeaveRoutes.mkRequestBody (Some "2030-01-07T09:00:00Z"%string)
    (Some "2030-01-10T09:00:00Z"%string) (Some "annual"%string)
    (Some "holiday"%string).

(** What [POST /leave/request] of [routes/leave.js] stores for
    [leaveBody], submitted by [e1] whose token names the manager [m1]. *)
Definition storedLeave : gmap string Js.value :=
  list_to_map [
    ("id"%string, Js.Str "leave_1893456000000_e1");
    ("employeeId"%string, Js.Str "e1");
    ("startDate"%string, Js.Str "2030-01-07T00:00:00.000Z");
    ("endDate"%string, Js.Str "2030-01-10T00:00:00.000Z");
    ("leaveType"%string, Js.Str "annual");
    ("reason"%string, Js.Str "holiday");
    ("leaveDays"%string, Js.Num 3);
    ("status"%string, Js.Str "pending");
    ("submittedAt"%string, Js.Str "2030-01-01T00:00:00.000Z");
    ("managerId"%string, Js.Str "m1")
  ].

(** A request of the generic requests table that is already approved. *)
Definition decidedRequest : gmap string Js.value :=
  list_to_map [
    ("PK"%string, Js.Str "REQUEST#r1");
    ("SK"%string, Js.Str "EMPLOYEE#e1");
    ("requestId"%string, Js.Str "r1");
    ("employeeId"%string, Js.Str "e1");
    ("employeeDepartment"%string, Js.Str "sales");
    ("type"%string, Js.Str "leave");
    ("status"%string, Js.Str "approved")
  ].

End Sample.

(** ** Further sample data *)

Module Fixture.

(** A scan that returns two items of the name [reports.export]. *)
Definition duplicates : World :=
  {| scanPermissions :=
       ScanItems [Permission.mk "reports.export" 2 "Export reports";
                  Permission.mk "payroll.run" 4 "Run the payroll";
                  Permission.mk "reports.export" 3 "Export reports, revised"];
     scanRoles := ScanItems [Sample.auditor];
     nowAtCheck := 1893456000000; nowAtRefresh := 1893456000000 |}.

(** A snapshot taken exactly five minutes before the clock of
    [Sample.outage]. *)
Definition fiveMinutesOld : Cache.t :=
  {| Cache.timestamp := Some (1893456000000 - 300000);
     Cache.permissions :=
       {[ "documents.delete"%string :=
            Permission.mk "documents.delete" 1 "Delete documents" ]};
     Cache.roles := ∅ |}.

Definition tables : Admin.Tables :=
  Admin.mkTables
    {[ "reports.export"%string := Permission.mk "reports.export" 2 "Export reports" ]}
    {[ "auditor"%string := Sample.auditor ]}.

(** The store answers every call; the store accepts the [put] and rejects
    the scans; the store rejects the [put]. *)
Definition reachable : Admin.Reach :=
  Admin.mkReach true true true 1893456000000 1893456000000.

Definition writeOnly : Admin.Reach :=
  Admin.mkReach true false true 1893456000000 1893456000000.

Definition unreachable : Admin.Reach :=
  Admin.mkReach false false false 1893456000000 1893456000000.

Definition permissionBody : Admin.PermissionBody :=
  Admin.mkPermissionBody (Some "payroll.run"%string) (Some 4) None.

(** A users table with the access levels that [checkAccess] reads: the
    record of [m1] carries level 3, the record of [e1] carries none. *)
Definition managerRecord : gmap string Js.value :=
  list_to_map [("user_id"%string, Js.Str "m1");
               ("access_level"%string, Js.Num 3)].

Definition bareRecord : gmap string Js.value :=
  list_to_map [("user_id"%string, Js.Str "e1")].

Definition staff : gmap string (gmap string (gmap string Js.value)) :=
  {[ "hris_users"%string :=
       list_to_map [("m1"%string, managerRecord); ("e1"%string, bareRecord)] ]}.

Definition punchOut : LeaveRecords.AttendanceBody :=
  LeaveRecords.mkAttendanceBody (Some "out"%string) None None.

(** The punch in of [e1] on 2030-01-01, and a store that holds it. *)
Definition morningLog : gmap string Js.value :=
  list_to_map [("id"%string, Js.Str "attendance_1893427200000_e1");
               ("employeeId"%string, Js.Str "e1");
               ("date"%string, Js.Str "2030-01-01");
               ("type"%string, Js.Str "in")].

Definition morning : gmap string (gmap string (gmap string Js.value)) :=
  {[ "AttendanceLogs"%string :=
       {[ "attendance_1893427200000_e1"%string := morningLog ]} ]}.

Definition trainingRequest : RequestRecords.CreateBody :=
  RequestRecords.mkCreateBody (Some "training"%string) None None
                              (Some "Rocq course"%string) Js.Undefined.



Definition approval : RequestRoutes.UpdateBody :=
  RequestRoutes.mkUpdateBody (Some "approved"%string) None.

End Fixture.
(** * Properties *)

(** ** The decision engine *)

Section DecisionEngine.
Import AuthorizeFeature.

Implicit Types (w : World) (c : Cache.t) (f : string) (user : User.t).

Lemma canPerform_decision w c f user :
  canPerform w c f (Some user)
  = if missingCriticalData user then (false, c)
    else (decision (refreshIfNeeded w c) f user, refreshIfNeeded w c).
Proof.
  unfold canPerform, decision.
  destruct (missingCriticalData user); [done|].
  destruct (hasOverride f user); [done|].
  by destruct (anyRoleGrants _ f user).
Qed.

Lemma authorizeFeature_decision w c f user :
  Js.truthy (User.id user) = true →
  authorizeFeature f w c (Some user)
  = (if decision (refreshIfNeeded w c) f user then Next
     else Json 403 "You do not have permission to access this feature",
     refreshIfNeeded w c).
Proof.
  intros Hid. unfold authorizeFeature, decision. rewrite Hid. simpl.
  destruct (hasOverride f user); [done|].
  destruct (anyRoleGrants _ f user); [done|].
  by destruct (levelSuffices user _).
Qed.

Lemma hasOverride_lookup f user overrides v :
  User.permissions user = Some overrides →
  overrides !! f = Some v →
  hasOverride f user = Js.truthy v.
Proof.
  intros Hp Hv. unfold hasOverride, Js.get. by rewrite Hp, Hv.
Qed.

Lemma override_not_missing user overrides :
  User.permissions user = Some overrides → missingCriticalData user = false.
Proof.
  intros Hp. unfold missingCriticalData. rewrite Hp.
  by destruct (User.accessLevel user) as [level|]; [destruct (level =? 0)|].
Qed.

Lemma roles_not_missing user ids :
  User.roles user = User.RolesArray ids → missingCriticalData user = false.
Proof.
  intros Hr. unfold missingCriticalData. rewrite Hr.
  destruct (User.accessLevel user) as [level|]; [destruct (level =? 0)|];
    by destruct (User.permissions user).
Qed.

(** The loop returns [true] exactly when some listed role grants. *)
Lemma rolesLoop_true c f ids :
  rolesLoop c f ids = true ↔ ∃ roleId, roleId ∈ ids ∧ roleGrants c f roleId = true.
Proof.
  induction ids as [|roleId rest IH]; simpl.
  - split; [done|]. intros (r & Hr & _). by apply elem_of_nil in Hr.
  - destruct (roleGrants c f roleId) eqn:Hg.
    + split; [|done]. intros _. exists roleId. split; [left|done].
    + rewrite IH. split.
      * intros (r & Hr & Hgr). exists r. split; [by right|done].
      * intros (r & Hr & Hgr). apply elem_of_cons in Hr as [->|Hr].
        -- congruence.
        -- by exists r.
Qed.

Lemma rolesLoop_perm c f ids ids' :
  ids ≡ₚ ids' → rolesLoop c f ids = rolesLoop c f ids'.
Proof.
  intros Hperm. apply eq_true_iff_eq. rewrite !rolesLoop_true.
  by setoid_rewrite Hperm.
Qed.

Lemma roleGrants_true c f roleId role granted :
  Cache.roles c !! roleId = Some role →
  Role.permissions role = Some granted →
  f ∈ granted ∨ "*"%string ∈ granted →
  roleGrants c f roleId = true.
Proof.
  intros Hrole Hperms Hin. unfold roleGrants. rewrite Hrole, Hperms.
  apply orb_true_iff.
  destruct Hin; [left|right]; by apply bool_decide_eq_true.
Qed.

Lemma defaults_in_range :
  map_Forall (λ _ d, 1 ≤ Default.defaultLevel d ≤ 5) defaultFeaturePermissions.
Proof. apply (bool_decide_unpack _). by vm_compute. Qed.

(** The fallback level of the code is the one of the specification. *)
Lemma fallback_level f :
  match defaultFeaturePermissions !! f with
  | Some d => if Default.defaultLevel d =? 0 then 5 else Default.defaultLevel d
  | None => 5
  end
  = match defaultFeaturePermissions !! f with
    | Some d => Default.defaultLevel d
    | None => 5
    end.
Proof.
  destruct (defaultFeaturePermissions !! f) as [d|] eqn:Hd; [|reflexivity].
  apply defaults_in_range in Hd. cbv beta in Hd.
  destruct (Z.eqb_spec (Default.defaultLevel d) 0); [lia|reflexivity].
Qed.

(** The comparison with [permissionInfo.requiredLevel]: false where the
    lookup finds an inherited property, and the comparison with the level
    of the specification elsewhere. *)
Lemma levelSuffices_permissionInfo c f user :
  levelSuffices user (permissionInfo c f)
  = negb (inheritedOnly c f)
    && match User.accessLevel user with
       | Some level => requiredLevelSpec c f <=? level
       | None => false
       end.
Proof.
  unfold permissionInfo, inheritedOnly, requiredLevelSpec.
  destruct (Cache.permissions c !! f) as [cached|].
  - rewrite bool_decide_eq_false_2 by done. by rewrite andb_false_r.
  - rewrite bool_decide_eq_true_2 by done. rewrite andb_true_r.
    destruct (Js.inherited f); [reflexivity|].
    cbn [levelSuffices Permission.requiredLevel negb andb].
    by rewrite fallback_level.
Qed.


End DecisionEngine.

Section DecisionEngineClaims.
Import AuthorizeFeature.

Implicit Types (w : World) (c : Cache.t) (f : string) (user : User.t).

(** C1.  An explicit override wins over everything else: when the actor's
    permission dictionary holds a truthy entry for [f], [canPerform]
    answers [true] whatever the roles and the access level are, and the
    middleware calls [next] for an authenticated actor. *)
Theorem explicit_override_allows w c f user overrides v :
  User.permissions user = Some overrides →
  overrides !! f = Some v →
  Js.truthy v = true →
  (canPerform w c f (Some user)).1 = true
  ∧ (Js.truthy (User.id user) = true →
     (authorizeFeature f w c (Some user)).1 = Next).
Proof.
  intros Hp Hv Ht.
  assert (Hov : hasOverride f user = true)
    by (by rewrite (hasOverride_lookup f user overrides v)).
  split.
  - rewrite canPerform_decision, (override_not_missing user overrides Hp).
    unfold decision. by rewrite Hov.
  - intros Hid. rewrite authorizeFeature_decision by done.
    unfold decision. by rewrite Hov.
Qed.

(** C2.  Without an override, a role of the actor that the cache resolves
    and that lists [f] or the wildcard grants [f] whatever the access
    level is; permuting [actor.roles] never changes the answer; and once a
    role grants, the roles after it have no influence. *)
Theorem role_grant_allows w c f :
  (∀ user ids roleId role granted,
     hasOverride f user = false →
     User.roles user = User.RolesArray ids →
     roleId ∈ ids →
     Cache.roles (refreshIfNeeded w c) !! roleId = Some role →
     Role.permissions role = Some granted →
     f ∈ granted ∨ "*"%string ∈ granted →
     (canPerform w c f (Some user)).1 = true)
  ∧ (∀ user ids ids',
       User.roles user = User.RolesArray ids →
       ids ≡ₚ ids' →
       canPerform w c f (Some (withRoles user ids'))
       = canPerform w c f (Some user))
  ∧ (∀ snapshot before roleId after after',
       roleGrants snapshot f roleId = true →
       rolesLoop snapshot f (before ++ roleId :: after) = true
       ∧ rolesLoop snapshot f (before ++ roleId :: after')
         = rolesLoop snapshot f (before ++ roleId :: after)).
Proof.
  split; [|split].
  - intros user ids roleId role granted Hov Hroles Hin Hrole Hperms Hgrant.
    rewrite canPerform_decision, (roles_not_missing user ids Hroles).
    unfold decision, anyRoleGrants. rewrite Hov, Hroles.
    cbn [fst orb].
    replace (rolesLoop (refreshIfNeeded w c) f ids) with true; [done|].
    symmetry. apply rolesLoop_true. exists roleId. split; [done|].
    by eapply roleGrants_true.
  - intros user ids ids' Hroles Hperm.
    rewrite !canPerform_decision.
    rewrite (roles_not_missing user ids Hroles).
    rewrite (roles_not_missing (withRoles user ids') ids' eq_refl).
    f_equal. unfold decision, hasOverride, anyRoleGrants, levelSuffices.
    rewrite Hroles. cbn [withRoles User.permissions User.roles User.accessLevel].
    by rewrite (rolesLoop_perm _ f ids ids' Hperm).
  - intros snapshot before roleId after after' Hg.
    assert (Hany : ∀ rest, rolesLoop snapshot f (before ++ roleId :: rest) = true).
    { intros rest. apply rolesLoop_true. exists roleId. split; [|done].
      apply elem_of_app. right. left. }
    by rewrite !Hany.
Qed.




End DecisionEngineClaims.

(** ** The approval-authority resolvers *)

Section ApprovalAuthority.
Import CheckApprovalAuthority.

Lemma canApprove_manager requestType :
  canApprove requestType 3 true = bool_decide (requestType ∈ managerTypes).
Proof.
  unfold canApprove, managerTypes. cbn [Z.leb Z.eqb Z.compare Pos.compare
    Pos.compare_cont Pos.eqb andb].
  case_bool_decide; [done|]. by case_bool_decide.
Qed.

(** C4.  The type-aware resolver: level 5 and above approves everything;
    level 4 everything but ['expense-high']; level 3 in the same
    department exactly the six standard types (so neither the four
    reserved types nor any other string); level 3 in another department
    and every level below 3 nothing. *)
Theorem canApprove_policy (requestType : string) (accessLevel : Z)
    (isSameDept : bool) :
  (5 ≤ accessLevel → canApprove requestType accessLevel isSameDept = true)
  ∧ (accessLevel = 4 →
     (requestType = "expense-high"%string →
      canApprove requestType accessLevel isSameDept = false)
     ∧ (requestType ≠ "expense-high"%string →
        canApprove requestType accessLevel isSameDept = true))
  ∧ (accessLevel = 3 → isSameDept = true →
     (requestType ∈ managerTypes →
      canApprove requestType accessLevel isSameDept = true)
     ∧ (requestType ∈ reservedTypes →
        canApprove requestType accessLevel isSameDept = false)
     ∧ (requestType ∉ managerTypes →
        canApprove requestType accessLevel isSameDept = false))
  ∧ (accessLevel = 3 → isSameDept = false →
     canApprove requestType accessLevel isSameDept = false)
  ∧ (accessLevel < 3 → canApprove requestType accessLevel isSameDept = false).
Proof.
  split; [|split; [|split; [|split]]].
  - intros Hle. unfold canApprove.
    by destruct (Z.leb_spec 5 accessLevel); [|lia].
  - intros ->. split.
    + intros ->. reflexivity.
    + intros Hne. unfold canApprove. cbn [Z.leb Z.eqb Z.compare Pos.compare
        Pos.compare_cont]. by case_bool_decide.
  - intros -> ->. rewrite canApprove_manager. split; [|split].
    + intros Hin. by apply bool_decide_eq_true.
    + intros Hin. apply bool_decide_eq_false.
      unfold reservedTypes in Hin. unfold managerTypes. intros Hin'.
      repeat (apply elem_of_cons in Hin as [->|Hin];
              [by repeat (apply elem_of_cons in Hin' as [?|Hin']; [done|]);
                  apply elem_of_nil in Hin'|]).
      by apply elem_of_nil in Hin.
    + intros Hnin. by apply bool_decide_eq_false.
  - intros -> ->. reflexivity.
  - intros Hlt. unfold canApprove.
    destruct (Z.leb_spec 5 accessLevel); [lia|].
    destruct (Z.eqb_spec accessLevel 4); [lia|].
    destruct (Z.eqb_spec accessLevel 3); [lia|done].
Qed.

(** C5.  The department-only resolver on an authenticated actor: level 5
    and above and level 4 approve; level 3 approves exactly when the
    actor's department is the employee's; every level below 3 is
    refused.  No request type enters the decision. *)
Theorem checkAuthority_policy (user : User.t) (level : Z)
    (employeeDepartment : option string) :
  Js.truthy (User.id user) = true →
  User.accessLevel user = Some level →
  (5 ≤ level → checkAuthority (Some user) employeeDepartment = true)
  ∧ (level = 4 → checkAuthority (Some user) employeeDepartment = true)
  ∧ (level = 3 →
     (checkAuthority (Some user) employeeDepartment = true
      ↔ User.department user = employeeDepartment))
  ∧ (level < 3 → checkAuthority (Some user) employeeDepartment = false).
Proof.
  intros Hid Hlevel. unfold checkAuthority. rewrite Hid, Hlevel.
  cbn [negb].
  split; [|split; [|split]].
  - intros Hle. by destruct (Z.leb_spec 5 level); [|lia].
  - by intros ->.
  - intros ->. cbn [Z.leb Z.eqb Z.compare Pos.compare Pos.compare_cont].
    apply bool_decide_eq_true.
  - intros Hlt.
    destruct (Z.leb_spec 5 level); [lia|].
    destruct (Z.eqb_spec level 4); [lia|].
    destruct (Z.eqb_spec level 3); [lia|done].
Qed.

End ApprovalAuthority.

(** ** The leave routes of [routes/leave.js] *)

Section LeaveApproval.
Import Dynamo LeaveRoutes.

Implicit Types (p : Platform) (db : gmap string (gmap string (gmap string Js.value))).

Lemma table_insert_ne db name other (t : gmap string (gmap string Js.value)) :
  name ≠ other → table other (<[name := t]> db) = table other db.
Proof. intros Hne. unfold table. by rewrite lookup_insert_ne. Qed.

Lemma table_insert_eq db name (t : gmap string (gmap string Js.value)) :
  table name (<[name := t]> db) = t.
Proof. unfold table. by rewrite lookup_insert_eq. Qed.

(** No binding named [employeeId] is in scope of the approval handler. *)
Lemma employeeId_unbound id body managerId db :
  identifier (approveScope id body managerId) "employeeId" db
  = (Thrown "ReferenceError: employeeId is not defined", db).
Proof. reflexivity. Qed.

(** The approval handler never writes the balances table. *)
Lemma put_approve_keeps_balances p id body managerId db :
  table "LeaveBalances" (put_approve p id body managerId db).2
  = table "LeaveBalances" db.
Proof.
  unfold put_approve, tryCatch, bind, get, ret.
  destruct (negb _ || negb _); [done|].
  destruct (table "LeaveRequests" db !! id) as [leaveRequest|]; [|done].
  destruct (Js.truthy _ && negb _); [done|].
  destruct (negb (Js.strict_eq _ _)); [done|].
  unfold updateSet.
  destruct (Js.strict_eq (Js.ofString (status body)) (Js.Str "approved")).
  - rewrite employeeId_unbound. cbn [snd]. by apply table_insert_ne.
  - cbn [snd]. by apply table_insert_ne.
Qed.

(** On a request that is not pending, the approval handler writes nothing
    and answers with one of three client errors. *)
Lemma put_approve_decided_eq p id body managerId db leaveRequest :
  table "LeaveRequests" db !! id = Some leaveRequest →
  Js.strict_eq (Js.get leaveRequest "status") (Js.Str "pending") = false →
  put_approve p id body managerId db
  = (Returned
       (if negb (Js.truthy (Js.ofString (status body)))
           || negb (bool_decide (status body ∈ [Some "approved"; Some "rejected"]%string))
        then Json 400 "Invalid status. Must be 'approved' or 'rejected'."
        else if Js.truthy (Js.get leaveRequest "managerId")
                && negb (Js.strict_eq (Js.get leaveRequest "managerId")
                                      (Js.Str managerId))
        then notAuthorizedResponse
        else notPendingResponse),
     db).
Proof.
  intros Hitem Hstatus.
  unfold put_approve, tryCatch, bind, get, ret.
  destruct (negb _ || negb _); [done|].
  cbv beta. rewrite Hitem.
  destruct (Js.truthy _ && negb _); [done|].
  by rewrite Hstatus.
Qed.

(** For a well-formed attempt of the recorded manager that error is the
    not-pending response, which is not the response of an authorization
    denial. *)
Lemma put_approve_decided p id body managerId db leaveRequest :
  table "LeaveRequests" db !! id = Some leaveRequest →
  Js.strict_eq (Js.get leaveRequest "status") (Js.Str "pending") = false →
  (put_approve p id body managerId db).2 = db
  ∧ (status body ∈ [Some "approved"; Some "rejected"]%string →
     Js.get leaveRequest "managerId" = Js.Str managerId →
     (put_approve p id body managerId db).1 = Returned notPendingResponse)
  ∧ notPendingResponse ≠ notAuthorizedResponse.
Proof.
  intros Hitem Hstatus.
  rewrite (put_approve_decided_eq p id body managerId db leaveRequest Hitem Hstatus).
  split; [done|]. split; [|discriminate].
  intros Hvalid Hmanager. rewrite Hmanager. cbn [fst].
  assert (Hself : Js.strict_eq (Js.Str managerId) (Js.Str managerId) = true)
    by (by apply bool_decide_eq_true).
  rewrite Hself, andb_false_r.
  rewrite (bool_decide_eq_true_2 _ Hvalid), orb_false_r.
  apply elem_of_cons in Hvalid as [->|Hvalid]; [done|].
  by apply list_elem_of_singleton in Hvalid as ->.
Qed.

(** A well-formed attempt on a pending request writes the new status,
    which is not ['pending']: the request is decided once. *)
Lemma put_approve_transition p id body managerId db leaveRequest :
  table "LeaveRequests" db !! id = Some leaveRequest →
  Js.strict_eq (Js.get leaveRequest "status") (Js.Str "pending") = true →
  status body ∈ [Some "approved"; Some "rejected"]%string →
  Js.truthy (Js.get leaveRequest "managerId")
  && negb (Js.strict_eq (Js.get leaveRequest "managerId") (Js.Str managerId))
  = false →
  ∃ decided,
    table "LeaveRequests" (put_approve p id body managerId db).2 !! id
    = Some decided
    ∧ Js.get decided "status" = Js.ofString (status body)
    ∧ Js.strict_eq (Js.get decided "status") (Js.Str "pending") = false.
Proof.
  intros Hitem Hpending Hvalid Hmanager.
  assert (Hok : negb (Js.truthy (Js.ofString (status body)))
                || negb (bool_decide (status body ∈ [Some "approved"; Some "rejected"]%string))
                = false).
  { rewrite (bool_decide_eq_true_2 _ Hvalid), orb_false_r.
    apply elem_of_cons in Hvalid as [->|Hvalid]; [done|].
    by apply list_elem_of_singleton in Hvalid as ->. }
  unfold put_approve, tryCatch, bind, get, ret.
  rewrite Hok. cbv beta. rewrite Hitem, Hmanager, Hpending. cbn [negb].
  unfold updateSet. rewrite Hitem. cbn [default foldl fst snd].
  eexists. split; [|split].
  - destruct (Js.strict_eq (Js.ofString (status body)) (Js.Str "approved")).
    + rewrite employeeId_unbound. cbn [snd].
      rewrite table_insert_eq. apply lookup_insert_eq.
    + cbn [snd]. rewrite table_insert_eq. apply lookup_insert_eq.
  - unfold Js.get. rewrite !lookup_insert_ne by done.
    by rewrite lookup_insert_eq.
  - unfold Js.get. rewrite !lookup_insert_ne by done.
    rewrite lookup_insert_eq. cbn [default].
    apply elem_of_cons in Hvalid as [->|Hvalid]; [done|].
    by apply list_elem_of_singleton in Hvalid as ->.
Qed.

(** C8.  Approving the pending three-day annual leave of [e1]: the
    status update is written, then the call that should decrement the
    balance evaluates the unbound identifier [employeeId]; the handler
    answers 500 and the balance is still 20. *)
Theorem approval_leaves_balance :
  let out := put_approve Sample.platform "leave_1_e1"
               (mkApproveBody (Some "approved"%string) None) "m1" Sample.store in
  out.1 = Returned internalServerError
  ∧ table "LeaveRequests" out.2 !! "leave_1_e1"%string ≫= (.!! "status"%string)
    = Some (Js.Str "approved")
  ∧ table "LeaveRequests" Sample.store !! "leave_1_e1"%string ≫= (.!! "leaveDays"%string)
    = Some (Js.Num 3)
  ∧ table "LeaveBalances" Sample.store !! "e1"%string ≫= (.!! "annual"%string)
    = Some (Js.Num 20)
  ∧ table "LeaveBalances" out.2 !! "e1"%string ≫= (.!! "annual"%string)
    = Some (Js.Num 20).
Proof. vm_compute. repeat split; reflexivity. Qed.

End LeaveApproval.

(** ** The generic request routes *)

Section RequestStatus.
Import Dynamo RequestRoutes.

(** Once the request is found, what [PUT /requests/:id] does depends on
    the call of the imported value alone; the request's current status is
    never read. *)
Lemma put_id_with_found imported p requestId body user userName db request rest :
  status body ∈ [Some "approved"; Some "rejected"; Some "pending"]%string →
  query ("REQUEST#" ++ requestId) db = (Returned (request :: rest), db) →
  put_id_with imported p requestId body user userName db
  = match imported with
    | ImportedObject => (Returned internalServerError, db)
    | ImportedFunction f =>
      match f user (Js.get request "employeeDepartment") with
      | Thrown _ => (Returned internalServerError, db)
      | Returned false => (Returned unauthorizedResponse, db)
      | Returned true =>
        (Returned (Json 200 "Request updated successfully"),
         statusUpdate p requestId body user userName request db)
      end
    end.
Proof.
  intros Hvalid Hquery.
  unfold put_id_with, tryCatch, bind, ret.
  rewrite (bool_decide_eq_true_2 _ Hvalid). cbn [negb]. rewrite Hquery.
  destruct imported as [|f]; [reflexivity|].
  unfold call. destruct (f user _) as [[|]|error]; reflexivity.
Qed.

(** C7.  [PUT /requests/r1] with status ['rejected'] on a request that is
    already approved.  As the module is written the call of the imported
    object throws and the handler answers 500.  Whatever a function in
    its place returns, the handler never looks at the current status:
    it answers 500, or the denial response, or it overwrites the
    decided request and answers 200. *)
Theorem put_id_ignores_current_status :
  put_id Sample.platform "r1" (mkUpdateBody (Some "rejected"%string) None)
         Sample.admin (Js.Str "Ada") [Sample.decidedRequest]
  = (Returned internalServerError, [Sample.decidedRequest])
  ∧ ∀ f,
      let out := put_id_with (ImportedFunction f) Sample.platform "r1"
                   (mkUpdateBody (Some "rejected"%string) None)
                   Sample.admin (Js.Str "Ada") [Sample.decidedRequest] in
      match f Sample.admin (Js.Str "sales") with
      | Thrown _ => out = (Returned internalServerError, [Sample.decidedRequest])
      | Returned false => out = (Returned unauthorizedResponse, [Sample.decidedRequest])
      | Returned true =>
        out.1 = Returned (Json 200 "Request updated successfully")
        ∧ head out.2 ≫= (.!! "status"%string) = Some (Js.Str "rejected")
      end.
Proof.
  assert (Hvalid : Some "rejected"%string
                   ∈ [Some "approved"; Some "rejected"; Some "pending"]%string)
    by (right; left).
  assert (Hpk : Js.strict_eq (Js.get Sample.decidedRequest "PK")
                             (Js.Str ("REQUEST#" ++ "r1")) = true)
    by (vm_compute; reflexivity).
  assert (Hquery : query ("REQUEST#" ++ "r1") [Sample.decidedRequest]
                   = (Returned [Sample.decidedRequest], [Sample.decidedRequest])).
  { unfold query. cbn [List.filter]. by rewrite Hpk. }
  split.
  - unfold put_id.
    exact (put_id_with_found checkApprovalAuthority Sample.platform "r1"
             (mkUpdateBody (Some "rejected"%string) None)
             Sample.admin (Js.Str "Ada") _ _ _ Hvalid Hquery).
  - intros f out. subst out.
    rewrite (put_id_with_found (ImportedFunction f) Sample.platform "r1"
               (mkUpdateBody (Some "rejected"%string) None)
               Sample.admin (Js.Str "Ada") _ _ _ Hvalid Hquery).
    change (Js.get Sample.decidedRequest "employeeDepartment") with (Js.Str "sales").
    destruct (f Sample.admin (Js.Str "sales")) as [[|]|error]; [|reflexivity..].
    split; [reflexivity|]. vm_compute. reflexivity.
Qed.

End RequestStatus.

(** ** The approval chain of a new leave request *)

Section ApprovalChain.
Import Dynamo.

Lemma pair_from_fst {A B : Type} (x : A * B) (a : A) : x.1 = a → x = (a, x.2).
Proof. intros <-. by destruct x. Qed.

Implicit Types (p : Platform) (db : gmap string (gmap string (gmap string Js.value))).

(** What [routes/leave.js] stores for a new leave request: the token's
    [managerId] (or [null]), and no approval chain. *)
Lemma leave_js_stores_manager_only p body employeeId managerId db db' :
  LeaveRoutes.post_request p body employeeId managerId db
  = (Returned (Json 201 "Leave request submitted successfully"), db') →
  ∃ item,
    table "LeaveRequests" db' !! ("leave_" ++ nowString p ++ "_" ++ employeeId)%string
    = Some item
    ∧ item !! "managerId"%string = Some (Js.or (Js.ofString managerId) Js.Null)
    ∧ item !! "approverUserIds"%string = None
    ∧ item !! "approver_user_ids"%string = None.
Proof.
  unfold LeaveRoutes.post_request, tryCatch, bind, ret.
  destruct (negb _ || negb _ || negb _ || negb _); [discriminate|].
  destruct (_ <=? now p); [discriminate|].
  destruct (_ <=? _); [discriminate|].
  destruct (LeaveRoutes.getLeaveBalance employeeId _ db) as [[leaveBalance|error] db1];
    [|discriminate].
  destruct (LeaveRoutes.balanceBelow leaveBalance _); [discriminate|].
  unfold put. intros [= <-].
  eexists. split; [|split; [|split]].
  - rewrite table_insert_eq. apply lookup_insert_eq.
  - reflexivity.
  - reflexivity.
  - reflexivity.
Qed.

Lemma getLeaveBalance_keeps_users p userId leaveType db :
  table LeaveRoutesChain.USERS_TABLE
        (LeaveRoutesChain.getLeaveBalance p userId leaveType db).2
  = table LeaveRoutesChain.USERS_TABLE db.
Proof.
  unfold LeaveRoutesChain.getLeaveBalance, tryCatch, bind, get, ret, put.
  destruct (table LeaveRoutesChain.LEAVE_TABLE db !! _); [done|].
  cbn [snd]. by apply table_insert_ne.
Qed.

(** The block that fills [approverUserIds] reads the users table, writes
    nothing, and computes the chain of the specification. *)
Lemma approvalChain_spec (user : gmap string Js.value) db chain db' :
  LeaveRoutesChain.approvalChain user db = (Returned chain, db') →
  db' = db ∧ chain = chainSpec (table LeaveRoutesChain.USERS_TABLE db) user.
Proof.
  unfold LeaveRoutesChain.approvalChain, chainSpec, bind, get, ret, throw.
  destruct (Js.get user "manager_id") as [| |b|n| |manager|l|] eqn:Hm;
    cbn [Js.truthy]; try (intros [= <- <-]; done);
    try (destruct b; [discriminate|by intros [= <- <-]]);
    try (destruct (negb (n =? 0)); [discriminate|by intros [= <- <-]]);
    try discriminate.
  destruct (negb (bool_decide (manager = EmptyString))); [|by intros [= <- <-]].
  destruct (table LeaveRoutesChain.USERS_TABLE db !! manager) as [managerItem|];
    [|by intros [= <- <-]].
  destruct (Js.truthy (Js.get managerItem "manager_id")); by intros [= <- <-].
Qed.

(** C9, as amended.  The [POST /leave/request] of [routes/leave.js]
    stores the token's [managerId] (or [null]) and no approval chain.  The
    [POST /leave/request] of the router over [hris_leave] stores under
    [approver_user_ids] the chain of the submitting user: the direct
    manager, followed by the manager's manager when the manager's record
    names one (and the empty chain for a user without manager). *)
Theorem approval_chain_recorded :
  (∀ p body employeeId managerId db db',
     LeaveRoutes.post_request p body employeeId managerId db
     = (Returned (Json 201 "Leave request submitted successfully"), db') →
     ∃ item,
       table "LeaveRequests" db' !! ("leave_" ++ nowString p ++ "_" ++ employeeId)%string
       = Some item
       ∧ item !! "managerId"%string = Some (Js.or (Js.ofString managerId) Js.Null)
       ∧ ∀ chain, ¬ carriesChain item chain)
  ∧ (∀ p body userId db db',
       LeaveRoutesChain.post_request p body userId db
       = (Returned (Json 201 "Leave request submitted successfully"), db') →
       ∃ user item,
         table LeaveRoutesChain.USERS_TABLE db !! userId = Some user
         ∧ table LeaveRoutesChain.LEAVE_TABLE db' !! ("leave_" ++ uuidv4 p 0%nat)%string
           = Some item
         ∧ item !! "approver_user_ids"%string
           = Some (Js.Arr (chainSpec (table LeaveRoutesChain.USERS_TABLE db) user))).
Proof.
  split.
  - intros p body employeeId managerId db db' Hpost.
    destruct (leave_js_stores_manager_only _ _ _ _ _ _ Hpost)
      as (item & Hitem & Hmanager & Hnone & Hnone').
    exists item. split; [done|]. split; [done|].
    intros chain [Hc|Hc]; congruence.
  - intros p body userId db db'.
    unfold LeaveRoutesChain.post_request, tryCatch, bind, ret.
    destruct (negb _ || negb _ || negb _ || negb _); [discriminate|].
    destruct (_ <=? now p); [discriminate|].
    destruct (_ <=? _); [discriminate|].
    pose proof (getLeaveBalance_keeps_users p userId (LeaveRoutes.leaveType body) db)
      as Husers.
    destruct (LeaveRoutesChain.getLeaveBalance p userId _ db)
      as [[leaveBalance|error] db1]; [|discriminate].
    cbn [snd] in Husers.
    destruct (LeaveRoutes.balanceBelow leaveBalance _); [discriminate|].
    unfold get at 1. rewrite Husers.
    destruct (table LeaveRoutesChain.USERS_TABLE db !! userId) as [user|];
      [|discriminate].
    destruct (LeaveRoutesChain.approvalChain user db1)
      as [[approverUserIds|error] db2] eqn:Hchain; [|discriminate].
    apply approvalChain_spec in Hchain as [-> ->]. rewrite Husers.
    unfold put. intros [= <-].
    exists user. eexists. split; [done|]. split.
    + rewrite table_insert_ne by done. rewrite table_insert_eq.
      apply lookup_insert_eq.
    + unfold LeaveRoutesChain.attribute.
      destruct (Js.get user "department"); reflexivity.
Qed.

End ApprovalChain.

(** * Further properties *)

(** ** The permission cache *)

Section PermissionCache.
Import AuthorizeFeature.

Implicit Types (w : World) (c : Cache.t) (f : string) (user : User.t).

Lemma indexBy_snoc {A : Type} (key : A → string) (items : list A) (x : A) :
  indexBy key (items ++ [x]) = <[key x := x]> (indexBy key items).
Proof. unfold indexBy. by rewrite foldl_app. Qed.

(** In the dictionary that the [forEach] builds, a key holds the last
    item of that key. *)
Lemma indexBy_lookup {A : Type} (key : A → string) (items : list A) (k : string) :
  indexBy key items !! k = last (filter (λ x, key x = k) items).
Proof.
  induction items as [|x items IH] using rev_ind; [done|].
  rewrite indexBy_snoc, filter_app.
  destruct (decide (key x = k)) as [Heq|Hne].
  - rewrite Heq, lookup_insert_eq.
    rewrite (filter_cons_True _ x []) by done.
    rewrite filter_nil. by rewrite last_snoc.
  - rewrite lookup_insert_ne by done.
    rewrite (filter_cons_False _ x []) by done.
    rewrite filter_nil, app_nil_r. exact IH.
Qed.

Lemma indexBy_lookup_Some {A : Type} (key : A → string) (items : list A)
    (k : string) (x : A) :
  indexBy key items !! k = Some x → x ∈ items ∧ key x = k.
Proof.
  rewrite indexBy_lookup. intros Hlast.
  apply last_Some_elem_of in Hlast.
  by apply list_elem_of_filter in Hlast as [? ?].
Qed.

Lemma refresh_success w c permissionItems roleItems :
  scanPermissions w = ScanItems permissionItems →
  scanRoles w = ScanItems roleItems →
  refreshPermissionsCache w c
  = (true,
     {| Cache.timestamp := Some (nowAtRefresh w);
        Cache.permissions := indexBy Permission.permissionName permissionItems;
        Cache.roles := indexBy Role.roleId roleItems |}).
Proof. intros Hp Hr. unfold refreshPermissionsCache. by rewrite Hp, Hr. Qed.

(** X1.  A successful refresh replaces the whole snapshot: the result does
    not depend on the cache before; it is stamped with the clock; and
    under each name (each role id) it holds the last scanned item of
    that name, or nothing when no scanned item has it. *)
Theorem refresh_replaces_snapshot w permissionItems roleItems :
  scanPermissions w = ScanItems permissionItems →
  scanRoles w = ScanItems roleItems →
  ∃ snapshot,
    (∀ c, refreshPermissionsCache w c = (true, snapshot))
    ∧ Cache.timestamp snapshot = Some (nowAtRefresh w)
    ∧ (∀ name, Cache.permissions snapshot !! name
               = last (filter (λ item, Permission.permissionName item = name)
                              permissionItems))
    ∧ (∀ roleId, Cache.roles snapshot !! roleId
                 = last (filter (λ role, Role.roleId role = roleId) roleItems)).
Proof.
  intros Hp Hr. eexists. split; [|split; [|split]].
  - intros c. by apply refresh_success.
  - reflexivity.
  - intros name. apply indexBy_lookup.
  - intros roleId. apply indexBy_lookup.
Qed.

Lemma needsRefresh_false now c :
  needsRefresh now c = false
  ↔ ∃ t, Cache.timestamp c = Some t ∧ t ≠ 0 ∧ now - t ≤ 300000.
Proof.
  unfold needsRefresh, Cache.ttl.
  destruct (Cache.timestamp c) as [t|].
  - rewrite orb_false_iff, Z.eqb_neq, Z.ltb_ge. split.
    + intros [? ?]. exists t. split; [done|]. split; [done|lia].
    + intros (? & [= <-] & ? & ?). split; [done|lia].
  - split; [done|]. by intros (? & ? & _).
Qed.

(** X2.  A snapshot is fresh exactly when it carries a non-zero timestamp
    that is at most 300000 ms old (the bound included); on a fresh
    snapshot [canPerform] and the middleware decide without the store and
    leave the snapshot as it is. *)
Theorem fresh_snapshot_is_kept w c :
  (needsRefresh (nowAtCheck w) c = false
   ↔ ∃ t, Cache.timestamp c = Some t ∧ t ≠ 0 ∧ nowAtCheck w - t ≤ 300000)
  ∧ (needsRefresh (nowAtCheck w) c = false →
     ∀ f user,
       canPerform w c f (Some user)
       = (negb (missingCriticalData user) && decision c f user, c)
       ∧ (Js.truthy (User.id user) = true →
          authorizeFeature f w c (Some user)
          = (if decision c f user then Next
             else Json 403 "You do not have permission to access this feature",
             c))).
Proof.
  split; [apply needsRefresh_false|].
  intros Hfresh f user.
  assert (Hsame : refreshIfNeeded w c = c)
    by (unfold refreshIfNeeded; by rewrite Hfresh).
  split.
  - rewrite canPerform_decision, Hsame. by destruct (missingCriticalData user).
  - intros Hid. by rewrite authorizeFeature_decision, Hsame.
Qed.


Lemma requiredLevelSpec_positive c f :
  validLevels c → 1 ≤ requiredLevelSpec c f ≤ 5.
Proof.
  intros Hvalid. unfold requiredLevelSpec.
  destruct (Cache.permissions c !! f) as [cached|] eqn:Hc.
  - by apply Hvalid in Hc.
  - destruct (defaultFeaturePermissions !! f) as [d|] eqn:Hd; [|lia].
    apply defaults_in_range in Hd. exact Hd.
Qed.

Lemma missing_decision_false c f user :
  validLevels c → missingCriticalData user = true → decision c f user = false.
Proof.
  intros Hvalid Hmiss. unfold missingCriticalData in Hmiss.
  apply andb_true_iff in Hmiss as [Hmiss Hroles].
  apply andb_true_iff in Hmiss as [Hlevel Hperms].
  unfold decision. rewrite levelSuffices_permissionInfo.
  unfold hasOverride, anyRoleGrants.
  destruct (User.permissions user); [done|].
  destruct (User.roles user); [|done..]. cbn [orb].
  pose proof (requiredLevelSpec_positive c f Hvalid) as Hreq.
  destruct (User.accessLevel user) as [level|]; [|by rewrite andb_false_r].
  apply Z.eqb_eq in Hlevel as ->. apply andb_false_iff. right.
  apply Z.leb_gt. lia.
Qed.

(** X3.  On snapshots whose levels are in range, the middleware calls
    [next] exactly when [canPerform] answers [true], for every actor with
    an id; without an actor, or without an id, it answers 401 and does not
    touch the cache, however stale. *)
Theorem middleware_agrees_with_canPerform w c f :
  (validLevels (refreshIfNeeded w c) →
   ∀ user, Js.truthy (User.id user) = true →
           ((authorizeFeature f w c (Some user)).1 = Next
            ↔ (canPerform w c f (Some user)).1 = true))
  ∧ authorizeFeature f w c None = (Json 401 "Authentication required", c)
  ∧ (∀ user, Js.truthy (User.id user) = false →
             authorizeFeature f w c (Some user)
             = (Json 401 "Authentication required", c)).
Proof.
  split; [|split].
  - intros Hvalid user Hid.
    rewrite authorizeFeature_decision by done. rewrite canPerform_decision.
    destruct (missingCriticalData user) eqn:Hmiss; cbn [fst].
    + rewrite (missing_decision_false _ f user Hvalid Hmiss). by split.
    + destruct (decision _ f user); by split.
  - reflexivity.
  - intros user Hid. unfold authorizeFeature. by rewrite Hid.
Qed.

(** X4.  A higher access level dominates: on a snapshot whose levels are
    in range, what an actor may do at one level the same actor may do at
    every level above. *)
Theorem higher_level_dominates w c f user level level' :
  validLevels (refreshIfNeeded w c) →
  User.accessLevel user = Some level →
  level ≤ level' →
  (canPerform w c f (Some user)).1 = true →
  (canPerform w c f (Some (withLevel user level'))).1 = true.
Proof.
  intros Hvalid Hlevel Hle.
  rewrite !canPerform_decision.
  destruct (missingCriticalData user) eqn:Hmiss; [done|]. cbn [fst].
  pose proof (requiredLevelSpec_positive _ f Hvalid) as Hreq.
  unfold decision. rewrite !levelSuffices_permissionInfo, Hlevel.
  change (hasOverride f (withLevel user level')) with (hasOverride f user).
  change (anyRoleGrants (refreshIfNeeded w c) f (withLevel user level'))
    with (anyRoleGrants (refreshIfNeeded w c) f user).
  cbn [withLevel User.accessLevel].
  intros Hallowed.
  assert (Hdecision : hasOverride f user
                      || anyRoleGrants (refreshIfNeeded w c) f user
                      || negb (inheritedOnly (refreshIfNeeded w c) f)
                         && (requiredLevelSpec (refreshIfNeeded w c) f <=? level')
                      = true).
  { apply orb_true_iff in Hallowed as [Hfirst|Hlast].
    - by rewrite Hfirst.
    - apply andb_true_iff in Hlast as [Hown Hlast].
      apply Z.leb_le in Hlast. rewrite orb_true_iff. right.
      rewrite Hown. apply Z.leb_le. lia. }
  assert (Hpresent : missingCriticalData (withLevel user level') = false).
  { unfold missingCriticalData. cbn [withLevel User.accessLevel User.permissions User.roles].
    apply orb_true_iff in Hallowed as [Hfirst|Hlast].
    - apply orb_true_iff in Hfirst as [Hov|Hroles].
      + unfold hasOverride in Hov.
        destruct (User.permissions user); [|done]. by rewrite andb_false_r.
      + unfold anyRoleGrants in Hroles.
        destruct (User.roles user); [done..|]. by rewrite andb_false_r.
    - apply andb_true_iff in Hlast as [_ Hlast]. apply Z.leb_le in Hlast.
      by destruct (Z.eqb_spec level' 0); [lia|]. }
  by rewrite Hpresent.
Qed.

End PermissionCache.

(** ** The administrative helpers *)

Section Administration.
Import AuthorizeFeature Admin.

Implicit Types (w : World) (c : Cache.t) (t : Tables) (r : Reach).

Lemma refreshIfNeeded_keyed w c :
  keyedByName c → keyedByName (refreshIfNeeded w c).
Proof.
  intros Hkeyed. unfold refreshIfNeeded.
  destruct (needsRefresh _ c); [|done].
  unfold refreshPermissionsCache.
  destruct (scanPermissions w) as [permissionItems|]; [|done].
  destruct (scanRoles w) as [roleItems|]; [|done].
  intros name cached Hlookup. cbn [snd Cache.permissions] in Hlookup.
  by apply indexBy_lookup_Some in Hlookup as [_ ?].
Qed.

Lemma defaults_described :
  map_Forall (λ _ d, Default.description d ≠ EmptyString) defaultFeaturePermissions.
Proof. apply (bool_decide_unpack _). by vm_compute. Qed.

Lemma defaults_not_inherited :
  map_Forall (λ name _, Js.inherited name = false) defaultFeaturePermissions.
Proof. apply (bool_decide_unpack _). by vm_compute. Qed.

Lemma listing_lookup (cached : gmap string Permission.t) :
  map_Forall (λ name item, Permission.permissionName item = name) cached →
  cached !! "__proto__"%string = None →
  ∀ name,
    map_fold (λ _ permission all,
                assign (Permission.permissionName permission)
                       (listCustom permission) all)
             (listDefault <$> defaultFeaturePermissions) cached !! name
    = match cached !! name with
      | Some item => Some (listCustom item)
      | None => listDefault <$> defaultFeaturePermissions !! name
      end.
Proof.
  apply (map_fold_weak_ind
           (λ all m, map_Forall (λ name item, Permission.permissionName item = name) m →
                     m !! "__proto__"%string = None →
                     ∀ name, all !! name
                             = match m !! name with
                               | Some item => Some (listCustom item)
                               | None => listDefault <$> defaultFeaturePermissions !! name
                               end)).
  - intros _ _ name. rewrite lookup_empty, lookup_fmap. reflexivity.
  - intros i x m all Hfresh IH Hkeyed Hproto name.
    apply map_Forall_insert in Hkeyed as [Hname Hkeyed]; [|done].
    rewrite Hname.
    assert (Hi : i ≠ "__proto__"%string).
    { intros ->. by rewrite lookup_insert_eq in Hproto. }
    rewrite lookup_insert_ne in Hproto by done.
    unfold assign. rewrite (bool_decide_eq_false_2 _ Hi).
    destruct (decide (i = name)) as [->|Hne].
    + by rewrite !lookup_insert_eq.
    + rewrite !lookup_insert_ne by done. by apply IH.
Qed.

(** X5.  What [getAllPermissions] lists is what the engine enforces, on a
    snapshot that is keyed by name and holds no permission named
    [__proto__]: for a listed name [permissionInfo] is an object with the
    listed level and description, and the name is flagged custom exactly
    when the cache has an entry for it; a name that is not listed is in
    neither the cache nor the default table, and [permissionInfo] is the
    fallback object of level 5, or for a name inherited from
    [Object.prototype] the inherited property, for which no level
    suffices. *)
Theorem listing_matches_enforcement w c name :
  keyedByName c →
  Cache.permissions (refreshIfNeeded w c) !! "__proto__"%string = None →
  (getAllPermissions w c).2 = refreshIfNeeded w c
  ∧ match (getAllPermissions w c).1 !! name with
    | Some listing =>
      (∃ item, permissionInfo (refreshIfNeeded w c) name = InfoItem item
               ∧ Admin.defaultLevel listing = Permission.requiredLevel item
               ∧ Admin.description listing = Permission.description item)
      ∧ (isCustom listing = true
         ↔ is_Some (Cache.permissions (refreshIfNeeded w c) !! name))
    | None =>
      Cache.permissions (refreshIfNeeded w c) !! name = None
      ∧ defaultFeaturePermissions !! name = None
      ∧ permissionInfo (refreshIfNeeded w c) name
        = (if Js.inherited name then InfoInherited
           else InfoItem (Permission.mk name 5 "Undocumented feature"))
      ∧ (∀ user, levelSuffices user (permissionInfo (refreshIfNeeded w c) name)
                 = negb (Js.inherited name)
                   && match User.accessLevel user with
                      | Some level => 5 <=? level
                      | None => false
                      end)
    end.
Proof.
  intros Hkeyed Hproto. split; [reflexivity|].
  apply (refreshIfNeeded_keyed w) in Hkeyed.
  unfold getAllPermissions. cbn [fst].
  rewrite (delete_id _ _ Hproto).
  rewrite (listing_lookup _ Hkeyed Hproto name).
  unfold permissionInfo.
  destruct (Cache.permissions (refreshIfNeeded w c) !! name) as [item|] eqn:Hc.
  - cbn [listCustom Admin.defaultLevel Admin.description isCustom].
    split; [by exists item|]. split; [by eexists|reflexivity].
  - destruct (defaultFeaturePermissions !! name) as [d|] eqn:Hd;
      cbn [fmap option_fmap option_map].
    + pose proof (defaults_in_range _ _ Hd) as Hrange. cbv beta in Hrange.
      pose proof (defaults_described _ _ Hd) as Hdesc. cbv beta in Hdesc.
      pose proof (defaults_not_inherited _ _ Hd) as Hname. cbv beta in Hname.
      rewrite Hname.
      cbn [listDefault Admin.defaultLevel Admin.description isCustom].
      destruct (Z.eqb_spec (Default.defaultLevel d) 0); [lia|].
      rewrite (bool_decide_eq_false_2 _ Hdesc).
      split; [by eexists|]. split; [discriminate|]. by intros [? ?].
    + split; [reflexivity|]. split; [reflexivity|].
      destruct (Js.inherited name); [by split|].
      split; [reflexivity|]. intros user. reflexivity.
Qed.

Lemma indexBy_is_Some {A : Type} (key : A → string) (items : list A) (x : A) :
  x ∈ items → is_Some (indexBy key items !! key x).
Proof.
  intros Hin. rewrite indexBy_lookup. apply last_is_Some.
  intros Hnil.
  assert (Hx : x ∈ filter (λ y, key y = key x) items)
    by (by apply list_elem_of_filter).
  rewrite Hnil in Hx. by apply elem_of_nil in Hx.
Qed.

(** Filing the scan of a table whose items sit under their own key gives
    the table back. *)
Lemma indexBy_scan {A : Type} (key : A → string) (t : gmap string A) :
  map_Forall (λ k x, key x = k) t → indexBy key (map_to_list t).*2 = t.
Proof.
  intros Hkeyed. apply map_eq. intros k.
  assert (Hvalues : ∀ y, y ∈ (map_to_list t).*2 → t !! key y = Some y).
  { intros y Hy. apply list_elem_of_fmap in Hy as ([k' y'] & -> & Hy).
    apply elem_of_map_to_list in Hy. cbn [snd].
    by rewrite (Hkeyed _ _ Hy). }
  destruct (indexBy key (map_to_list t).*2 !! k) as [y|] eqn:Hindex.
  - apply indexBy_lookup_Some in Hindex as [Hy <-]. symmetry. by apply Hvalues.
  - destruct (t !! k) as [x|] eqn:Ht; [|done]. exfalso.
    assert (Hx : x ∈ (map_to_list t).*2).
    { apply list_elem_of_fmap. exists (k, x). split; [done|].
      by apply elem_of_map_to_list. }
    apply (indexBy_is_Some key) in Hx as [y Hy].
    rewrite (Hkeyed _ _ Ht) in Hy. congruence.
Qed.

Lemma keyed_insert_permission (table : gmap string Permission.t) name level text :
  map_Forall (λ name item, Permission.permissionName item = name) table →
  map_Forall (λ name item, Permission.permissionName item = name)
             (<[name := Permission.mk name level text]> table).
Proof. intros Hkeyed. by apply map_Forall_insert_2. Qed.

Lemma keyed_insert_role (table : gmap string Role.t) roleId roleName granted :
  map_Forall (λ roleId role, Role.roleId role = roleId) table →
  map_Forall (λ roleId role, Role.roleId role = roleId)
             (<[roleId := Role.mk roleId roleName granted]> table).
Proof. intros Hkeyed. by apply map_Forall_insert_2. Qed.

(** X6.  Read after write: when the [put] and the two scans succeed,
    [setPermission] returns [true], the table holds the new item, the
    cache is the table, stamped with the clock, and the engine requires
    the written level for the written name. *)
Theorem setPermission_read_after_write r t c name level text :
  map_Forall (λ name item, Permission.permissionName item = name)
             (permissionsTable t) →
  map_Forall (λ roleId role, Role.roleId role = roleId) (rolesTable t) →
  putSucceeds r = true →
  scanPermissionsSucceeds r = true →
  scanRolesSucceeds r = true →
  ∃ t' c',
    setPermission r t c name level text = (true, t', c')
    ∧ permissionsTable t' = <[name := Permission.mk name level text]> (permissionsTable t)
    ∧ rolesTable t' = rolesTable t
    ∧ Cache.permissions c' = permissionsTable t'
    ∧ Cache.roles c' = rolesTable t
    ∧ Cache.timestamp c' = Some (refreshedAt r)
    ∧ permissionInfo c' name = Permission.mk name level text.
Proof.
  intros Hpermissions Hroles Hput Hscan Hscan'.
  unfold setPermission. rewrite Hput.
  eexists. eexists. split; [reflexivity|].
  unfold refreshPermissionsCache, world, scan.
  cbn [scanPermissions scanRoles permissionsTable rolesTable nowAtRefresh].
  rewrite Hscan, Hscan'. cbn [snd Cache.permissions Cache.roles Cache.timestamp].
  rewrite (indexBy_scan Permission.permissionName)
    by (by apply keyed_insert_permission).
  rewrite (indexBy_scan Role.roleId) by done.
  repeat (split; [reflexivity|]).
  unfold permissionInfo. cbn [Cache.permissions].
  by rewrite lookup_insert_eq.
Qed.

(** X7.  [setPermission] reports the [put] alone: a rejected [put] gives
    [false] and changes nothing; a [put] that succeeds gives [true] even
    when a scan of the refresh behind it is rejected, and then the table
    holds the new item while the cache, and with it every decision, is
    the one from before the write. *)
Theorem setPermission_reports_the_put r t c name level text :
  (putSucceeds r = false →
   setPermission r t c name level text = (false, t, c))
  ∧ (putSucceeds r = true →
     scanPermissionsSucceeds r = false ∨ scanRolesSucceeds r = false →
     setPermission r t c name level text
     = (true,
        mkTables (<[name := Permission.mk name level text]> (permissionsTable t))
                 (rolesTable t),
        c)).
Proof.
  unfold setPermission. split.
  - by intros ->.
  - intros -> Hfail. f_equal.
    unfold refreshPermissionsCache, world, scan.
    cbn [scanPermissions scanRoles permissionsTable rolesTable].
    destruct Hfail as [-> | ->]; [done|].
    by destruct (scanPermissionsSucceeds r).
Qed.

(** X8.  A role written by [setRole] takes effect: when the [put] and the
    scans succeed, every actor whose [roles] array names the role is
    allowed each feature the role lists (every feature, if it lists the
    wildcard), at any access level, for as long as the snapshot is
    fresh. *)
Theorem setRole_takes_effect r t c roleId roleName granted f w user ids :
  map_Forall (λ roleId role, Role.roleId role = roleId) (rolesTable t) →
  putSucceeds r = true →
  scanPermissionsSucceeds r = true →
  scanRolesSucceeds r = true →
  f ∈ granted ∨ "*"%string ∈ granted →
  User.roles user = User.RolesArray ids →
  roleId ∈ ids →
  needsRefresh (nowAtCheck w) (setRole r t c roleId roleName granted).2 = false →
  (setRole r t c roleId roleName granted).1.1 = true
  ∧ (canPerform w (setRole r t c roleId roleName granted).2 f (Some user)).1 = true.
Proof.
  intros Hroles Hput Hscan Hscan' Hgrant Hids Hin Hfresh.
  unfold setRole in *. rewrite Hput in *. cbn [fst snd] in *.
  split; [reflexivity|].
  rewrite canPerform_decision, (roles_not_missing user ids Hids).
  unfold refreshIfNeeded. rewrite Hfresh. cbn [fst].
  unfold decision, anyRoleGrants. rewrite Hids.
  replace (rolesLoop _ f ids) with true; [by rewrite orb_true_r|].
  symmetry. apply rolesLoop_true. exists roleId. split; [done|].
  apply (roleGrants_true _ f roleId (Role.mk roleId roleName (Some granted)) granted);
    [|reflexivity|exact Hgrant].
  unfold refreshPermissionsCache, world, scan.
  cbn [scanPermissions scanRoles permissionsTable rolesTable nowAtRefresh].
  rewrite Hscan, Hscan'. cbn [snd Cache.roles].
  rewrite (indexBy_scan Role.roleId) by (by apply keyed_insert_role).
  apply lookup_insert_eq.
Qed.


Lemma refresh_keeps_levels_in_range r t c :
  validTable t → validLevels c →
  validLevels (refreshPermissionsCache (world r t) c).2.
Proof.
  intros Htable Hcache. unfold refreshPermissionsCache, world, scan.
  cbn [scanPermissions scanRoles].
  destruct (scanPermissionsSucceeds r); [|done].
  destruct (scanRolesSucceeds r); [|done].
  intros name cached Hlookup. cbn [snd Cache.permissions] in Hlookup.
  apply indexBy_lookup_Some in Hlookup as [Hin _].
  apply list_elem_of_fmap in Hin as ([k item] & -> & Hin).
  apply elem_of_map_to_list in Hin. by apply Htable in Hin as [_ ?].
Qed.

Lemma refreshIfNeeded_keeps_levels_in_range r t c :
  validTable t → validLevels c → validLevels (refreshIfNeeded (world r t) c).
Proof.
  intros Htable Hcache. unfold refreshIfNeeded.
  destruct (needsRefresh _ c); [|done].
  by apply refresh_keeps_levels_in_range.
Qed.

(** X9.  [POST /system/permissions] keeps the levels in range: from a
    table whose items sit under their names with levels in 1..5 it leaves
    such a table, and a cache with levels in range stays one.  The table
    changes only behind the gate of [system.permissions], by one item
    whose name is not empty and whose level is in 1..5. *)
Theorem post_permissions_keeps_levels_in_range atGate atWrite t c user body :
  validTable t →
  validTable (post_permissions atGate atWrite t c user body).1.2
  ∧ (validLevels c →
     validLevels (post_permissions atGate atWrite t c user body).2)
  ∧ ((post_permissions atGate atWrite t c user body).1.2 = t
     ∨ ((authorizeFeature "system.permissions" (world atGate t) c user).1 = Next
        ∧ ∃ name level text,
            bodyName body = Some name ∧ name ≠ EmptyString
            ∧ bodyLevel body = Some level ∧ 1 ≤ level ≤ 5
            ∧ (post_permissions atGate atWrite t c user body).1.2
              = mkTables (<[name := Permission.mk name level text]>
                            (permissionsTable t))
                         (rolesTable t))).
Proof.
  intros Htable. unfold post_permissions.
  assert (Hgate : (authorizeFeature "system.permissions" (world atGate t) c user).2 = c
                  ∨ (authorizeFeature "system.permissions" (world atGate t) c user).2
                    = refreshIfNeeded (world atGate t) c).
  { unfold authorizeFeature. destruct user as [user|]; [|by left].
    destruct (negb (Js.truthy (User.id user))); [by left|]. right.
    destruct (hasOverride _ user); [done|].
    destruct (anyRoleGrants _ _ user); [done|].
    by destruct (levelSuffices user _). }
  destruct (authorizeFeature "system.permissions" (world atGate t) c user)
    as [response c1] eqn:Hauth. cbn [snd] in Hgate.
  assert (Hc1 : validLevels c → validLevels c1).
  { intros Hcache. destruct Hgate as [-> | ->]; [done|].
    by apply refreshIfNeeded_keeps_levels_in_range. }
  destruct response as [|status message]; [|(cbn [fst snd]; split; [exact Htable|split; [exact Hc1|by left]])].
  destruct (bodyName body) as [name|]; [|(cbn [fst snd]; split; [exact Htable|split; [exact Hc1|by left]])].
  destruct (bodyLevel body) as [level|];
    [|rewrite orb_true_r; (cbn [fst snd]; split; [exact Htable|split; [exact Hc1|by left]])].
  cbn [Js.ofString fmap option_fmap option_map default from_option id].
  destruct (negb (Js.truthy (Js.Str name)) || negb (Js.truthy (Js.Num level)))
    eqn:Hpresent; [(cbn [fst snd]; split; [exact Htable|split; [exact Hc1|by left]])|].
  destruct ((level <? 1) || (5 <? level)) eqn:Hrange;
    [(cbn [fst snd]; split; [exact Htable|split; [exact Hc1|by left]])|].
  apply orb_false_iff in Hrange as [Hlow Hhigh].
  apply Z.ltb_ge in Hlow. apply Z.ltb_ge in Hhigh.
  apply orb_false_iff in Hpresent as [Hname _].
  unfold setPermission.
  destruct (putSucceeds atWrite); [|(cbn [fst snd]; split; [exact Htable|split; [exact Hc1|by left]])].
  cbn [fst snd].
  set (text := if Js.truthy (Js.ofString (bodyDescription body))
               then default EmptyString (bodyDescription body)
               else ("Permission for " ++ name)%string).
  assert (Htable' : validTable
                      (mkTables (<[name := Permission.mk name level text]>
                                   (permissionsTable t)) (rolesTable t))).
  { unfold validTable. cbn [permissionsTable].
    apply map_Forall_insert_2; [|exact Htable].
    cbn [Permission.permissionName Permission.requiredLevel]. split; [done|lia]. }
  split; [exact Htable'|]. split.
  - intros Hcache. apply refresh_keeps_levels_in_range; [exact Htable'|].
    by apply Hc1.
  - right. split; [reflexivity|]. exists name, level, text.
    split; [reflexivity|]. split.
    + intros ->. cbn in Hname. discriminate Hname.
    + split; [reflexivity|]. split; [lia|reflexivity].
Qed.

End Administration.

(** ** The approval resolvers and [checkAccess] *)

Section Resolvers.
Import CheckApprovalAuthority CheckAccess Dynamo.

Lemma canApprove_true requestType accessLevel isSameDept :
  canApprove requestType accessLevel isSameDept = true
  ↔ 5 ≤ accessLevel
    ∨ (accessLevel = 4 ∧ requestType ≠ "expense-high"%string)
    ∨ (accessLevel = 3 ∧ isSameDept = true ∧ requestType ∈ managerTypes).
Proof.
  unfold canApprove, managerTypes.
  destruct (Z.leb_spec 5 accessLevel) as [Hfive|Hfive].
  { split; [intros _; by left|done]. }
  destruct (Z.eqb_spec accessLevel 4) as [->|Hfour].
  { case_bool_decide as Hhigh.
    - split; [done|]. intros [?|[[_ ?]|[? _]]]; [lia|done|lia].
    - split; [intros _; right; by left|done]. }
  destruct (Z.eqb_spec accessLevel 3) as [->|Hthree].
  - destruct isSameDept; cbn [andb].
    + case_bool_decide as Hmanager.
      * split; [intros _; right; right; done|done].
      * split.
        -- by case_bool_decide.
        -- intros [?|[[? _]|(_ & _ & ?)]]; [lia|lia|done].
    + split; [done|]. intros [?|[[? _]|(_ & ? & _)]]; [lia|lia|done].
  - cbn [andb]. split; [done|]. intros [?|[[? _]|[? _]]]; lia.
Qed.

Lemma expense_high_reserved : "expense-high"%string ∉ managerTypes.
Proof. apply (bool_decide_unpack _). by vm_compute. Qed.

(** X10.  The type-aware resolver never approves what the department-only
    resolver refuses: for an actor with an id and an access level,
    [canApprove] on the actor's level and department match implies
    [checkAuthority].  They differ exactly for level 4 on
    ['expense-high'] and for level 3 in the same department on a type
    outside the six standard ones. *)
Theorem canApprove_within_checkAuthority (user : User.t) (level : Z)
    (requestType : string) (employeeDepartment : option string) :
  Js.truthy (User.id user) = true →
  User.accessLevel user = Some level →
  (canApprove requestType level
              (bool_decide (User.department user = employeeDepartment)) = true →
   checkAuthority (Some user) employeeDepartment = true)
  ∧ (checkAuthority (Some user) employeeDepartment = true
     ∧ canApprove requestType level
                  (bool_decide (User.department user = employeeDepartment)) = false
     ↔ (level = 4 ∧ requestType = "expense-high"%string)
       ∨ (level = 3 ∧ User.department user = employeeDepartment
          ∧ requestType ∉ managerTypes)).
Proof.
  intros Hid Hlevel.
  assert (Hcheck : checkAuthority (Some user) employeeDepartment = true
                   ↔ 4 ≤ level
                     ∨ (level = 3 ∧ User.department user = employeeDepartment)).
  { unfold checkAuthority. rewrite Hid, Hlevel. cbn [negb].
    destruct (Z.leb_spec 5 level); [split; [intros _; left; lia|done]|].
    destruct (Z.eqb_spec level 4) as [->|]; [split; [intros _; left; lia|done]|].
    destruct (Z.eqb_spec level 3) as [->|].
    - rewrite bool_decide_eq_true. split; [by right|].
      intros [?|[_ ?]]; [lia|done].
    - split; [done|]. intros [?|[? _]]; lia. }
  split.
  - rewrite canApprove_true, Hcheck, bool_decide_eq_true.
    intros [?|[[? _]|(? & ? & _)]]; [left; lia|left; lia|by right].
  - rewrite <- not_true_iff_false, canApprove_true, Hcheck, bool_decide_eq_true.
    split.
    + intros [Hok Hnot].
      destruct Hok as [Hfour|[-> Hdept]].
      * assert (level = 4) as ->.
        { destruct (decide (5 ≤ level)); [|lia]. exfalso. apply Hnot. by left. }
        left. split; [done|].
        destruct (decide (requestType = "expense-high"%string)); [done|].
        exfalso. apply Hnot. right. by left.
      * right. split; [done|]. split; [done|].
        intros Hin. apply Hnot. right. by right.
    + intros [[-> ->]|(-> & Hdept & Hout)].
      * split; [left; lia|]. intros [?|[[_ ?]|[? _]]]; [lia|done|lia].
      * split; [by right|]. intros [?|[[? _]|(_ & _ & ?)]]; [lia|lia|done].
Qed.

(** X11.  [canApprove] is monotone: what a level may approve, every higher
    level may approve, and a department match never takes an approval
    away. *)
Theorem canApprove_monotone (requestType : string) (level level' : Z)
    (isSameDept isSameDept' : bool) :
  level ≤ level' →
  (isSameDept = true → isSameDept' = true) →
  canApprove requestType level isSameDept = true →
  canApprove requestType level' isSameDept' = true.
Proof.
  intros Hle Hdept. rewrite !canApprove_true.
  intros [Hfive|[[-> Hhigh]|(-> & Hsame & Hin)]].
  - left. lia.
  - destruct (decide (5 ≤ level')); [by left|].
    right. left. split; [lia|done].
  - destruct (decide (5 ≤ level')); [by left|]. right.
    destruct (decide (level' = 4)) as [->|].
    + left. split; [done|]. intros ->. by apply expense_high_reserved.
    + right. split; [lia|]. split; [by apply Hdept|done].
Qed.

(** X12.  [checkAccess] reads the access level from the users table, not
    from the token, and writes nothing.  For an actor whose id is a
    non-empty string: no record, 403; a record whose [access_level] is a
    number below the required level, 403; a number at or above it, or no
    [access_level] at all, [next()] with the record in
    [req.userDetails]. *)
Theorem checkAccess_reads_the_record (usersTable : string) (requiredLevel : Z)
    (reqUser : User.t) (id : string)
    (db : gmap string (gmap string (gmap string Js.value))) :
  User.id reqUser = Js.Str id →
  id ≠ EmptyString →
  (checkAccess usersTable requiredLevel (Some reqUser) db).2 = db
  ∧ (table usersTable db !! id = None →
     (checkAccess usersTable requiredLevel (Some reqUser) db).1
     = Returned (Json 403 "User not found", None))
  ∧ (∀ record,
       table usersTable db !! id = Some record →
       (∀ level, record !! "access_level"%string = Some (Js.Num level) →
                 (checkAccess usersTable requiredLevel (Some reqUser) db).1
                 = Returned (if level <? requiredLevel
                             then (Json 403 "Insufficient access level", None)
                             else (Next, Some record)))
       ∧ (record !! "access_level"%string = None →
          (checkAccess usersTable requiredLevel (Some reqUser) db).1
          = Returned (Next, Some record))).
Proof.
  intros Hid Hne.
  assert (Htruthy : Js.truthy (Js.Str id) = true).
  { cbn. by rewrite (bool_decide_eq_false_2 _ Hne). }
  unfold checkAccess, tryCatch, bind, get, ret. rewrite Hid, Htruthy.
  cbn [negb].
  destruct (table usersTable db !! id) as [record|] eqn:Hrecord.
  - split; [by destruct (Js.lt _ _)|]. split; [done|].
    intros ? [= <-]. unfold Js.get. split.
    + intros level ->. cbn.
      by destruct (level <? requiredLevel).
    + by intros ->.
  - split; [done|]. split; [done|]. by intros ? [=].
Qed.

End Resolvers.

(** ** The leave router of [routes/leave.js] *)

Section LeaveRouter.
Import Dynamo LeaveRoutes.

Implicit Types (p : Platform) (db : gmap string (gmap string (gmap string Js.value))).

(** X13.  [getLeaveBalance] initialises once.  While the store answers
    the [get] and the [put]: afterwards the employee has a balance item,
    the one that was there or else the default (annual 20, sick 10,
    personal 5, maternity 90, paternity 10); the answer is the property
    of that item, or the item itself for a falsy leave type; an existing
    item is left as it is, as are all other employees and tables; and a
    second call answers the same and writes nothing. *)
Theorem getLeaveBalance_initialises_once employeeId leaveType db :
  ∃ balance,
    balance = default (defaultBalance employeeId)
                      (table "LeaveBalances" db !! employeeId)
    ∧ table "LeaveBalances" (getLeaveBalance employeeId leaveType db).2
      !! employeeId = Some balance
    ∧ (getLeaveBalance employeeId leaveType db).1
      = Returned (match leaveType with
                  | Some type => if Js.truthy (Js.Str type)
                                 then inl (Js.get balance type)
                                 else inr balance
                  | None => inr balance
                  end)
    ∧ (is_Some (table "LeaveBalances" db !! employeeId) →
       (getLeaveBalance employeeId leaveType db).2 = db)
    ∧ (∀ other, other ≠ employeeId →
                table "LeaveBalances" (getLeaveBalance employeeId leaveType db).2
                !! other = table "LeaveBalances" db !! other)
    ∧ (∀ name, name ≠ "LeaveBalances"%string →
               table name (getLeaveBalance employeeId leaveType db).2
               = table name db)
    ∧ getLeaveBalance employeeId leaveType
                      (getLeaveBalance employeeId leaveType db).2
      = getLeaveBalance employeeId leaveType db.
Proof.
  eexists. split; [reflexivity|].
  unfold getLeaveBalance, tryCatch, bind, get, put, ret.
  destruct (table "LeaveBalances" db !! employeeId) as [item|] eqn:Hitem;
    cbn [default from_option fst snd].
  - rewrite Hitem. repeat split; try done.
  - rewrite table_insert_eq, lookup_insert_eq. cbn [fst snd].
    split; [reflexivity|]. split; [reflexivity|].
    split; [by intros [? ?]|]. split.
    + intros other Hother. by rewrite lookup_insert_ne.
    + split; [|reflexivity].
      intros name Hname. by apply table_insert_ne.
Qed.

(** X14.  [updateLeaveBalance] subtracts, and nothing more: on a balance
    item whose attribute for the leave type is the number [n] it writes
    [n - d] there (without a floor at zero) and touches nothing else; two
    updates by [d] and [d'] leave the store that one update by [d + d']
    leaves; without such an item or attribute the update is rejected and
    the store is as before. *)
Theorem updateLeaveBalance_subtracts (employeeId leaveType : string) (d : Z) db :
  (∀ balance n,
     table "LeaveBalances" db !! employeeId = Some balance →
     balance !! leaveType = Some (Js.Num n) →
     updateLeaveBalance (Js.Str employeeId) (Js.Str leaveType) (Js.Num d) db
     = (Returned tt,
        <["LeaveBalances"%string :=
            <[employeeId := <[leaveType := Js.Num (n - d)]> balance]>
              (table "LeaveBalances" db)]> db)
     ∧ ∀ d',
         updateLeaveBalance (Js.Str employeeId) (Js.Str leaveType) (Js.Num d')
           (updateLeaveBalance (Js.Str employeeId) (Js.Str leaveType)
                               (Js.Num d) db).2
         = updateLeaveBalance (Js.Str employeeId) (Js.Str leaveType)
                              (Js.Num (d + d')) db)
  ∧ ((table "LeaveBalances" db !! employeeId = None
      ∨ ∃ balance, table "LeaveBalances" db !! employeeId = Some balance
                   ∧ balance !! leaveType = None) →
     updateLeaveBalance (Js.Str employeeId) (Js.Str leaveType) (Js.Num d) db
     = (Thrown "ValidationException", db)).
Proof.
  unfold updateLeaveBalance, tryCatch, throw, updateSubtract. split.
  - intros balance n Hbalance Hn. rewrite Hbalance, Hn.
    split; [reflexivity|]. intros d'. cbn [snd].
    rewrite table_insert_eq, !lookup_insert_eq.
    rewrite !insert_insert_eq. do 4 f_equal. f_equal. lia.
  - intros [-> | (balance & -> & ->)]; reflexivity.
Qed.

Lemma setHours0_eq d : setHours0 d = msPerDay * (d / msPerDay).
Proof. unfold setHours0. rewrite Z.mod_eq by done. lia. Qed.

(** X15.  The day count is exact and may be zero: it is the number of
    midnights between the two dates, so for [start < end] it is never
    negative, it is zero exactly when both fall on the same day, and it
    differs from the elapsed time by less than a day; the router over
    [hris_leave] counts one day more. *)
Theorem day_count_bounds (startDate endDate : Z) :
  startDate < endDate →
  0 ≤ getDateDiffInDays startDate endDate
  ∧ getDateDiffInDays startDate endDate * msPerDay
    = setHours0 endDate - setHours0 startDate
  ∧ endDate - startDate - msPerDay
    < getDateDiffInDays startDate endDate * msPerDay
    < endDate - startDate + msPerDay
  ∧ (getDateDiffInDays startDate endDate = 0
     ↔ startDate / msPerDay = endDate / msPerDay)
  ∧ LeaveRoutesChain.getDateDiffInDays startDate endDate
    = getDateDiffInDays startDate endDate + 1.
Proof.
  intros Hlt.
  assert (Hdays : getDateDiffInDays startDate endDate
                  = endDate / msPerDay - startDate / msPerDay).
  { unfold getDateDiffInDays. rewrite !setHours0_eq.
    rewrite <- Z.mul_sub_distr_l, Z.mul_comm. by apply Z.div_mul. }
  assert (Hday : msPerDay = 86400000) by reflexivity.
  pose proof (Z.div_mod startDate msPerDay ltac:(done)) as Hs.
  pose proof (Z.div_mod endDate msPerDay ltac:(done)) as He.
  pose proof (Z.mod_pos_bound startDate msPerDay ltac:(done)) as Hsb.
  pose proof (Z.mod_pos_bound endDate msPerDay ltac:(done)) as Heb.
  split; [|split; [|split; [|split]]].
  - rewrite Hdays. apply Z.le_0_sub. apply Z.div_le_mono; lia.
  - rewrite Hdays, !setHours0_eq. lia.
  - rewrite Hdays. lia.
  - rewrite Hdays. lia.
  - unfold LeaveRoutesChain.getDateDiffInDays, getDateDiffInDays. reflexivity.
Qed.


Lemma getLeaveBalance_eq employeeId leaveType db :
  getLeaveBalance employeeId leaveType db
  = (Returned
       (let balance := default (defaultBalance employeeId)
                               (table "LeaveBalances" db !! employeeId) in
        match leaveType with
        | Some type => if Js.truthy (Js.Str type) then inl (Js.get balance type)
                       else inr balance
        | None => inr balance
        end),
     match table "LeaveBalances" db !! employeeId with
     | Some _ => db
     | None => <["LeaveBalances"%string :=
                  <[employeeId := defaultBalance employeeId]>
                    (table "LeaveBalances" db)]> db
     end).
Proof.
  unfold getLeaveBalance, tryCatch, bind, get, put, ret.
  by destruct (table "LeaveBalances" db !! employeeId).
Qed.

Lemma getLeaveBalance_frame employeeId leaveType db name :
  name ≠ "LeaveBalances"%string →
  table name (getLeaveBalance employeeId leaveType db).2 = table name db.
Proof.
  intros Hname. rewrite getLeaveBalance_eq. cbn [snd].
  destruct (table "LeaveBalances" db !! employeeId); [done|].
  by apply table_insert_ne.
Qed.

(** X16.  [POST /leave/request] files one pending request or none, for
    dates that the platform parses and while the store answers: every
    answer other than 201 leaves the requests table as it was; a 201
    adds exactly the item of the new id, which is pending, names the
    submitting employee, and records a day count that is not negative,
    for dates with [now < start < end].  No table other than the requests
    and the balances is written. *)
Theorem post_request_files_one_pending_request p body employeeId managerId db :
  ((post_request p body employeeId managerId db).1
   ≠ Returned (Json 201 "Leave request submitted successfully") →
   table "LeaveRequests" (post_request p body employeeId managerId db).2
   = table "LeaveRequests" db)
  ∧ ((post_request p body employeeId managerId db).1
     = Returned (Json 201 "Leave request submitted successfully") →
     ∃ item startDate endDate,
       table "LeaveRequests" (post_request p body employeeId managerId db).2
       = <[("leave_" ++ nowString p ++ "_" ++ employeeId)%string := item]>
           (table "LeaveRequests" db)
       ∧ item !! "status"%string = Some (Js.Str "pending")
       ∧ item !! "employeeId"%string = Some (Js.Str employeeId)
       ∧ item !! "leaveDays"%string
         = Some (Js.Num (getDateDiffInDays startDate endDate))
       ∧ startDate = parseDate p (default EmptyString (LeaveRoutes.startDate body))
       ∧ endDate = parseDate p (default EmptyString (LeaveRoutes.endDate body))
       ∧ now p < startDate < endDate
       ∧ 0 ≤ getDateDiffInDays startDate endDate)
  ∧ (∀ name, name ≠ "LeaveRequests"%string → name ≠ "LeaveBalances"%string →
             table name (post_request p body employeeId managerId db).2
             = table name db).
Proof.
  unfold post_request, tryCatch, bind, ret.
  destruct (negb _ || negb _ || negb _ || negb _); [by repeat split|].
  destruct (Z.leb_spec (parseDate p (default EmptyString (startDate body))) (now p))
    as [|Hstart]; [by repeat split|].
  destruct (Z.leb_spec (parseDate p (default EmptyString (endDate body)))
                       (parseDate p (default EmptyString (startDate body))))
    as [|Hend]; [by repeat split|].
  pose proof (getLeaveBalance_frame employeeId (leaveType body) db) as Hframe.
  destruct (getLeaveBalance employeeId (leaveType body) db)
    as [[leaveBalance|error] db1]; cbn [snd] in Hframe.
  2:{ cbn [fst snd]. split; [intros _; by apply Hframe|].
      split; [done|]. intros name ? ?. by apply Hframe. }
  destruct (balanceBelow leaveBalance _).
  { cbn [fst snd]. split; [intros _; by apply Hframe|].
    split; [done|]. intros name ? ?. by apply Hframe. }
  unfold put. cbn [fst snd].
  split; [done|]. split.
  - intros _. eexists. eexists. eexists.
    split; [rewrite table_insert_eq, Hframe by done; reflexivity|].
    split; [reflexivity|]. split; [reflexivity|]. split; [reflexivity|].
    split; [reflexivity|]. split; [reflexivity|]. split; [lia|].
    unfold getDateDiffInDays. rewrite !setHours0_eq.
    rewrite <- Z.mul_sub_distr_l, Z.mul_comm, Z.div_mul by done.
    apply Z.le_0_sub. apply Z.div_le_mono; [done|lia].
  - intros name Hrequests Hbalances.
    rewrite table_insert_ne by done. by apply Hframe.
Qed.

(** X17.  The balance check on a numeric and on a missing balance: once
    the fields are present and [now < start < end], a request whose leave
    type the employee's balance item (the default balance, if the
    employee has no item) carries as the number [n] is refused for
    insufficient balance when [n] is below the day count and accepted
    otherwise; a request whose leave type the balance item does not
    carry is accepted. *)
Theorem balance_check_compares_numbers p body employeeId managerId db
    (type : string) :
  Js.truthy (Js.ofString (startDate body)) = true →
  Js.truthy (Js.ofString (endDate body)) = true →
  leaveType body = Some type → type ≠ EmptyString →
  Js.truthy (Js.ofString (reason body)) = true →
  now p < parseDate p (default EmptyString (startDate body)) →
  parseDate p (default EmptyString (startDate body))
  < parseDate p (default EmptyString (endDate body)) →
  (∀ n, default (defaultBalance employeeId)
                (table "LeaveBalances" db !! employeeId) !! type
        = Some (Js.Num n) →
        (post_request p body employeeId managerId db).1
        = Returned
            (if n <? getDateDiffInDays
                       (parseDate p (default EmptyString (startDate body)))
                       (parseDate p (default EmptyString (endDate body)))
             then Json 400 "Insufficient leave balance."
             else Json 201 "Leave request submitted successfully"))
  ∧ (default (defaultBalance employeeId)
             (table "LeaveBalances" db !! employeeId) !! type = None →
     (post_request p body employeeId managerId db).1
     = Returned (Json 201 "Leave request submitted successfully")).
Proof.
  intros Hs He Htype Hne Hr Hstart Hend.
  assert (Htruthy : Js.truthy (Js.Str type) = true).
  { cbn. by rewrite (bool_decide_eq_false_2 _ Hne). }
  unfold post_request, tryCatch, bind, ret.
  rewrite Hs, He, Hr, Htype. cbn [Js.ofString]. rewrite Htruthy. cbn [negb orb].
  destruct (Z.leb_spec (parseDate p (default EmptyString (startDate body))) (now p));
    [lia|].
  destruct (Z.leb_spec (parseDate p (default EmptyString (endDate body)))
                       (parseDate p (default EmptyString (startDate body))));
    [lia|].
  rewrite getLeaveBalance_eq. cbv zeta. rewrite Htruthy.
  unfold balanceBelow, Js.get. split.
  - intros n ->. cbn [default from_option id Js.lt].
    destruct (n <? _); reflexivity.
  - intros ->. by destruct (Js.inherited type).
Qed.


Lemma strict_eq_Str (v : Js.value) (s : string) :
  Js.strict_eq v (Js.Str s) = true ↔ v = Js.Str s.
Proof.
  destruct v; cbn; try (split; [discriminate|discriminate]).
  rewrite bool_decide_eq_true. split; [by intros ->|by intros [= ->]].
Qed.

Lemma get_Str (item : gmap string Js.value) (k s : string) :
  Js.get item k = Js.Str s ↔ item !! k = Some (Js.Str s).
Proof.
  unfold Js.get. destruct (item !! k) as [v|].
  - split; [by intros ->|by intros [= ->]].
  - destruct (Js.inherited k); split; discriminate.
Qed.

(** X18.  [PUT /leave/:id/approve] writes at most the addressed request,
    and only as the recorded manager: the store after the call is the
    store before, unless the request exists, is pending, the new status
    is ['approved'] or ['rejected'], and the request records no manager
    or records the caller; then the one change is that this request
    carries the new status, the caller, the time and the comments.  The
    balances, the other requests and the other tables are never
    written. *)
Theorem put_approve_writes_as_recorded_manager p id body managerId db :
  (put_approve p id body managerId db).2 = db
  ∨ ∃ leaveRequest,
      table "LeaveRequests" db !! id = Some leaveRequest
      ∧ leaveRequest !! "status"%string = Some (Js.Str "pending")
      ∧ status body ∈ [Some "approved"; Some "rejected"]%string
      ∧ (Js.truthy (Js.get leaveRequest "managerId") = false
         ∨ leaveRequest !! "managerId"%string = Some (Js.Str managerId))
      ∧ (put_approve p id body managerId db).2
        = <["LeaveRequests"%string :=
              <[id := <["comments"%string :=
                          Js.or (Js.ofString (comments body)) (Js.Str EmptyString)]>
                        (<["approvedAt"%string := Js.Str (toISOString p (now p))]>
                           (<["approvedBy"%string := Js.Str managerId]>
                              (<["status"%string := Js.ofString (status body)]>
                                 leaveRequest)))]>
                (table "LeaveRequests" db)]> db.
Proof.
  unfold put_approve, tryCatch, bind, get, ret.
  destruct (negb (Js.truthy (Js.ofString (status body)))
            || negb (bool_decide (status body ∈ [Some "approved"; Some "rejected"]%string)))
    eqn:Hvalid; [by left|].
  apply orb_false_iff in Hvalid as [_ Hvalid].
  apply negb_false_iff, bool_decide_eq_true in Hvalid.
  destruct (table "LeaveRequests" db !! id) as [leaveRequest|] eqn:Hitem;
    [|by left].
  destruct (Js.truthy (Js.get leaveRequest "managerId")
            && negb (Js.strict_eq (Js.get leaveRequest "managerId")
                                  (Js.Str managerId)))
    eqn:Hmanager; [by left|].
  destruct (Js.strict_eq (Js.get leaveRequest "status") (Js.Str "pending"))
    eqn:Hpending; [|by left].
  right. exists leaveRequest. split; [reflexivity|].
  apply strict_eq_Str, get_Str in Hpending. split; [exact Hpending|].
  split; [exact Hvalid|]. split.
  - apply andb_false_iff in Hmanager as [?|Hmanager]; [by left|right].
    by apply negb_false_iff, strict_eq_Str, get_Str in Hmanager.
  - cbn [negb]. unfold updateSet. rewrite Hitem.
    cbn [default from_option foldl fst snd].
    destruct (Js.strict_eq (Js.ofString (status body)) (Js.Str "approved")).
    + rewrite employeeId_unbound. reflexivity.
    + reflexivity.
Qed.

End LeaveRouter.

(** ** History and attendance *)

Section LeaveRecordsProperties.
Import Dynamo LeaveRoutes LeaveRecords.

Implicit Types (p : Platform) (db : gmap string (gmap string (gmap string Js.value))).


Lemma queryIndex_eq TableName keys db :
  queryIndex TableName keys db
  = (Returned
       (List.filter
          (λ item, forallb (λ kv, Js.strict_eq (Js.get item kv.1) kv.2) keys)
          (map_to_list (table TableName db)).*2),
     db).
Proof. reflexivity. Qed.

Lemma filter_values_elem (tbl : gmap string (gmap string Js.value))
    (test : gmap string Js.value → bool) (item : gmap string Js.value) :
  item ∈ List.filter test (map_to_list tbl).*2
  ↔ ∃ id, tbl !! id = Some item ∧ test item = true.
Proof.
  rewrite list_elem_of_In, filter_In, <- list_elem_of_In, list_elem_of_fmap.
  split.
  - intros [([id item'] & -> & Hin) Htest]. exists id.
    by apply elem_of_map_to_list in Hin.
  - intros (id & Hin & Htest). split; [|done]. exists (id, item).
    split; [done|]. by apply elem_of_map_to_list.
Qed.

(** X19.  The leave history is served to the owner and to the role
    ['admin'] only; anyone else gets 403 and nothing is read or written.
    When it is served, the data holds exactly the requests whose
    [employeeId] is the one asked for, and the balance item of that
    employee, which this read creates with the default balance when there
    was none; the requests table is not written. *)
Theorem history_is_served_to_owner_and_admin
    (empId requestingUserId : string) (role : Js.value) db :
  (role ≠ Js.Str "admin" → requestingUserId ≠ empId →
   get_history empId requestingUserId role db
   = (Returned (Json 403 "Access denied", None), db))
  ∧ (role = Js.Str "admin" ∨ requestingUserId = empId →
     ∃ requests balance,
       (get_history empId requestingUserId role db).1
       = Returned (Json 200 EmptyString, Some (requests, inr balance))
       ∧ (∀ item, item ∈ requests
                  ↔ ∃ id, table "LeaveRequests" db !! id = Some item
                          ∧ item !! "employeeId"%string = Some (Js.Str empId))
       ∧ balance = default (defaultBalance empId)
                           (table "LeaveBalances" db !! empId)
       ∧ table "LeaveBalances" (get_history empId requestingUserId role db).2
         !! empId = Some balance
       ∧ table "LeaveRequests" (get_history empId requestingUserId role db).2
         = table "LeaveRequests" db).
Proof.
  unfold get_history, tryCatch, bind, ret. split.
  - intros Hrole Hother.
    assert (Hr : Js.strict_eq role (Js.Str "admin") = false).
    { apply not_true_iff_false. by rewrite strict_eq_Str. }
    assert (Ho : Js.strict_eq (Js.Str requestingUserId) (Js.Str empId) = false).
    { apply not_true_iff_false. rewrite strict_eq_Str. by intros [= ->]. }
    by rewrite Hr, Ho.
  - intros Hallowed.
    assert (Hgate : negb (Js.strict_eq role (Js.Str "admin"))
                    && negb (Js.strict_eq (Js.Str requestingUserId) (Js.Str empId))
                    = false).
    { apply andb_false_iff. destruct Hallowed as [-> | ->]; [by left|right].
      apply negb_false_iff. by apply strict_eq_Str. }
    rewrite Hgate, queryIndex_eq, getLeaveBalance_eq. cbn [fst snd].
    eexists. eexists. split; [reflexivity|]. split; [|split; [reflexivity|split]].
    + intros item. rewrite filter_values_elem. cbn [forallb fst snd].
      setoid_rewrite andb_true_r. setoid_rewrite strict_eq_Str.
      by setoid_rewrite get_Str.
    + destruct (table "LeaveBalances" db !! empId) as [balance|] eqn:Hbalance.
      * by rewrite Hbalance.
      * rewrite table_insert_eq. apply lookup_insert_eq.
    + destruct (table "LeaveBalances" db !! empId); [done|].
      by apply table_insert_ne.
Qed.


Lemma someOfType_true (tbl : gmap string (gmap string Js.value)) (e d t : string) :
  someOfType
    (List.filter
       (λ item, forallb (λ kv, Js.strict_eq (Js.get item kv.1) kv.2)
                        [("employeeId"%string, Js.Str e); ("date"%string, Js.Str d)])
       (map_to_list tbl).*2) t = true
  ↔ ∃ id log, tbl !! id = Some log ∧ isLog e d t log.
Proof.
  unfold someOfType, isLog. rewrite existsb_exists. split.
  - intros (log & Hin & Htype).
    apply list_elem_of_In, filter_values_elem in Hin as (id & Hlog & Htest).
    cbn [forallb fst snd] in Htest.
    apply andb_true_iff in Htest as [He Hd].
    apply andb_true_iff in Hd as [Hd _].
    exists id, log. split; [done|].
    by rewrite <- !get_Str, <- !strict_eq_Str.
  - intros (id & log & Hlog & He & Hd & Ht).
    exists log. split.
    + apply list_elem_of_In, filter_values_elem. exists id. split; [done|].
      cbn [forallb fst snd]. apply get_Str, strict_eq_Str in He, Hd.
      by rewrite He, Hd.
    + by apply strict_eq_Str, get_Str.
Qed.

Lemma orderly_insert (tbl : gmap string (gmap string Js.value))
    (id e d t : string) (log : gmap string Js.value) :
  tbl !! id = None →
  orderlyDays tbl →
  isLog e d t log →
  (∀ e' d' t', isLog e' d' t' log → e' = e ∧ d' = d ∧ t' = t) →
  (¬ ∃ id' log', tbl !! id' = Some log' ∧ isLog e d t log') →
  (t = "out"%string → ∃ id' log', tbl !! id' = Some log' ∧ isLog e d "in" log') →
  orderlyDays (<[id := log]> tbl).
Proof.
  intros Hfresh [Honce Hpaired] Hlog Honly Hnone Hin. split.
  - intros e' d' t' id1 id2 log1 log2 H1 H2 Hl1 Hl2.
    destruct (decide (id1 = id)) as [->|Hne1];
      destruct (decide (id2 = id)) as [->|Hne2]; [done|..].
    + rewrite lookup_insert_eq in H1. injection H1 as <-.
      rewrite lookup_insert_ne in H2 by done.
      destruct (Honly _ _ _ Hl1) as (-> & -> & ->).
      exfalso. apply Hnone. by exists id2, log2.
    + rewrite lookup_insert_eq in H2. injection H2 as <-.
      rewrite lookup_insert_ne in H1 by done.
      destruct (Honly _ _ _ Hl2) as (-> & -> & ->).
      exfalso. apply Hnone. by exists id1, log1.
    + rewrite lookup_insert_ne in H1, H2 by done. by eapply Honce.
  - intros e' d' id1 log1 H1 Hout.
    assert (Hkept : ∀ id' log', tbl !! id' = Some log' →
                                <[id := log]> tbl !! id' = Some log').
    { intros id' log' Hold. rewrite lookup_insert_ne; [done|].
      intros <-. congruence. }
    destruct (decide (id1 = id)) as [->|Hne1].
    + rewrite lookup_insert_eq in H1. injection H1 as <-.
      destruct (Honly _ _ _ Hout) as (-> & -> & Ht).
      destruct (Hin (eq_sym Ht)) as (id' & log' & Hold & Hl).
      exists id', log'. split; [by apply Hkept|done].
    + rewrite lookup_insert_ne in H1 by done.
      destruct (Hpaired _ _ _ _ H1 Hout) as (id' & log' & Hold & Hl).
      exists id', log'. split; [by apply Hkept|done].
Qed.

(** X20.  Attendance days stay orderly.  If every employee's day holds at
    most one log of a type, and a punch out only beside a punch in, and
    the id of the new log is not taken, then the same holds after
    [POST /attendance/log]; the call either leaves the store as it is or
    adds the one log of the caller, for today, of the type asked. *)
Theorem attendance_keeps_days_orderly p body employeeId db :
  table "AttendanceLogs" db
  !! ("attendance_" ++ nowString p ++ "_" ++ employeeId)%string = None →
  orderlyDays (table "AttendanceLogs" db) →
  orderlyDays (table "AttendanceLogs" (post_attendance p body employeeId db).2)
  ∧ ((post_attendance p body employeeId db).2 = db
     ∨ ∃ t log,
         type body = Some t
         ∧ (post_attendance p body employeeId db).1
           = Returned (Json 201 ("Attendance punched " ++ t))
         ∧ isLog employeeId (beforeT (toISOString p (now p))) t log
         ∧ (post_attendance p body employeeId db).2
           = <["AttendanceLogs"%string :=
                 <[("attendance_" ++ nowString p ++ "_" ++ employeeId)%string := log]>
                   (table "AttendanceLogs" db)]> db).
Proof.
  intros Hfresh Horderly.
  unfold post_attendance, tryCatch, bind, ret.
  destruct (negb (Js.truthy (Js.ofString (type body)))
            || negb (bool_decide (type body ∈ [Some "in"; Some "out"]%string)))
    eqn:Hvalid; [by split; [|left]|].
  apply orb_false_iff in Hvalid as [_ Hvalid].
  apply negb_false_iff, bool_decide_eq_true in Hvalid.
  rewrite queryIndex_eq.
  set (today := beforeT (toISOString p (now p))).
  set (todayLogs := List.filter _ _).
  pose proof (someOfType_true (table "AttendanceLogs" db) employeeId today "in")
    as Hin.
  pose proof (someOfType_true (table "AttendanceLogs" db) employeeId today "out")
    as Hout.
  fold todayLogs in Hin, Hout.
  assert (Htype : type body = Some "in"%string ∨ type body = Some "out"%string).
  { apply elem_of_cons in Hvalid as [?|Hvalid]; [by left|right].
    by apply list_elem_of_singleton in Hvalid. }
  destruct Htype as [Htype|Htype]; rewrite Htype;
    cbn [Js.ofString Js.strict_eq];
    [rewrite (bool_decide_eq_true_2 ("in" = "in")%string eq_refl)
    |rewrite (bool_decide_eq_false_2 ("out" = "in")%string) by discriminate].
  - destruct (someOfType todayLogs "in") eqn:Hsome; cbn [negb];
      [by split; [|left]|].
    unfold put. cbn [fst snd]. rewrite table_insert_eq. split.
    + apply (orderly_insert _ _ employeeId today "in"); try done.
      * intros e' d' t' (He & Hd & Ht). cbn in He, Hd, Ht.
        by injection He as <-; injection Hd as <-; injection Ht as <-.
      * intros Hex. apply Hin in Hex. congruence.
    + right. eexists. eexists. split; [reflexivity|]. split; [reflexivity|].
      split; [|reflexivity]. done.
  - destruct (someOfType todayLogs "in") eqn:Hsome; cbn [negb];
      [|by split; [|left]].
    destruct (someOfType todayLogs "out") eqn:Hsome'; [by split; [|left]|].
    unfold put. cbn [fst snd]. rewrite table_insert_eq. split.
    + apply (orderly_insert _ _ employeeId today "out"); try done.
      * intros e' d' t' (He & Hd & Ht). cbn in He, Hd, Ht.
        by injection He as <-; injection Hd as <-; injection Ht as <-.
      * intros Hex. apply Hout in Hex. congruence.
      * intros _. by apply Hin.
    + right. eexists. eexists. split; [reflexivity|]. split; [reflexivity|].
      split; [|reflexivity]. done.
Qed.

End LeaveRecordsProperties.

(** ** The generic request routes *)

Section RequestRecordsProperties.
Import Dynamo RequestRoutes RequestRecords.

Implicit Types (p : Platform) (db : list (gmap string Js.value)).

Lemma attribute_lookup_ne (k k' : string) (v : Js.value)
    (item : gmap string Js.value) :
  k ≠ k' → LeaveRoutesChain.attribute k v item !! k' = item !! k'.
Proof.
  intros Hne. unfold LeaveRoutesChain.attribute.
  destruct v; try done; by rewrite lookup_insert_ne.
Qed.

Lemma strict_eq_Str_refl (s : string) : Js.strict_eq (Js.Str s) (Js.Str s) = true.
Proof. by apply strict_eq_Str. Qed.

Lemma newRequest_attributes p body employeeId employeeName employeeDepartment :
  newRequest p body employeeId employeeName employeeDepartment !! "PK"%string
  = Some (Js.Str ("REQUEST#" ++ uuidv4 p 0%nat))
  ∧ newRequest p body employeeId employeeName employeeDepartment !! "SK"%string
    = Some (Js.Str ("EMPLOYEE#" ++ employeeId))
  ∧ newRequest p body employeeId employeeName employeeDepartment !! "GSI1PK"%string
    = Some (Js.Str ("EMPLOYEE#" ++ employeeId))
  ∧ newRequest p body employeeId employeeName employeeDepartment !! "status"%string
    = Some (Js.Str "pending").
Proof.
  unfold newRequest. rewrite !attribute_lookup_ne by done.
  repeat split; reflexivity.
Qed.

Lemma hasKey_true (pk sk : string) (item : gmap string Js.value) :
  hasKey (Js.Str pk) (Js.Str sk) item = true
  ↔ item !! "PK"%string = Some (Js.Str pk) ∧ item !! "SK"%string = Some (Js.Str sk).
Proof.
  unfold hasKey. by rewrite andb_true_iff, !strict_eq_Str, !get_Str.
Qed.

Lemma putItem_elem (new : gmap string Js.value) db : new ∈ putItem new db.
Proof.
  induction db as [|item rest IH]; cbn; [by left|].
  destruct (hasKey _ _ item); [by left|by right].
Qed.

Lemma putItem_keeps (new item : gmap string Js.value) db :
  item ∈ db → hasKey (Js.get new "PK") (Js.get new "SK") item = false →
  item ∈ putItem new db.
Proof.
  intros Hin Hother. induction db as [|x rest IH];
    [by apply elem_of_nil in Hin|]. cbn.
  apply elem_of_cons in Hin as [<-|Hin].
  - rewrite Hother. by left.
  - destruct (hasKey _ _ x); right; [done|by apply IH].
Qed.

Lemma getItem_putItem (pk sk : string) (new : gmap string Js.value) db :
  new !! "PK"%string = Some (Js.Str pk) →
  new !! "SK"%string = Some (Js.Str sk) →
  getItem (Js.Str pk) (Js.Str sk) (putItem new db) = Some new.
Proof.
  intros Hpk Hsk.
  assert (Hnew : hasKey (Js.Str pk) (Js.Str sk) new = true)
    by (by apply hasKey_true).
  apply get_Str in Hpk, Hsk. unfold getItem.
  induction db as [|item rest IH]; cbn.
  - by rewrite Hnew.
  - rewrite Hpk, Hsk.
    destruct (hasKey (Js.Str pk) (Js.Str sk) item) eqn:Hitem; cbn.
    + by rewrite Hnew.
    + rewrite Hitem. exact IH.
Qed.

Lemma deleteItem_elem (pk sk : Js.value) (item : gmap string Js.value) db :
  item ∈ deleteItem pk sk db ↔ item ∈ db ∧ hasKey pk sk item = false.
Proof.
  unfold deleteItem.
  rewrite list_elem_of_In, filter_In, <- list_elem_of_In.
  by rewrite negb_true_iff.
Qed.

(** X21.  File, list, cancel: a request of a valid type is created
    pending; [GET /requests] of the same employee then lists it;
    [DELETE /requests/:id] by that employee then answers 200, after which
    no item of that key is left while every other item of the table is
    still there. *)
Theorem request_round_trip p body employeeId employeeName employeeDepartment db :
  type body ∈ validTypes →
  let request := newRequest p body employeeId employeeName employeeDepartment in
  let filed := (post p body employeeId employeeName employeeDepartment db).2 in
  let cancelled := (delete_id (uuidv4 p 0%nat) employeeId filed).2 in
  (post p body employeeId employeeName employeeDepartment db).1
  = Returned (Json 201 "Request created successfully")
  ∧ request !! "status"%string = Some (Js.Str "pending")
  ∧ (∃ listed, (get_all employeeId filed).1
               = Returned (Json 200 "Requests retrieved successfully", listed)
               ∧ request ∈ listed)
  ∧ (delete_id (uuidv4 p 0%nat) employeeId filed).1
    = Returned (Json 200 "Request cancelled successfully")
  ∧ (∀ item, item ∈ cancelled →
             ¬ (item !! "PK"%string = Some (Js.Str ("REQUEST#" ++ uuidv4 p 0%nat))
                ∧ item !! "SK"%string = Some (Js.Str ("EMPLOYEE#" ++ employeeId))))
  ∧ (∀ item, item ∈ db →
             ¬ (item !! "PK"%string = Some (Js.Str ("REQUEST#" ++ uuidv4 p 0%nat))
                ∧ item !! "SK"%string = Some (Js.Str ("EMPLOYEE#" ++ employeeId))) →
             item ∈ cancelled).
Proof.
  intros Hvalid request filed cancelled.
  destruct (newRequest_attributes p body employeeId employeeName employeeDepartment)
    as (Hpk & Hsk & Hgsi & Hstatus).
  fold request in Hpk, Hsk, Hgsi, Hstatus.
  assert (Hfiled : filed = putItem request db).
  { subst filed. unfold post, tryCatch, bind, ret.
    by rewrite (bool_decide_eq_true_2 _ Hvalid). }
  assert (Hdelete : delete_id (uuidv4 p 0%nat) employeeId filed
                    = (Returned (Json 200 "Request cancelled successfully"),
                       deleteItem (Js.Str ("REQUEST#" ++ uuidv4 p 0%nat))
                                  (Js.Str ("EMPLOYEE#" ++ employeeId)) filed)).
  { unfold delete_id, tryCatch. rewrite Hfiled.
    rewrite (getItem_putItem _ _ request db Hpk Hsk).
    apply get_Str in Hstatus. rewrite Hstatus.
    by rewrite strict_eq_Str_refl. }
  split.
  { unfold post, tryCatch, bind, ret.
    by rewrite (bool_decide_eq_true_2 _ Hvalid). }
  split; [exact Hstatus|]. split.
  { eexists. split; [reflexivity|].
    rewrite Hfiled. apply list_elem_of_In, filter_In. split.
    - apply list_elem_of_In, putItem_elem.
    - by apply strict_eq_Str, get_Str. }
  split; [by rewrite Hdelete|].
  subst cancelled. rewrite Hdelete. cbn [snd]. split.
  - intros item Hin Hkey.
    apply deleteItem_elem in Hin as [_ Hnot].
    apply hasKey_true in Hkey. congruence.
  - intros item Hin Hkey. apply deleteItem_elem.
    assert (Hnot : hasKey (Js.Str ("REQUEST#" ++ uuidv4 p 0%nat))
                          (Js.Str ("EMPLOYEE#" ++ employeeId)) item = false).
    { apply not_true_iff_false. by rewrite hasKey_true. }
    split; [|exact Hnot].
    rewrite Hfiled. apply putItem_keeps; [done|].
    apply get_Str in Hpk, Hsk. by rewrite Hpk, Hsk.
Qed.

(** X22.  Only the owner cancels, and only while pending:
    [DELETE /requests/:id] leaves the table as it is unless it holds an
    item under the caller's own key for that id whose status is
    ['pending']; then exactly the items of that key go.  An item filed
    under another employee's key is never removed. *)
Theorem cancel_only_own_pending (requestId employeeId : string) db :
  ((delete_id requestId employeeId db).2 = db
   ∨ ∃ item,
       getItem (Js.Str ("REQUEST#" ++ requestId))
               (Js.Str ("EMPLOYEE#" ++ employeeId)) db = Some item
       ∧ item !! "status"%string = Some (Js.Str "pending")
       ∧ delete_id requestId employeeId db
         = (Returned (Json 200 "Request cancelled successfully"),
            deleteItem (Js.Str ("REQUEST#" ++ requestId))
                       (Js.Str ("EMPLOYEE#" ++ employeeId)) db))
  ∧ (∀ item other,
       item ∈ db →
       item !! "SK"%string = Some (Js.Str ("EMPLOYEE#" ++ other)) →
       other ≠ employeeId →
       item ∈ (delete_id requestId employeeId db).2).
Proof.
  unfold delete_id, tryCatch.
  destruct (getItem _ _ db) as [item|] eqn:Hget; [|by split; [left|]].
  destruct (Js.strict_eq (Js.get item "status") (Js.Str "pending")) eqn:Hstatus;
    cbn [negb]; [|by split; [left|]].
  split.
  - right. exists item. split; [reflexivity|].
    by apply strict_eq_Str, get_Str in Hstatus.
  - intros x other Hin Hsk Hother. cbn [snd]. apply deleteItem_elem.
    split; [done|]. apply not_true_iff_false. rewrite hasKey_true.
    intros [_ Hsk']. rewrite Hsk in Hsk'. injection Hsk' as Heq.
    exact (Hother Heq).
Qed.

(** X23.  As the module is written, [PUT /requests/:id] decides nothing:
    for every request, body and actor the table after the call is the
    table before it, and whenever the status is one of the three accepted
    ones and a request of that id exists the answer is 500. *)
Theorem put_id_never_writes p requestId body user userName db :
  (put_id p requestId body user userName db).2 = db
  ∧ (status body ∈ [Some "approved"; Some "rejected"; Some "pending"]%string →
     (∃ item, item ∈ db
              ∧ item !! "PK"%string = Some (Js.Str ("REQUEST#" ++ requestId))) →
     (put_id p requestId body user userName db).1
     = Returned internalServerError).
Proof.
  unfold put_id, put_id_with, checkApprovalAuthority, tryCatch, bind, ret, call,
    throw, query.
  split.
  - destruct (negb (bool_decide _)); [done|]. cbv beta.
    by destruct (List.filter _ db).
  - intros Hvalid (item & Hin & Hpk).
    rewrite (bool_decide_eq_true_2 _ Hvalid). cbn [negb]. cbv beta.
    destruct (List.filter _ db) as [|request rest] eqn:Hfound; [|done].
    exfalso.
    assert (Hitem : item ∈ List.filter
                      (λ item, Js.strict_eq (Js.get item "PK")
                                            (Js.Str ("REQUEST#" ++ requestId))) db).
    { apply list_elem_of_In, filter_In. split; [by apply list_elem_of_In|].
      by apply strict_eq_Str, get_Str. }
    rewrite Hfound in Hitem. by apply elem_of_nil in Hitem.
Qed.

End RequestRecordsProperties.

(** ** The leave router over [hris_leave] *)

Section ChainRouter.
Import Dynamo LeaveRoutesChain.

Implicit Types (p : Platform) (db : gmap string (gmap string (gmap string Js.value))).

(** X24.  A submission without a users record is refused after the
    balance was read: once the fields are present, [now < start < end]
    and the default balance suffices, a caller who has neither a balance
    item nor a record in the users table gets 404, and the store then
    holds a default balance item for that caller and is otherwise as
    before. *)
Theorem unknown_user_leaves_a_balance p body userId (type : string) db :
  Js.truthy (Js.ofString (LeaveRoutes.startDate body)) = true →
  Js.truthy (Js.ofString (LeaveRoutes.endDate body)) = true →
  LeaveRoutes.leaveType body = Some type → type ≠ EmptyString →
  Js.truthy (Js.ofString (LeaveRoutes.reason body)) = true →
  now p < parseDate p (default EmptyString (LeaveRoutes.startDate body)) →
  parseDate p (default EmptyString (LeaveRoutes.startDate body))
  < parseDate p (default EmptyString (LeaveRoutes.endDate body)) →
  Js.lt (Js.get (defaultBalance p userId) type)
        (Js.Num (getDateDiffInDays
                   (parseDate p (default EmptyString (LeaveRoutes.startDate body)))
                   (parseDate p (default EmptyString (LeaveRoutes.endDate body)))))
  = false →
  table LEAVE_TABLE db !! ("balance_" ++ userId)%string = None →
  table USERS_TABLE db !! userId = None →
  post_request p body userId db
  = (Returned (Json 404 "User not found"),
     <[LEAVE_TABLE := <[("balance_" ++ userId)%string := defaultBalance p userId]>
                        (table LEAVE_TABLE db)]> db).
Proof.
  intros Hs He Htype Hne Hr Hstart Hend Hbalance Hnone Huser.
  assert (Htruthy : Js.truthy (Js.Str type) = true).
  { cbn. by rewrite (bool_decide_eq_false_2 _ Hne). }
  unfold post_request, tryCatch, bind, ret.
  rewrite Hs, He, Hr, Htype. cbn [Js.ofString]. rewrite Htruthy. cbn [negb orb].
  destruct (Z.leb_spec (parseDate p (default EmptyString (LeaveRoutes.startDate body)))
                       (now p)); [lia|].
  destruct (Z.leb_spec (parseDate p (default EmptyString (LeaveRoutes.endDate body)))
                       (parseDate p (default EmptyString (LeaveRoutes.startDate body))));
    [lia|].
  unfold getLeaveBalance, tryCatch, bind, get, put, ret. rewrite Hnone, Htruthy.
  unfold LeaveRoutes.balanceBelow. rewrite Hbalance.
  rewrite table_insert_ne by done. by rewrite Huser.
Qed.

End ChainRouter.

(** ** Worked instances *)

Section Instances.
Import AuthorizeFeature CheckApprovalAuthority Dynamo.

(** The clerk's explicit grant of [system.settings] (level 5) passes at
    access level 1, during an outage of the policy store. *)
Lemma explicit_override_allows_witness :
  User.accessLevel Sample.clerk = Some 1
  ∧ requiredLevelSpec Cache.initial "system.settings" = 5
  ∧ (canPerform Sample.outage Cache.initial "system.settings"
                (Some Sample.clerk)).1 = true
  ∧ (authorizeFeature "system.settings" Sample.outage Cache.initial
                      (Some Sample.clerk)).1 = Next.
Proof.
  destruct (explicit_override_allows Sample.outage Cache.initial
              "system.settings" Sample.clerk
              {[ "system.settings"%string := Js.Bool true ]} (Js.Bool true)
              eq_refl eq_refl eq_refl) as [Hcan Hnext].
  split; [reflexivity|]. split; [vm_compute; reflexivity|].
  split; [exact Hcan|exact (Hnext eq_refl)].
Defined.

(** The intern (level 1) holds the [auditor] role, which lists
    [system.logs] (level 5); the order of the two role ids is
    irrelevant; the wildcard role stops the loop. *)
Lemma role_grant_allows_witness :
  (canPerform Sample.healthy Cache.initial "system.logs"
              (Some Sample.intern)).1 = true
  ∧ canPerform Sample.healthy Cache.initial "system.logs"
               (Some (withRoles Sample.intern ["auditor"; "unknown"]%string))
    = canPerform Sample.healthy Cache.initial "system.logs" (Some Sample.intern)
  ∧ rolesLoop (refreshIfNeeded Sample.healthy Cache.initial) "system.logs"
              (["unknown"%string] ++ "super"%string :: ["auditor"; "other"]%string)
    = true.
Proof.
  destruct (role_grant_allows Sample.healthy Cache.initial "system.logs")
    as (Hgrant & Hperm & Hshort).
  split; [|split].
  - apply (Hgrant Sample.intern ["unknown"; "auditor"]%string "auditor"%string
                  Sample.auditor ["system.logs"%string]).
    + vm_compute; reflexivity.
    + reflexivity.
    + right; left.
    + vm_compute; reflexivity.
    + reflexivity.
    + left; left.
  - apply (Hperm Sample.intern ["unknown"; "auditor"]%string).
    + reflexivity.
    + apply perm_swap.
  - apply (Hshort (refreshIfNeeded Sample.healthy Cache.initial)
                  ["unknown"%string] "super"%string
                  ["auditor"; "other"]%string []).
    vm_compute; reflexivity.
Defined.

Lemma healthy_levels_valid :
  validLevels (refreshIfNeeded Sample.healthy Cache.initial).
Proof. apply (bool_decide_unpack _). vm_compute. exact I. Defined.



(** The approval table of the specification, read off the resolver. *)
Lemma canApprove_policy_witness :
  canApprove "expense-high" 4 false = false
  ∧ canApprove "leave" 4 false = true
  ∧ canApprove "salary-change" 3 true = false
  ∧ canApprove "travel" 3 true = true
  ∧ canApprove "sabbatical" 3 true = false
  ∧ canApprove "leave" 3 false = false
  ∧ canApprove "expense-high" 5 false = true
  ∧ canApprove "leave" 2 true = false.
Proof.
  pose proof (canApprove_policy "expense-high" 4 false) as (_ & Hhigh & _).
  pose proof (canApprove_policy "leave" 4 false) as (_ & Hleave & _).
  pose proof (canApprove_policy "salary-change" 3 true) as (_ & _ & Hsalary & _).
  pose proof (canApprove_policy "travel" 3 true) as (_ & _ & Htravel & _).
  pose proof (canApprove_policy "sabbatical" 3 true) as (_ & _ & Hother & _).
  pose proof (canApprove_policy "leave" 3 false) as (_ & _ & _ & Hdept & _).
  pose proof (canApprove_policy "expense-high" 5 false) as (Hadmin & _).
  pose proof (canApprove_policy "leave" 2 true) as (_ & _ & _ & _ & Hlow).
  split; [exact (proj1 (Hhigh eq_refl) eq_refl)|].
  split; [apply (proj2 (Hleave eq_refl)); discriminate|].
  split; [apply (proj1 (proj2 (Hsalary eq_refl eq_refl))); vm_compute;
          do 3 right; left|].
  split; [apply (proj1 (Htravel eq_refl eq_refl)); do 5 right; left|].
  split; [apply (proj2 (proj2 (Hother eq_refl eq_refl)));
          apply (bool_decide_unpack _); vm_compute; exact I|].
  split; [exact (Hdept eq_refl eq_refl)|].
  split; [apply Hadmin; lia|].
  apply Hlow; lia.
Defined.

(** The department-only table: the sales manager (level 3) may approve
    for sales and not for finance; HR (level 4) may approve for any
    department. *)
Lemma checkAuthority_policy_witness :
  checkAuthority (Some Sample.manager) (Some "sales"%string) = true
  ∧ checkAuthority (Some Sample.manager) (Some "finance"%string) ≠ true
  ∧ checkAuthority (Some Sample.hr) (Some "finance"%string) = true
  ∧ checkAuthority (Some Sample.admin) (Some "finance"%string) = true
  ∧ checkAuthority (Some Sample.clerk) (Some "sales"%string) = false.
Proof.
  pose proof (checkAuthority_policy Sample.manager 3 (Some "sales"%string)
                eq_refl eq_refl) as (_ & _ & Hsame & _).
  pose proof (checkAuthority_policy Sample.manager 3 (Some "finance"%string)
                eq_refl eq_refl) as (_ & _ & Hother & _).
  pose proof (checkAuthority_policy Sample.hr 4 (Some "finance"%string)
                eq_refl eq_refl) as (_ & Hhr & _).
  pose proof (checkAuthority_policy Sample.admin 5 (Some "finance"%string)
                eq_refl eq_refl) as (Hadmin & _).
  pose proof (checkAuthority_policy Sample.clerk 1 (Some "sales"%string)
                eq_refl eq_refl) as (_ & _ & _ & Hlow).
  split; [apply (Hsame eq_refl); reflexivity|].
  split; [intros Htrue; apply (Hother eq_refl) in Htrue; discriminate Htrue|].
  split; [exact (Hhr eq_refl)|].
  split; [apply Hadmin; lia|].
  apply Hlow; lia.
Defined.





(** The stored record of [routes/leave.js] for employee [e1], whose
    manager [m1] has the manager [m2]: it carries no approval chain. *)
Lemma leave_js_records_no_chain :
  chainSpec Sample.users (default ∅ (Sample.users !! "e1"%string))
  = [Js.Str "m1"; Js.Str "m2"]
  ∧ (LeaveRoutes.post_request Sample.platform Sample.leaveBody "e1"
       (Some "m1"%string) Sample.store).1
    = Returned (Json 201 "Leave request submitted successfully")
  ∧ table "LeaveRequests"
          (LeaveRoutes.post_request Sample.platform Sample.leaveBody "e1"
             (Some "m1"%string) Sample.store).2
    !! "leave_1893456000000_e1"%string = Some Sample.storedLeave
  ∧ ¬ carriesChain Sample.storedLeave [Js.Str "m1"; Js.Str "m2"].
Proof.
  split; [vm_compute; reflexivity|]. split; [vm_compute; reflexivity|].
  split; [vm_compute; reflexivity|].
  assert (Hspec : Sample.storedLeave !! "approverUserIds"%string = None)
    by (vm_compute; reflexivity).
  assert (Hcode : Sample.storedLeave !! "approver_user_ids"%string = None)
    by (vm_compute; reflexivity).
  intros [Hchain|Hchain].
  - rewrite Hspec in Hchain. discriminate Hchain.
  - rewrite Hcode in Hchain. discriminate Hchain.
Qed.

(** The same submission through [routes/leave.js] and through the router
    over [hris_leave]. *)
Lemma approval_chain_recorded_witness :
  (∃ item,
     table "LeaveRequests"
           (LeaveRoutes.post_request Sample.platform Sample.leaveBody "e1"
              (Some "m1"%string) Sample.store).2
     !! ("leave_" ++ nowString Sample.platform ++ "_" ++ "e1")%string = Some item
     ∧ item !! "managerId"%string
       = Some (Js.or (Js.ofString (Some "m1"%string)) Js.Null)
     ∧ ∀ chain, ¬ carriesChain item chain)
  ∧ (∃ user item,
       table LeaveRoutesChain.USERS_TABLE Sample.store !! "e1"%string = Some user
       ∧ table LeaveRoutesChain.LEAVE_TABLE
               (LeaveRoutesChain.post_request Sample.platform Sample.leaveBody
                  "e1" Sample.store).2
         !! ("leave_" ++ uuidv4 Sample.platform 0%nat)%string = Some item
       ∧ item !! "approver_user_ids"%string
         = Some (Js.Arr (chainSpec (table LeaveRoutesChain.USERS_TABLE Sample.store)
                                   user))).
Proof.
  destruct approval_chain_recorded as [Hold Hnew].
  split.
  - apply (Hold Sample.platform Sample.leaveBody "e1"%string
                (Some "m1"%string) Sample.store).
    apply pair_from_fst. vm_compute; reflexivity.
  - apply (Hnew Sample.platform Sample.leaveBody "e1"%string Sample.store).
    apply pair_from_fst. vm_compute; reflexivity.
Defined.

(** The chain that the router over [hris_leave] records for [e1]. *)
Example chain_of_e1 :
  table LeaveRoutesChain.LEAVE_TABLE
        (LeaveRoutesChain.post_request Sample.platform Sample.leaveBody
           "e1" Sample.store).2
  !! "leave_uuid-0"%string ≫= (.!! "approver_user_ids"%string)
  = Some (Js.Arr [Js.Str "m1"; Js.Str "m2"]).
Proof. vm_compute; reflexivity. Qed.

(** A level-1 employee may upload documents (default level 1) and may
    not delete them (default level 4). *)
Example employee_documents :
  (canPerform Sample.outage Cache.initial "documents.upload"
              (Some Sample.employee)).1 = true
  ∧ (canPerform Sample.outage Cache.initial "documents.delete"
                (Some Sample.employee)).1 = false.
Proof. split; vm_compute; reflexivity. Qed.

(** A successful refresh replaces the snapshot and stamps it; within the
    five minutes the snapshot is kept, and after them it is stale. *)
Example refresh_then_fresh :
  Cache.timestamp (refreshIfNeeded Sample.healthy Cache.initial)
  = Some 1893456000000
  ∧ refreshIfNeeded Sample.outage (refreshIfNeeded Sample.healthy Cache.initial)
    = refreshIfNeeded Sample.healthy Cache.initial
  ∧ needsRefresh (1893456000000 + Cache.ttl + 1)
                 (refreshIfNeeded Sample.healthy Cache.initial) = true.
Proof. repeat split; vm_compute; reflexivity. Qed.

(** Rejecting the pending leave of [e1] answers 200 and leaves the
    balance alone. *)
Example rejection_keeps_balance :
  (LeaveRoutes.put_approve Sample.platform "leave_1_e1"
     (LeaveRoutes.mkApproveBody (Some "rejected"%string) None) "m1"
     Sample.store).1
  = Returned (Json 200 "Leave request approved successfully, status rejected")
  ∧ table "LeaveBalances"
          (LeaveRoutes.put_approve Sample.platform "leave_1_e1"
             (LeaveRoutes.mkApproveBody (Some "rejected"%string) None) "m1"
             Sample.store).2
    !! "e1"%string ≫= (.!! "annual"%string) = Some (Js.Num 20).
Proof. split; vm_compute; reflexivity. Qed.

End Instances.

(** ** Further worked instances *)

Import AuthorizeFeature Admin CheckApprovalAuthority CheckAccess Dynamo.

(** Of the two scanned items named [reports.export] the later one is
    cached. *)
Lemma refresh_replaces_snapshot_witness :
  ∃ snapshot,
    (∀ c, refreshPermissionsCache Fixture.duplicates c = (true, snapshot))
    ∧ Cache.permissions snapshot !! "reports.export"%string
      = Some (Permission.mk "reports.export" 3 "Export reports, revised")
    ∧ Cache.permissions snapshot !! "documents.upload"%string = None.
Proof.
  destruct (refresh_replaces_snapshot Fixture.duplicates _ _ eq_refl eq_refl)
    as (snapshot & Hall & _ & Hpermissions & _).
  exists snapshot. split; [exact Hall|]. rewrite !Hpermissions.
  split; reflexivity.
Defined.

(** A snapshot that is exactly 300000 ms old is still fresh: the decision
    uses its level 1 for [documents.delete] although the store is out of
    reach. *)
Lemma fresh_snapshot_is_kept_witness :
  needsRefresh (nowAtCheck Sample.outage) Fixture.fiveMinutesOld = false
  ∧ canPerform Sample.outage Fixture.fiveMinutesOld "documents.delete"
               (Some Sample.employee)
    = (true, Fixture.fiveMinutesOld).
Proof.
  destruct (fresh_snapshot_is_kept Sample.outage Fixture.fiveMinutesOld)
    as [Hiff Hkept].
  assert (Hfresh : needsRefresh (nowAtCheck Sample.outage) Fixture.fiveMinutesOld
                   = false).
  { apply Hiff. exists (1893456000000 - 300000).
    split; [reflexivity|]. split; [discriminate|]. vm_compute. discriminate. }
  split; [exact Hfresh|].
  rewrite (proj1 (Hkept Hfresh "documents.delete"%string Sample.employee)).
  reflexivity.
Defined.

(** The intern passes the middleware for [system.logs] as [canPerform]
    says; a request without an actor is answered 401. *)
Lemma middleware_agrees_with_canPerform_witness :
  (authorizeFeature "system.logs" Sample.healthy Cache.initial
                    (Some Sample.intern)).1 = Next
  ∧ authorizeFeature "system.logs" Sample.healthy Cache.initial None
    = (Json 401 "Authentication required", Cache.initial).
Proof.
  destruct (middleware_agrees_with_canPerform Sample.healthy Cache.initial
              "system.logs") as (Hagree & Hnone & _).
  split; [|exact Hnone].
  apply (Hagree healthy_levels_valid Sample.intern eq_refl).
  reflexivity.
Defined.

(** What the manager (level 3) may do, the same actor may do at level 5. *)
Lemma higher_level_dominates_witness :
  (canPerform Sample.healthy Cache.initial "analytics.basic"
              (Some (withLevel Sample.manager 5))).1 = true.
Proof.
  apply (higher_level_dominates Sample.healthy Cache.initial "analytics.basic"
           Sample.manager 3 5 healthy_levels_valid eq_refl).
  - lia.
  - reflexivity.
Defined.

(** The custom permission [reports.export] is listed with its level 2
    and flagged custom; [hasOwnProperty] is not listed, and no level
    suffices for it. *)
Lemma listing_matches_enforcement_witness :
  (getAllPermissions Sample.healthy Cache.initial).1 !! "reports.export"%string
  = Some (mkListing 2 "Export reports" true)
  ∧ (getAllPermissions Sample.healthy Cache.initial).1
    !! "hasOwnProperty"%string = None
  ∧ levelSuffices Sample.admin
      (permissionInfo (refreshIfNeeded Sample.healthy Cache.initial)
                      "hasOwnProperty") = false.
Proof.
  assert (Hnone : (getAllPermissions Sample.healthy Cache.initial).1
                  !! "hasOwnProperty"%string = None) by reflexivity.
  pose proof (listing_matches_enforcement Sample.healthy Cache.initial
                "hasOwnProperty" (map_Forall_empty _) eq_refl) as [_ Hunlisted].
  rewrite Hnone in Hunlisted.
  destruct Hunlisted as (_ & _ & _ & Hdenied).
  split; [reflexivity|]. split; [exact Hnone|].
  rewrite Hdenied. reflexivity.
Defined.

Lemma fixture_tables_keyed :
  map_Forall (λ name item, Permission.permissionName item = name)
             (permissionsTable Fixture.tables)
  ∧ map_Forall (λ roleId role, Role.roleId role = roleId)
               (rolesTable Fixture.tables).
Proof.
  split; apply (bool_decide_unpack _); vm_compute; exact I.
Defined.

(** Writing [payroll.run] at level 4 makes the engine require level 4. *)
Lemma setPermission_read_after_write_witness :
  ∃ t' c',
    setPermission Fixture.reachable Fixture.tables Cache.initial
                  "payroll.run" 4 "Run the payroll" = (true, t', c')
    ∧ permissionInfo c' "payroll.run"
      = Permission.mk "payroll.run" 4 "Run the payroll".
Proof.
  destruct (setPermission_read_after_write Fixture.reachable Fixture.tables
              Cache.initial "payroll.run" 4 "Run the payroll"
              (proj1 fixture_tables_keyed) (proj2 fixture_tables_keyed)
              eq_refl eq_refl eq_refl)
    as (t' & c' & Hset & _ & _ & _ & _ & _ & Hinfo).
  exists t', c'. split; [exact Hset|exact Hinfo].
Defined.

(** With the scans rejected the write is reported as done and the cache
    is the old one; with the [put] rejected nothing happens. *)
Lemma setPermission_reports_the_put_witness :
  (setPermission Fixture.writeOnly Fixture.tables Cache.initial
                 "payroll.run" 4 "Run the payroll").1.1 = true
  ∧ (setPermission Fixture.writeOnly Fixture.tables Cache.initial
                   "payroll.run" 4 "Run the payroll").2 = Cache.initial
  ∧ setPermission Fixture.unreachable Fixture.tables Cache.initial
                  "payroll.run" 4 "Run the payroll"
    = (false, Fixture.tables, Cache.initial).
Proof.
  destruct (setPermission_reports_the_put Fixture.writeOnly Fixture.tables
              Cache.initial "payroll.run" 4 "Run the payroll") as [_ Hstale].
  destruct (setPermission_reports_the_put Fixture.unreachable Fixture.tables
              Cache.initial "payroll.run" 4 "Run the payroll") as [Hfailed _].
  rewrite (Hstale eq_refl (or_introl eq_refl)).
  split; [reflexivity|]. split; [reflexivity|]. exact (Hfailed eq_refl).
Defined.

(** After [setRole] of a payroll role the employee who holds it may run
    the payroll. *)
Lemma setRole_takes_effect_witness :
  (canPerform Sample.outage
              (setRole Fixture.reachable Fixture.tables Cache.initial
                       "payroll" "Payroll" ["payroll.run"%string]).2
              "payroll.run"
              (Some (withRoles Sample.employee ["payroll"%string]))).1 = true.
Proof.
  apply (setRole_takes_effect Fixture.reachable Fixture.tables Cache.initial
           "payroll" "Payroll" ["payroll.run"%string] "payroll.run"
           Sample.outage (withRoles Sample.employee ["payroll"%string])
           ["payroll"%string] (proj2 fixture_tables_keyed) eq_refl eq_refl eq_refl).
  - left; left.
  - reflexivity.
  - left.
  - reflexivity.
Defined.

Lemma fixture_tables_valid : validTable Fixture.tables.
Proof. apply (bool_decide_unpack _). vm_compute. exact I. Defined.

(** The administrator's write of [payroll.run] at level 4 leaves a table
    with levels in range. *)
Lemma post_permissions_keeps_levels_in_range_witness :
  validTable (post_permissions Fixture.reachable Fixture.reachable
                Fixture.tables Cache.initial (Some Sample.admin)
                Fixture.permissionBody).1.2
  ∧ (post_permissions Fixture.reachable Fixture.reachable Fixture.tables
       Cache.initial (Some Sample.admin) Fixture.permissionBody).1.1
    = Json 200 "Permission created/updated successfully".
Proof.
  split.
  - apply (post_permissions_keeps_levels_in_range Fixture.reachable
             Fixture.reachable Fixture.tables Cache.initial (Some Sample.admin)
             Fixture.permissionBody fixture_tables_valid).
  - reflexivity.
Defined.

(** HR (level 4) may not approve a high expense by type, and may by
    department. *)
Lemma canApprove_within_checkAuthority_witness :
  checkAuthority (Some Sample.hr) (Some "sales"%string) = true
  ∧ canApprove "expense-high" 4
               (bool_decide (User.department Sample.hr = Some "sales"%string))
    = false.
Proof.
  apply (canApprove_within_checkAuthority Sample.hr 4 "expense-high"
           (Some "sales"%string) eq_refl eq_refl).
  left. split; reflexivity.
Defined.

(** What a manager may approve in the own department, HR may approve
    there as well. *)
Lemma canApprove_monotone_witness : canApprove "travel" 4 true = true.
Proof.
  apply (canApprove_monotone "travel" 3 4 true true).
  - lia.
  - intros _. reflexivity.
  - reflexivity.
Defined.

(** The token of [m1] may say anything: the record says level 3, which is
    refused at level 4 and passes at level 3; the record of [e1] carries
    no level and passes at level 5. *)
Lemma checkAccess_reads_the_record_witness :
  (checkAccess "hris_users" 4 (Some (withLevel Sample.manager 5)) Fixture.staff).1
  = Returned (Json 403 "Insufficient access level", None)
  ∧ (checkAccess "hris_users" 3 (Some Sample.manager) Fixture.staff).1
    = Returned (Next, Some Fixture.managerRecord)
  ∧ (checkAccess "hris_users" 5 (Some Sample.clerk) Fixture.staff).1
    = Returned (Next, Some Fixture.bareRecord)
  ∧ (checkAccess "hris_users" 1 (Some Sample.hr) Fixture.staff).1
    = Returned (Json 403 "User not found", None).
Proof.
  assert (Hm1 : "m1"%string ≠ EmptyString) by discriminate.
  assert (He1 : "e1"%string ≠ EmptyString) by discriminate.
  assert (Hh1 : "h1"%string ≠ EmptyString) by discriminate.
  assert (Hmanager : table "hris_users" Fixture.staff !! "m1"%string
                     = Some Fixture.managerRecord) by (reflexivity).
  assert (Hbare : table "hris_users" Fixture.staff !! "e1"%string
                  = Some Fixture.bareRecord) by (reflexivity).
  assert (Hlevel : Fixture.managerRecord !! "access_level"%string
                   = Some (Js.Num 3)) by (reflexivity).
  split; [|split; [|split]].
  - destruct (checkAccess_reads_the_record "hris_users" 4
                (withLevel Sample.manager 5) "m1" Fixture.staff eq_refl Hm1)
      as (_ & _ & Hrecord).
    exact (proj1 (Hrecord _ Hmanager) 3 Hlevel).
  - destruct (checkAccess_reads_the_record "hris_users" 3
                Sample.manager "m1" Fixture.staff eq_refl Hm1)
      as (_ & _ & Hrecord).
    exact (proj1 (Hrecord _ Hmanager) 3 Hlevel).
  - destruct (checkAccess_reads_the_record "hris_users" 5
                Sample.clerk "e1" Fixture.staff eq_refl He1)
      as (_ & _ & Hrecord).
    apply (proj2 (Hrecord _ Hbare)). reflexivity.
  - destruct (checkAccess_reads_the_record "hris_users" 1
                Sample.hr "h1" Fixture.staff eq_refl Hh1)
      as (_ & Hnone & _).
    apply Hnone. reflexivity.
Defined.

(** The first read of an employee without a balance item answers the
    default 20 days of annual leave, leaves the users table alone, and a
    second read answers the same. *)
Lemma getLeaveBalance_initialises_once_witness :
  (LeaveRoutes.getLeaveBalance "e9" (Some "annual"%string) Sample.store).1
  = Returned (inl (Js.Num 20))
  ∧ table "hris_users"
          (LeaveRoutes.getLeaveBalance "e9" (Some "annual"%string) Sample.store).2
    = table "hris_users" Sample.store
  ∧ LeaveRoutes.getLeaveBalance "e9" (Some "annual"%string)
      (LeaveRoutes.getLeaveBalance "e9" (Some "annual"%string) Sample.store).2
    = LeaveRoutes.getLeaveBalance "e9" (Some "annual"%string) Sample.store.
Proof.
  destruct (getLeaveBalance_initialises_once "e9" (Some "annual"%string)
              Sample.store)
    as (balance & Hbalance & _ & Hanswer & _ & _ & Hframe & Hagain).
  split; [|split; [|exact Hagain]].
  - rewrite Hanswer, Hbalance. reflexivity.
  - apply Hframe. discriminate.
Defined.

(** Three days off the 20 of [e1] succeed; for [e9], who has no balance
    item, the update is rejected. *)
Lemma updateLeaveBalance_subtracts_witness :
  (LeaveRoutes.updateLeaveBalance (Js.Str "e1") (Js.Str "annual") (Js.Num 3)
                                  Sample.store).1 = Returned tt
  ∧ LeaveRoutes.updateLeaveBalance (Js.Str "e9") (Js.Str "annual") (Js.Num 3)
                                   Sample.store
    = (Thrown "ValidationException", Sample.store).
Proof.
  split.
  - destruct (updateLeaveBalance_subtracts "e1" "annual" 3 Sample.store)
      as [Hsubtract _].
    assert (Hitem : table "LeaveBalances" Sample.store !! "e1"%string
                    = Some (LeaveRoutes.defaultBalance "e1"))
      by (reflexivity).
    assert (Hdays : LeaveRoutes.defaultBalance "e1" !! "annual"%string
                    = Some (Js.Num 20)) by (reflexivity).
    destruct (Hsubtract _ 20 Hitem Hdays) as [Hresult _].
    rewrite Hresult. reflexivity.
  - destruct (updateLeaveBalance_subtracts "e9" "annual" 3 Sample.store)
      as [_ Hrejected].
    apply Hrejected. left. reflexivity.
Defined.

(** From the 7th at 09:00 to the 10th at 09:00: three days in
    [routes/leave.js], four in the router over [hris_leave]. *)
Lemma day_count_bounds_witness :
  LeaveRoutes.getDateDiffInDays (21921 * msPerDay + 9 * 3600000)
                                (21924 * msPerDay + 9 * 3600000) = 3
  ∧ LeaveRoutesChain.getDateDiffInDays (21921 * msPerDay + 9 * 3600000)
                                       (21924 * msPerDay + 9 * 3600000) = 4.
Proof.
  destruct (day_count_bounds (21921 * msPerDay + 9 * 3600000)
                             (21924 * msPerDay + 9 * 3600000) eq_refl)
    as (_ & _ & _ & _ & Hchain).
  split; [reflexivity|].
  rewrite Hchain. reflexivity.
Defined.

(** The submission of [e1] is accepted and leaves the users table as it
    was. *)
Lemma post_request_files_one_pending_request_witness :
  (∃ item,
     table "LeaveRequests"
           (LeaveRoutes.post_request Sample.platform Sample.leaveBody "e1"
              (Some "m1"%string) Sample.store).2
     = <["leave_1893456000000_e1"%string := item]>
         (table "LeaveRequests" Sample.store)
     ∧ item !! "status"%string = Some (Js.Str "pending"))
  ∧ table "hris_users"
          (LeaveRoutes.post_request Sample.platform Sample.leaveBody "e1"
             (Some "m1"%string) Sample.store).2
    = table "hris_users" Sample.store.
Proof.
  destruct (post_request_files_one_pending_request Sample.platform
              Sample.leaveBody "e1" (Some "m1"%string) Sample.store)
    as (_ & Hfiled & Hframe).
  split.
  - assert (Hcreated : (LeaveRoutes.post_request Sample.platform Sample.leaveBody
                          "e1" (Some "m1"%string) Sample.store).1
                       = Returned (Json 201 "Leave request submitted successfully"))
      by (reflexivity).
    destruct (Hfiled Hcreated)
      as (item & startDate & endDate & Htable & Hstatus & _).
    exists item. split; [exact Htable|exact Hstatus].
  - apply Hframe; discriminate.
Defined.

(** With 20 days of annual leave and a request for three, the request is
    accepted. *)
Lemma balance_check_compares_numbers_witness :
  (LeaveRoutes.post_request Sample.platform Sample.leaveBody "e1"
     (Some "m1"%string) Sample.store).1
  = Returned (Json 201 "Leave request submitted successfully").
Proof.
  assert (Htype : "annual"%string ≠ EmptyString) by discriminate.
  destruct (balance_check_compares_numbers Sample.platform Sample.leaveBody
              "e1" (Some "m1"%string) Sample.store "annual"
              eq_refl eq_refl eq_refl Htype eq_refl eq_refl eq_refl)
    as [Hnumber _].
  rewrite (Hnumber 20); [reflexivity|]. reflexivity.
Defined.

(** The manager [m1] is refused the history of [e1]; the role ['admin']
    is served the one request of [e1]. *)
Lemma history_is_served_to_owner_and_admin_witness :
  LeaveRecords.get_history "e1" "m1" (Js.Str "manager") Sample.store
  = (Returned (Json 403 "Access denied", None), Sample.store)
  ∧ ∃ requests balance,
      (LeaveRecords.get_history "e1" "a1" (Js.Str "admin") Sample.store).1
      = Returned (Json 200 EmptyString, Some (requests, inr balance))
      ∧ Sample.pendingLeave ∈ requests.
Proof.
  split.
  - destruct (history_is_served_to_owner_and_admin "e1" "m1" (Js.Str "manager")
                Sample.store) as [Hdenied _].
    apply Hdenied; discriminate.
  - destruct (history_is_served_to_owner_and_admin "e1" "a1" (Js.Str "admin")
                Sample.store) as [_ Hserved].
    destruct (Hserved (or_introl eq_refl))
      as (requests & balance & Hanswer & Hrequests & _).
    exists requests, balance. split; [exact Hanswer|].
    apply Hrequests. exists "leave_1_e1"%string.
    split; reflexivity.
Defined.

(** After the punch in of the morning, the punch out of [e1] is logged
    and the day stays orderly. *)
Lemma attendance_keeps_days_orderly_witness :
  orderlyDays
    (table "AttendanceLogs"
           (LeaveRecords.post_attendance Sample.platform Fixture.punchOut "e1"
                                         Fixture.morning).2)
  ∧ (LeaveRecords.post_attendance Sample.platform Fixture.punchOut "e1"
                                  Fixture.morning).1
    = Returned (Json 201 "Attendance punched out").
Proof.
  assert (Hlogs : table "AttendanceLogs" Fixture.morning
                  = {[ "attendance_1893427200000_e1"%string := Fixture.morningLog ]})
    by reflexivity.
  split; [|reflexivity].
  apply (attendance_keeps_days_orderly Sample.platform Fixture.punchOut "e1"
           Fixture.morning).
  - reflexivity.
  - rewrite Hlogs. split.
    + intros e d t id1 id2 log1 log2 Hlog1 Hlog2 _ _.
      apply lookup_singleton_Some in Hlog1 as [<- _].
      by apply lookup_singleton_Some in Hlog2 as [<- _].
    + intros e d id log Hlog (_ & _ & Htype).
      apply lookup_singleton_Some in Hlog as [_ <-].
      discriminate Htype.
Defined.

(** A training request of [e1] is filed beside the decided request [r1],
    and is cancelled again; [r1] stays. *)
Lemma request_round_trip_witness :
  (RequestRecords.post Sample.platform Fixture.trainingRequest "e1"
                       (Js.Str "Eve") (Some "sales"%string)
                       [Sample.decidedRequest]).1
  = Returned (Json 201 "Request created successfully")
  ∧ (RequestRecords.delete_id "uuid-0" "e1"
       (RequestRecords.post Sample.platform Fixture.trainingRequest "e1"
                            (Js.Str "Eve") (Some "sales"%string)
                            [Sample.decidedRequest]).2).1
    = Returned (Json 200 "Request cancelled successfully")
  ∧ Sample.decidedRequest
    ∈ (RequestRecords.delete_id "uuid-0" "e1"
         (RequestRecords.post Sample.platform Fixture.trainingRequest "e1"
                              (Js.Str "Eve") (Some "sales"%string)
                              [Sample.decidedRequest]).2).2.
Proof.
  assert (Hvalid : RequestRecords.type Fixture.trainingRequest
                   ∈ RequestRecords.validTypes).
  { right; left. }
  pose proof (request_round_trip Sample.platform Fixture.trainingRequest "e1"
                (Js.Str "Eve") (Some "sales"%string) [Sample.decidedRequest]
                Hvalid) as Hround.
  cbv zeta in Hround.
  destruct Hround as (Hfiled & _ & _ & Hcancelled & _ & Hkept).
  split; [exact Hfiled|]. split; [exact Hcancelled|].
  apply Hkept; [left|].
  intros [Hpk _]. vm_compute in Hpk. discriminate Hpk.
Defined.

(** The decided request of [e1] is not cancelled by [e2]. *)
Lemma cancel_only_own_pending_witness :
  Sample.decidedRequest
  ∈ (RequestRecords.delete_id "r1" "e2" [Sample.decidedRequest]).2.
Proof.
  destruct (cancel_only_own_pending "r1" "e2" [Sample.decidedRequest])
    as [_ Hother].
  apply (Hother Sample.decidedRequest "e1"%string).
  - left.
  - reflexivity.
  - discriminate.
Defined.

(** The approval of [r1] by the manager of the department is answered
    500 and the table is as before. *)
Lemma put_id_never_writes_witness :
  RequestRoutes.put_id Sample.platform "r1" Fixture.approval Sample.manager
                       (Js.Str "Max") [Sample.decidedRequest]
  = (Returned internalServerError, [Sample.decidedRequest]).
Proof.
  destruct (put_id_never_writes Sample.platform "r1" Fixture.approval
              Sample.manager (Js.Str "Max") [Sample.decidedRequest])
    as [Hsame Herror].
  apply pair_from_fst in Herror.
  - rewrite Herror, Hsame. reflexivity.
  - left.
  - exists Sample.decidedRequest. split; [left|reflexivity].
Defined.

(** The submission of [e9], of whom the users table has no record, is
    answered 404 and leaves a balance item for [e9]. *)
Lemma unknown_user_leaves_a_balance_witness :
  LeaveRoutesChain.post_request Sample.platform Sample.leaveBody "e9"
                                Sample.store
  = (Returned (Json 404 "User not found"),
     <[LeaveRoutesChain.LEAVE_TABLE :=
         <["balance_e9"%string :=
             LeaveRoutesChain.defaultBalance Sample.platform "e9"]>
           (table LeaveRoutesChain.LEAVE_TABLE Sample.store)]> Sample.store).
Proof.
  assert (Htype : "annual"%string ≠ EmptyString) by discriminate.
  apply (unknown_user_leaves_a_balance Sample.platform Sample.leaveBody "e9"
           "annual" Sample.store eq_refl eq_refl eq_refl Htype eq_refl
           eq_refl eq_refl).
  - reflexivity.
  - reflexivity.
  - reflexivity.
Defined.

